(** * diario-utils: the Parquet storage layer, embedded and verified

    A shallow embedding of [diario_utils/storage] (paths.py, base.py,
    local.py / backend.py, parquet.py) together with the properties the
    specification states about it.

    Conventions of the embedding
    - Python [bytes] are [list byte].
    - Python [str] values that the code only formats, compares or stores
      (identifiers, paths, dates, SQL text) are Rocq [string]s holding the
      UTF-8 bytes of the text.  The article body and the hierarchy labels,
      where the code counts or escapes characters, are lists of code points
      ([pystr]).
    - Effects (backend, logger, clock) are threaded through one state and
      error monad; an exception leaves the state as it was when raised. *)

From Stdlib Require Import ZArith NArith Lia List Bool Ascii String.
From Stdlib Require Import Strings.Byte.
From Stdlib Require Import DecimalString DecimalN.
From stdpp Require Import base option list gmap strings sorting.

Set Warnings "-abstract-large-number".

Open Scope string_scope.
Open Scope list_scope.

(** ** Small Python builtins *)

Module Py.

(** [str(z)] / [f"{z}"] for an integer. *)
Definition str_of_Z (z : Z) : string := NilEmpty.string_of_int (Z.to_int z).

(** [str(n)] / [f"{n}"] for a non-negative integer. *)
Definition str_of_nat (n : nat) : string :=
  NilEmpty.string_of_uint (N.to_uint (N.of_nat n)).

(** [s * n] for one character: [n] copies of [c]. *)
Fixpoint repeat_char (c : ascii) (n : nat) : string :=
  match n with
  | O => EmptyString
  | S k => String c (repeat_char c k)
  end.

(** [f"{n:0{w}d}"]: decimal, left-padded with zeros to width [w]. *)
Definition format_0d (w n : nat) : string :=
  let s := str_of_nat n in
  repeat_char "0"%char (w - String.length s) +:+ s.

(** [sep.join(parts)]. *)
Fixpoint join (sep : string) (parts : list string) : string :=
  match parts with
  | [] => ""
  | [p] => p
  | p :: rest => p +:+ sep +:+ join sep rest
  end.

(** [s[a:a+n]] for in-range or out-of-range slices (Python clips). *)
Definition slice (a n : nat) (s : string) : string := String.substring a n s.

(** Truthiness of a string: [bool(s)]. *)
Definition truthy_str (s : string) : bool :=
  match s with EmptyString => false | _ => true end.

(** ASCII text as bytes: [s.encode("utf-8")] on a [string] of the model. *)
Definition encode (s : string) : list byte := list_byte_of_string s.

End Py.

(** ** hashlib: SHA-256 and MD5 over byte strings *)

Module Hashlib.

Local Open Scope Z_scope.

Definition w32 (x : Z) : Z := x mod 2 ^ 32.
Definition add32 (x y : Z) : Z := w32 (x + y).
Definition not32 (x : Z) : Z := 2 ^ 32 - 1 - x.
Definition rotr32 (n x : Z) : Z :=
  Z.lor (Z.shiftr x n) (w32 (Z.shiftl x (32 - n))).
Definition rotl32 (n x : Z) : Z := rotr32 (32 - n) x.

Definition byteZ (b : byte) : Z := Z.of_N (Byte.to_N b).
Definition Zbyte (z : Z) : byte :=
  match Byte.of_N (Z.to_N (z mod 256)) with
  | Some b => b
  | None => x00
  end.

(** Big- and little-endian encodings of an integer on [n] bytes. *)
Fixpoint le_bytes (n : nat) (z : Z) : list byte :=
  match n with
  | O => []
  | S k => Zbyte z :: le_bytes k (Z.shiftr z 8)
  end.
Definition be_bytes (n : nat) (z : Z) : list byte := rev (le_bytes n z).

Definition be_word (bs : list byte) : Z :=
  fold_left (fun acc b => acc * 256 + byteZ b) bs 0.
Definition le_word (bs : list byte) : Z := be_word (rev bs).

(** Split into chunks of [n] items; [fuel] bounds the number of chunks. *)
Fixpoint chunks {A} (fuel n : nat) (l : list A) : list (list A) :=
  match fuel, l with
  | O, _ | _, [] => []
  | S f, _ => firstn n l :: chunks f n (skipn n l)
  end.

(** Merkle-Damgard padding shared by both digests: 0x80, zeros up to
    56 mod 64, then the bit length on 8 bytes. *)
Definition pad_zeros (len : nat) : nat := (119 - len mod 64) mod 64.
Definition padded (len_bytes : Z -> list byte) (msg : list byte) : list byte :=
  msg ++ x80 :: repeat x00 (pad_zeros (length msg))
      ++ len_bytes (8 * Z.of_nat (length msg)).

Definition blocks (p : list byte) : list (list byte) :=
  chunks (S (length p / 64)) 64 p.

Definition hex_digit (z : Z) : ascii :=
  ascii_of_N (Z.to_N (if z <? 10 then 48 + z else 87 + z)).
Definition hex_of_byte (b : byte) : string :=
  String (hex_digit (byteZ b / 16)) (String (hex_digit (byteZ b mod 16)) "").
Definition hexdigest (bs : list byte) : string :=
  fold_right (fun b acc => (hex_of_byte b +:+ acc)) ""%string bs.

(** *** SHA-256 (FIPS 180-4) *)

(** The round constants are the first 32 bits of the fractional parts of
    the cube roots of the first 64 primes, the initial state those of the
    square roots of the first 8. *)
Definition is_prime (n : nat) : bool :=
  (2 <=? n)%nat && forallb (fun d => negb (n mod d =? 0)%nat) (seq 2 (n - 2)).

Definition primes (k : nat) : list nat := firstn k (List.filter is_prime (seq 2 400)).

Fixpoint icbrt_bits (k : nat) (n r : Z) : Z :=
  match k with
  | O => r
  | S j =>
      let c := r + 2 ^ Z.of_nat j in
      icbrt_bits j n (if c * c * c <=? n then c else r)
  end.

Definition frac32_cbrt (p : nat) : Z :=
  w32 (icbrt_bits 40 (Z.of_nat p * 2 ^ 96) 0).

Definition frac32_sqrt (p : nat) : Z :=
  w32 (Z.sqrt (Z.of_nat p * 2 ^ 64)).

Definition K256 : list Z := Eval vm_compute in map frac32_cbrt (primes 64).

Definition H256 : list Z := Eval vm_compute in map frac32_sqrt (primes 8).

Definition ssig0 x := Z.lxor (Z.lxor (rotr32 7 x) (rotr32 18 x)) (Z.shiftr x 3).
Definition ssig1 x := Z.lxor (Z.lxor (rotr32 17 x) (rotr32 19 x)) (Z.shiftr x 10).
Definition bsig0 x := Z.lxor (Z.lxor (rotr32 2 x) (rotr32 13 x)) (rotr32 22 x).
Definition bsig1 x := Z.lxor (Z.lxor (rotr32 6 x) (rotr32 11 x)) (rotr32 25 x).
Definition ch x y z := Z.lxor (Z.land x y) (Z.land (not32 x) z).
Definition maj x y z := Z.lxor (Z.lxor (Z.land x y) (Z.land x z)) (Z.land y z).

(** The message schedule, newest word first: [ws] holds w[i-1], w[i-2], ... *)
Fixpoint schedule (n : nat) (ws : list Z) : list Z :=
  match n with
  | O => ws
  | S k =>
      let w := add32 (add32 (ssig1 (nth 1 ws 0)) (nth 6 ws 0))
                     (add32 (ssig0 (nth 14 ws 0)) (nth 15 ws 0)) in
      schedule k (w :: ws)
  end.

Definition round256 (st : list Z) (kw : Z * Z) : list Z :=
  match st with
  | [a; b; c; d; e; f; g; h] =>
      let t1 := add32 (add32 (add32 h (bsig1 e)) (add32 (ch e f g) (fst kw))) (snd kw) in
      let t2 := add32 (bsig0 a) (maj a b c) in
      [add32 t1 t2; a; b; c; add32 d t1; e; f; g]
  | _ => st
  end.

Definition compress256 (st : list Z) (block : list byte) : list Z :=
  let w16 := map be_word (chunks 16 4 block) in
  let ws := rev (schedule 48 (rev w16)) in
  let st' := fold_left round256 (combine K256 ws) st in
  map (fun p => add32 (fst p) (snd p)) (combine st st').

Definition sha256_digest (msg : list byte) : list byte :=
  let st := fold_left compress256 (blocks (padded (be_bytes 8) msg)) H256 in
  concat (map (be_bytes 4) st).

(** [hashlib.sha256(b).hexdigest()] *)
Definition sha256 (msg : list byte) : string := hexdigest (sha256_digest msg).

(** *** MD5 (RFC 1321) *)

Definition K5 : list Z :=
  [ 0xd76aa478; 0xe8c7b756; 0x242070db; 0xc1bdceee; 0xf57c0faf; 0x4787c62a;
    0xa8304613; 0xfd469501; 0x698098d8; 0x8b44f7af; 0xffff5bb1; 0x895cd7be;
    0x6b901122; 0xfd987193; 0xa679438e; 0x49b40821; 0xf61e2562; 0xc040b340;
    0x265e5a51; 0xe9b6c7aa; 0xd62f105d; 0x02441453; 0xd8a1e681; 0xe7d3fbc8;
    0x21e1cde6; 0xc33707d6; 0xf4d50d87; 0x455a14ed; 0xa9e3e905; 0xfcefa3f8;
    0x676f02d9; 0x8d2a4c8a; 0xfffa3942; 0x8771f681; 0x6d9d6122; 0xfde5380c;
    0xa4beea44; 0x4bdecfa9; 0xf6bb4b60; 0xbebfbc70; 0x289b7ec6; 0xeaa127fa;
    0xd4ef3085; 0x04881d05; 0xd9d4d039; 0xe6db99e5; 0x1fa27cf8; 0xc4ac5665;
    0xf4292244; 0x432aff97; 0xab9423a7; 0xfc93a039; 0x655b59c3; 0x8f0ccc92;
    0xffeff47d; 0x85845dd1; 0x6fa87e4f; 0xfe2ce6e0; 0xa3014314; 0x4e0811a1;
    0xf7537e82; 0xbd3af235; 0x2ad7d2bb; 0xeb86d391 ].

Definition S5 : list Z :=
  [ 7; 12; 17; 22; 7; 12; 17; 22; 7; 12; 17; 22; 7; 12; 17; 22;
    5; 9; 14; 20; 5; 9; 14; 20; 5; 9; 14; 20; 5; 9; 14; 20;
    4; 11; 16; 23; 4; 11; 16; 23; 4; 11; 16; 23; 4; 11; 16; 23;
    6; 10; 15; 21; 6; 10; 15; 21; 6; 10; 15; 21; 6; 10; 15; 21 ].

Definition H5 : list Z := [ 0x67452301; 0xefcdab89; 0x98badcfe; 0x10325476 ].

Definition round5 (m : list Z) (st : list Z) (i : nat) : list Z :=
  match st with
  | [a; b; c; d] =>
      let q := (i / 16)%nat in
      let f :=
        match q with
        | 0%nat => Z.lor (Z.land b c) (Z.land (not32 b) d)
        | 1%nat => Z.lor (Z.land d b) (Z.land (not32 d) c)
        | 2%nat => Z.lxor (Z.lxor b c) d
        | _ => Z.lxor c (Z.lor b (not32 d))
        end in
      let g :=
        match q with
        | 0%nat => i
        | 1%nat => ((5 * i + 1) mod 16)%nat
        | 2%nat => ((3 * i + 5) mod 16)%nat
        | _ => ((7 * i) mod 16)%nat
        end in
      let f' := add32 (add32 f a) (add32 (nth i K5 0) (nth g m 0)) in
      [d; add32 b (rotl32 (nth i S5 0) f'); b; c]
  | _ => st
  end.

Definition compress5 (st : list Z) (block : list byte) : list Z :=
  let m := map le_word (chunks 16 4 block) in
  let st' := fold_left (round5 m) (seq 0 64) st in
  map (fun p => add32 (fst p) (snd p)) (combine st st').

Definition md5_digest (msg : list byte) : list byte :=
  let st := fold_left compress5 (blocks (padded (le_bytes 8) msg)) H5 in
  concat (map (le_bytes 4) st).

(** [hashlib.md5(b).hexdigest()] *)
Definition md5 (msg : list byte) : string := hexdigest (md5_digest msg).

End Hashlib.

(** ** Unicode text: [bytes.decode("utf-8")] and [str.encode("utf-8")] *)

Module Utf8.

Local Open Scope N_scope.

(** A Python [str] as its sequence of code points; [len] is [length]. *)
Definition pystr : Type := list N.

Definition of_ascii_string (s : string) : pystr :=
  map N_of_ascii (list_ascii_of_string s).

Definition byteN (b : byte) : N := Byte.to_N b.
Definition Nbyte (n : N) : byte :=
  match Byte.of_N (n mod 256) with
  | Some b => b
  | None => x00
  end.

Definition between (lo hi x : N) : bool := (lo <=? x) && (x <=? hi).
Definition is_cont (x : N) : bool := between 0x80 0xBF x.
Definition low6 (x : N) : N := N.land x 0x3F.

(** Strict decoding, as CPython does it: shortest form only, no
    surrogates, nothing above U+10FFFF.  [None] is [UnicodeDecodeError]. *)
Fixpoint decodeN (bs : list N) : option pystr :=
  match bs with
  | [] => Some []
  | b0 :: r0 =>
      if b0 <? 0x80 then cons b0 <$> decodeN r0
      else if between 0xC2 0xDF b0 then
        match r0 with
        | b1 :: r1 =>
            if is_cont b1
            then cons (N.lor (N.shiftl (N.land b0 0x1F) 6) (low6 b1)) <$> decodeN r1
            else None
        | _ => None
        end
      else if between 0xE0 0xEF b0 then
        match r0 with
        | b1 :: b2 :: r2 =>
            let lo := if b0 =? 0xE0 then 0xA0 else 0x80 in
            let hi := if b0 =? 0xED then 0x9F else 0xBF in
            if between lo hi b1 && is_cont b2
            then cons (N.lor (N.shiftl (N.land b0 0x0F) 12)
                        (N.lor (N.shiftl (low6 b1) 6) (low6 b2))) <$> decodeN r2
            else None
        | _ => None
        end
      else if between 0xF0 0xF4 b0 then
        match r0 with
        | b1 :: b2 :: b3 :: r3 =>
            let lo := if b0 =? 0xF0 then 0x90 else 0x80 in
            let hi := if b0 =? 0xF4 then 0x8F else 0xBF in
            if between lo hi b1 && is_cont b2 && is_cont b3
            then cons (N.lor (N.shiftl (N.land b0 0x07) 18)
                        (N.lor (N.shiftl (low6 b1) 12)
                          (N.lor (N.shiftl (low6 b2) 6) (low6 b3)))) <$> decodeN r3
            else None
        | _ => None
        end
      else None
  end.

Definition decode (bs : list byte) : option pystr := decodeN (map byteN bs).

(** One code point to bytes; [None] is [UnicodeEncodeError] (a lone
    surrogate; values above U+10FFFF are not code points at all). *)
Definition encode_cp (c : N) : option (list byte) :=
  if c <? 0x80 then Some [Nbyte c]
  else if c <? 0x800 then
    Some [Nbyte (N.lor 0xC0 (N.shiftr c 6)); Nbyte (N.lor 0x80 (low6 c))]
  else if c <? 0x10000 then
    if between 0xD800 0xDFFF c then None
    else Some [Nbyte (N.lor 0xE0 (N.shiftr c 12));
               Nbyte (N.lor 0x80 (low6 (N.shiftr c 6)));
               Nbyte (N.lor 0x80 (low6 c))]
  else if c <=? 0x10FFFF then
    Some [Nbyte (N.lor 0xF0 (N.shiftr c 18));
          Nbyte (N.lor 0x80 (low6 (N.shiftr c 12)));
          Nbyte (N.lor 0x80 (low6 (N.shiftr c 6)));
          Nbyte (N.lor 0x80 (low6 c))]
  else None.

Fixpoint encode (s : pystr) : option (list byte) :=
  match s with
  | [] => Some []
  | c :: r =>
      match encode_cp c, encode r with
      | Some bs, Some rest => Some (bs ++ rest)
      | _, _ => None
      end
  end.

End Utf8.

(** ** json.dumps on a list of strings (default [ensure_ascii=True]) *)

Module Json.

Local Open Scope N_scope.

Definition hex4 (n : N) : string :=
  let d k := Hashlib.hex_digit (Z.of_N (N.land (N.shiftr n k) 0xF)) in
  String (d 12) (String (d 8) (String (d 4) (String (d 0) ""))).

Definition u_escape (n : N) : string := "\u" +:+ hex4 n.

(** [ESCAPE_ASCII]: everything outside [' '..'~'], the quote and the
    backslash are escaped; characters beyond the BMP as a surrogate pair. *)
Definition escape_cp (c : N) : string :=
  if c =? 0x22 then "\" +:+ String (ascii_of_N 0x22) ""
  else if c =? 0x5C then "\\"
  else if c =? 0x0A then "\n"
  else if c =? 0x0D then "\r"
  else if c =? 0x09 then "\t"
  else if c =? 0x08 then "\b"
  else if c =? 0x0C then "\f"
  else if Utf8.between 0x20 0x7E c then String (ascii_of_N c) ""
  else if c <? 0x10000 then u_escape c
  else
    let v := c - 0x10000 in
    u_escape (N.lor 0xD800 (N.land (N.shiftr v 10) 0x3FF))
    +:+ u_escape (N.lor 0xDC00 (N.land v 0x3FF)).

Definition dumps_str (s : Utf8.pystr) : string :=
  let q := String (ascii_of_N 0x22) "" in
  q +:+ fold_right (fun c acc => escape_cp c +:+ acc) "" s +:+ q.

Definition dumps (l : list Utf8.pystr) : string :=
  "[" +:+ Py.join ", " (map dumps_str l) +:+ "]".

End Json.

(** ** datetime: calendar dates, the clock and [strptime] *)

Module Datetime.

Record date := mk_date { year : nat; month : nat; day : nat }.

Record datetime := mk_datetime
  { on_date : date; hour : nat; minute : nat; second : nat; microsecond : nat }.

Definition is_leap (y : nat) : bool :=
  (y mod 4 =? 0)%nat && (negb (y mod 100 =? 0)%nat || (y mod 400 =? 0)%nat).

Definition days_in_month (y m : nat) : nat :=
  match m with
  | 2 => if is_leap y then 29 else 28
  | 4 | 6 | 9 | 11 => 30
  | _ => 31
  end.

Definition MINYEAR : nat := 1.
Definition MAXYEAR : nat := 9999.

(** The dates [datetime.date] can hold: a year between [MINYEAR] and
    [MAXYEAR], a real month and a day that exists in it. *)
Definition valid_date (d : date) : bool :=
  (MINYEAR <=? year d)%nat && (year d <=? MAXYEAR)%nat
  && (1 <=? month d)%nat && (month d <=? 12)%nat
  && (1 <=? day d)%nat && (day d <=? days_in_month (year d) (month d))%nat.

Definition digit (c : ascii) : option nat :=
  let n := nat_of_ascii c in
  if (48 <=? n)%nat && (n <=? 57)%nat then Some (n - 48)%nat else None.

(** The regular expressions [_strptime] builds for the directives, read on
    the whole token between separators (ASCII digits only):
    - [%Y] is [\d\d\d\d];
    - [%m] is [1[0-2]|0[1-9]|[1-9]];
    - [%d] is [3[0-1]|[1-2]\d|0[1-9]|[1-9]| [1-9]]. *)
Definition parse_Y (s : string) : option nat :=
  match s with
  | String a (String b (String c (String d EmptyString))) =>
      match digit a, digit b, digit c, digit d with
      | Some x, Some y, Some z, Some w => Some (1000 * x + 100 * y + 10 * z + w)%nat
      | _, _, _, _ => None
      end
  | _ => None
  end.

Definition parse_m (s : string) : option nat :=
  match s with
  | String a EmptyString =>
      match digit a with
      | Some x => if (1 <=? x)%nat then Some x else None
      | None => None
      end
  | String a (String b EmptyString) =>
      match digit a, digit b with
      | Some 1%nat, Some y => if (y <=? 2)%nat then Some (10 + y)%nat else None
      | Some 0%nat, Some y => if (1 <=? y)%nat then Some y else None
      | _, _ => None
      end
  | _ => None
  end.

Definition parse_d (s : string) : option nat :=
  match s with
  | String a EmptyString =>
      match digit a with
      | Some x => if (1 <=? x)%nat then Some x else None
      | None => None
      end
  | String a (String b EmptyString) =>
      match digit a, digit b with
      | Some 3%nat, Some y => if (y <=? 1)%nat then Some (30 + y)%nat else None
      | Some 1%nat, Some y => Some (10 + y)%nat
      | Some 2%nat, Some y => Some (20 + y)%nat
      | Some 0%nat, Some y => if (1 <=? y)%nat then Some y else None
      | None, Some y =>
          if Ascii.eqb a " "%char && (1 <=? y)%nat then Some y else None
      | _, _ => None
      end
  | _ => None
  end.

(** Split at the first occurrence of [sep]. *)
Fixpoint split_at (sep : ascii) (s : string) : option (string * string) :=
  match s with
  | EmptyString => None
  | String c r =>
      if Ascii.eqb c sep then Some (EmptyString, r)
      else match split_at sep r with
           | Some (a, b) => Some (String c a, b)
           | None => None
           end
  end.

(** [datetime.strptime(s, "%Y-%m-%d").date()]; [None] is [ValueError]
    (no match, unconverted data, or a day the calendar does not have). *)
Definition strptime_ymd (s : string) : option date :=
  match split_at "-"%char s with
  | Some (ys, rest) =>
      match split_at "-"%char rest with
      | Some (ms, ds) =>
          match parse_Y ys, parse_m ms, parse_d ds with
          | Some y, Some m, Some d =>
              let r := mk_date y m d in
              if valid_date r then Some r else None
          | _, _, _ => None
          end
      | None => None
      end
  | None => None
  end.

(** [dt.strftime("%Y%m%d_%H%M%S")] *)
Definition strftime_compact (t : datetime) : string :=
  Py.format_0d 4 (year (on_date t)) +:+ Py.format_0d 2 (month (on_date t))
    +:+ Py.format_0d 2 (day (on_date t)) +:+ "_"
    +:+ Py.format_0d 2 (hour t) +:+ Py.format_0d 2 (minute t)
    +:+ Py.format_0d 2 (second t).

(** [dt.isoformat()]: the fraction is printed only when it is not zero. *)
Definition isoformat (t : datetime) : string :=
  Py.format_0d 4 (year (on_date t)) +:+ "-" +:+ Py.format_0d 2 (month (on_date t))
    +:+ "-" +:+ Py.format_0d 2 (day (on_date t)) +:+ "T"
    +:+ Py.format_0d 2 (hour t) +:+ ":" +:+ Py.format_0d 2 (minute t)
    +:+ ":" +:+ Py.format_0d 2 (second t)
    +:+ (if (microsecond t =? 0)%nat then "" else "." +:+ Py.format_0d 6 (microsecond t)).

End Datetime.

(** ** storage/paths.py *)

Module Paths.
Import Datetime.

Definition date_partition (d : date) (level : string) : string :=
  if String.eqb level "year" then
    "year=" +:+ Py.str_of_nat (year d)
  else if String.eqb level "month" then
    "year=" +:+ Py.str_of_nat (year d) +:+ "/month=" +:+ Py.format_0d 2 (month d)
  else
    "year=" +:+ Py.str_of_nat (year d) +:+ "/month=" +:+ Py.format_0d 2 (month d)
      +:+ "/day=" +:+ Py.format_0d 2 (day d).

(** The default granularity of the signature: [level = "day"]. *)
Definition date_partition_default (d : date) : string := date_partition d "day".

End Paths.

(** ** Exceptions, results and the domain objects of the external contract *)

Inductive exn : Type :=
| ValueError (msg : string)
| RuntimeError (msg : string)
| UnicodeEncodeError (msg : string)
| OSError (msg : string)
| FileNotFoundError (msg : string)
| ArrowInvalid (msg : string).

(** [str(exc)] *)
Definition exn_message (e : exn) : string :=
  match e with
  | ValueError m | RuntimeError m | UnicodeEncodeError m
  | OSError m | FileNotFoundError m | ArrowInvalid m => m
  end.

Inductive result (A : Type) : Type :=
| Ok (a : A)
| Raise (e : exn).
Arguments Ok {A} a.
Arguments Raise {A} e.

Definition is_ok {A} (r : result A) : bool :=
  match r with Ok _ => true | Raise _ => false end.

(** [diario_contract]: the fields of the domain objects this package reads.
    The package itself only supplies the types; attributes read through
    [getattr(..., default)] may be absent and are options here. *)

(** [article.content.raw_content]: bytes, text, or nothing. *)
Inductive raw_content : Type :=
| RawBytes (b : list byte)
| RawStr (s : Utf8.pystr)
| RawNone.

(** [article.content.content_type]: a [ContentType] member with its [value],
    or any other object with its [str()]. *)
Inductive content_type_field : Type :=
| ContentType (value : string)
| OtherType (str : string).

Module ArticleContent.
Record t := mk { raw_content : raw_content; content_type : content_type_field }.
End ArticleContent.

Module ArticleMetadata.
Record t := mk
  { article_id : string;
    edition_id : string;
    title : option string;
    hierarchy_path : option (list Utf8.pystr);
    identifier : option string;
    protocol : option string }.
End ArticleMetadata.

Module Article.
Record t := mk { metadata : ArticleMetadata.t; content : ArticleContent.t }.
End Article.

Module EditionMetadata.
Record t := mk
  { edition_id : string;
    publication_date : string;
    edition_number : Z;
    supplement : bool;
    edition_type_id : Z;
    edition_type_name : string;
    pdf_url : string }.
End EditionMetadata.

Module GazetteEdition.
Record t := mk { metadata : EditionMetadata.t; articles : list Article.t }.
End GazetteEdition.

(** ** The three row types (the dict literals of [save_editions]) *)

Module EditionRow.
Record t := mk
  { municipality : string;
    edition_id : string;
    publication_date : Datetime.date;
    edition_number : Z;
    supplement : bool;
    edition_type_id : Z;
    edition_type_name : string;
    pdf_url : string;
    total_articles : nat;
    processed_at : Datetime.datetime;
    edition_hash : string;
    batch_id : string;
    year : nat;
    month : nat;
    day : nat }.
End EditionRow.

Module ArticleRow.
Record t := mk
  { municipality : string;
    article_id : string;
    edition_id : string;
    edition_hash : string;
    publication_date : Datetime.date;
    title : string;
    hierarchy_path : string;
    identifier : string;
    protocol : string;
    depth : nat;
    content_type : string;
    content_size : nat;
    content_hash : option string;
    content_path : option string;
    inline_text : option Utf8.pystr;
    processed_at : Datetime.datetime;
    batch_id : string;
    year : nat;
    month : nat;
    day : nat }.
End ArticleRow.

Module RelationshipRow.
Record t := mk
  { municipality : string;
    edition_id : string;
    article_id : string;
    edition_hash : string;
    publication_date : string;
    batch_id : string;
    processed_at : string }.
End RelationshipRow.

(** [pyarrow.Table]: the tables this package builds with [from_pylist], the
    column-less [pa.table({})], and the answer of the query engine, kept as
    the SQL text it was asked to run. *)
Inductive table : Type :=
| EditionsTable (rows : list EditionRow.t)
| ArticlesTable (rows : list ArticleRow.t)
| RelationshipsTable (rows : list RelationshipRow.t)
| EmptyTable
| FetchArrowTable (query : string).

(** Values of the [metadata] dict handed to [write_bytes]. *)
Inductive meta_value : Type :=
| MStr (s : string)
| MInt (n : nat).

Definition metadata := list (string * meta_value).

(** ** storage/base.py: the backend interface *)

Definition PARQUET_COMPRESSION : string := "zstd".
Definition PARQUET_COMPRESSION_LEVEL : nat := 9.

(** [StorageBackend]: the seven abstract methods.  The state of a backend
    is a value of [B]; the writers return the new state with their result. *)
Class StorageBackend (B : Type) : Type :=
  { write_bytes : B -> string -> list byte -> option metadata -> result string * B;
    read_bytes : B -> string -> result (list byte);
    exists_ : B -> string -> bool;
    write_parquet : B -> string -> table -> result string * B;
    read_parquet : B -> string -> option (list string) -> result table;
    list_files : B -> string -> option string -> list string;
    get_uri : B -> string -> string }.

(** ** storage/local.py: the filesystem backend

    This is the class [parquet.py] imports; [storage/backend.py] holds a
    second copy that behaves the same on every path used here. *)

Module LocalBackend.

(** What a file under [base_path] holds.  A Parquet file is kept as the
    table written to it with the writer options in force. *)
Inductive file_content : Type :=
| FileBytes (data : list byte)
| FileText (text : string)
| FileParquet (t : table) (compression : string) (compression_level : nat).

(** The backend: its root, the files below it keyed by relative path, the
    relative paths the operating system refuses to write, and the byte
    image pyarrow produces for a table (the writer is not part of this
    package).  Directories are implicit: one exists when a file lies below
    it. *)
Record t := mk
  { base_path : string;
    files : gmap string file_content;
    unwritable : gset string;
    parquet_image : table -> list byte }.

Definition set_files (b : t) (fs : gmap string file_content) : t :=
  mk (base_path b) fs (unwritable b) (parquet_image b).

(** [base_path / path] for a relative [path]. *)
Definition full_path (b : t) (path : string) : string :=
  base_path b +:+ "/" +:+ path.

(** [Path.name]: what follows the last slash. *)
Fixpoint name_of (path : string) : string :=
  match path with
  | EmptyString => EmptyString
  | String c r =>
      if existsb (Ascii.eqb "/"%char) (list_ascii_of_string r) then name_of r
      else if Ascii.eqb c "/"%char then r else path
  end.

(** Position of the last ["."] of [s], counted from the left. *)
Fixpoint rfind_dot (s : string) : option nat :=
  match s with
  | EmptyString => None
  | String c r =>
      match rfind_dot r with
      | Some i => Some (S i)
      | None => if Ascii.eqb c "."%char then Some 0 else None
      end
  end.

(** [Path.suffix]: from the last dot of the name, unless that dot opens
    or closes the name. *)
Definition suffix_of (path : string) : string :=
  let name := name_of path in
  match rfind_dot name with
  | Some i =>
      if (0 <? i)%nat && (i <? String.length name - 1)%nat
      then String.substring i (String.length name - i) name
      else ""
  | None => ""
  end.

Definition os_error (path : string) : exn :=
  OSError ("[Errno 13] Permission denied: '" +:+ path +:+ "'").

Definition dumps_meta_value (v : meta_value) : string :=
  match v with
  | MStr s => Json.dumps_str (Utf8.of_ascii_string s)
  | MInt n => Py.str_of_nat n
  end.

Definition newline : string := String (ascii_of_N 10) "".

(** [json.dumps(metadata, indent=2)] for a flat dict. *)
Definition dumps_metadata (md : metadata) : string :=
  match md with
  | [] => "{}"
  | _ =>
      "{" +:+ newline
      +:+ Py.join ("," +:+ newline)
            (map (fun kv => "  " +:+ Json.dumps_str (Utf8.of_ascii_string (fst kv))
                            +:+ ": " +:+ dumps_meta_value (snd kv)) md)
      +:+ newline +:+ "}"
  end.

(** Does the operating system refuse to write [path]? *)
Definition refuses (b : t) (path : string) : bool :=
  bool_decide (path ∈ unwritable b).

Definition write_bytes (b : t) (path : string) (data : list byte)
    (md : option metadata) : result string * t :=
  if refuses b path then (Raise (os_error path), b)
  else
    let b1 := set_files b (<[path := FileBytes data]> (files b)) in
    match md with
    | Some ((_ :: _) as m) =>
        let meta_path := path +:+ ".meta.json" in
        if refuses b meta_path then (Raise (os_error meta_path), b1)
        else (Ok path,
              set_files b1 (<[meta_path := FileText (dumps_metadata m)]> (files b1)))
    | _ => (Ok path, b1)
    end.

Definition read_bytes (b : t) (path : string) : result (list byte) :=
  match files b !! path with
  | Some (FileBytes data) => Ok data
  | Some (FileText text) => Ok (Py.encode text)
  | Some (FileParquet tbl _ _) => Ok (parquet_image b tbl)
  | None =>
      Raise (FileNotFoundError
               ("[Errno 2] No such file or directory: '" +:+ full_path b path +:+ "'"))
  end.

Definition is_file (b : t) (path : string) : bool :=
  bool_decide (is_Some (files b !! path)).

Definition file_paths (b : t) : list string := (map_to_list (files b)).*1.

Definition below (dir path : string) : bool := String.prefix (dir +:+ "/") path.

Definition is_dir (b : t) (path : string) : bool :=
  existsb (below path) (file_paths b).

Definition exists_ (b : t) (path : string) : bool :=
  is_file b path || is_dir b path.

Definition write_parquet (b : t) (path : string) (tbl : table) : result string * t :=
  if refuses b path then (Raise (os_error path), b)
  else (Ok path,
        set_files b (<[path := FileParquet tbl PARQUET_COMPRESSION
                                 PARQUET_COMPRESSION_LEVEL]> (files b))).

Definition read_parquet (b : t) (path : string) (columns : option (list string))
    : result table :=
  match files b !! path with
  | Some (FileParquet tbl _ _) => Ok tbl
  | Some _ =>
      Raise (ArrowInvalid ("Parquet magic bytes not found in footer: '"
                           +:+ full_path b path +:+ "'"))
  | None =>
      Raise (FileNotFoundError
               ("[Errno 2] No such file or directory: '" +:+ full_path b path +:+ "'"))
  end.

Definition str_le (a b : string) : Prop := Is_true (String.leb a b).

#[global] Instance str_le_dec a b : Decision (str_le a b).
Proof. unfold str_le. apply _. Defined.

Definition list_files (b : t) (prefix : string) (suffix : option string)
    : list string :=
  merge_sort str_le
    (filter (fun p => Is_true (below prefix p
                               && match suffix with
                                  | None => true
                                  | Some s => String.eqb (suffix_of p) s
                                  end))
            (file_paths b)).

Definition get_uri (b : t) (path : string) : string := "file://" +:+ full_path b path.

#[global] Instance backend : StorageBackend t :=
  Build_StorageBackend t write_bytes read_bytes exists_ write_parquet
    read_parquet list_files get_uri.

(** [LocalBackend(base_path)] on an empty directory. *)
Definition init (base : string) : t := mk base ∅ ∅ (fun _ => []).

End LocalBackend.

(** ** The world a call runs in, and the monad that threads it *)

Inductive level : Type := DEBUG | INFO | WARNING | ERROR.

(** One entry per method invoked on [self.backend], in call order. *)
Inductive call : Type :=
| CallWriteBytes (path : string) (data : list byte) (md : option metadata)
| CallReadBytes (path : string)
| CallExists (path : string)
| CallWriteParquet (path : string) (tbl : table)
| CallReadParquet (path : string)
| CallListFiles (prefix : string) (suffix : option string)
| CallGetUri (path : string).

Definition is_write (c : call) : bool :=
  match c with
  | CallWriteBytes _ _ _ | CallWriteParquet _ _ => true
  | _ => false
  end.

Definition is_write_bytes (c : call) : bool :=
  match c with CallWriteBytes _ _ _ => true | _ => false end.

Section World.

Context {B : Type} `{StorageBackend B}.

(** The backend object, the journal of calls made on it, the records the
    module logger received, and the clock: the [k]-th reading of
    [datetime.now()] is [clock k]. *)
Record world := mk_world
  { backend : B;
    calls : list call;
    log : list (level * string);
    clock : nat -> Datetime.datetime;
    ticks : nat }.

Definition M (A : Type) : Type := world -> result A * world.

Definition ret {A} (a : A) : M A := fun w => (Ok a, w).
Definition raise {A} (e : exn) : M A := fun w => (Raise e, w).
Definition bind {A C} (m : M A) (k : A -> M C) : M C :=
  fun w =>
    match m w with
    | (Ok a, w') => k a w'
    | (Raise e, w') => (Raise e, w')
    end.

(** [try: body / except Exception as exc: handler(exc)] *)
Definition try_except {A} (body : M A) (handler : exn -> M A) : M A :=
  fun w =>
    match body w with
    | (Ok a, w') => (Ok a, w')
    | (Raise e, w') => handler e w'
    end.

Definition lift {A} (r : result A) : M A := fun w => (r, w).

Definition record_call (c : call) (w : world) : world :=
  mk_world (backend w) (calls w ++ [c]) (log w) (clock w) (ticks w).

Definition set_backend (b : B) (w : world) : world :=
  mk_world b (calls w) (log w) (clock w) (ticks w).

(** [datetime.now()] *)
Definition now : M Datetime.datetime :=
  fun w => (Ok (clock w (ticks w)),
            mk_world (backend w) (calls w) (log w) (clock w) (S (ticks w))).

Definition logger (l : level) (msg : string) : M unit :=
  fun w => (Ok tt, mk_world (backend w) (calls w) (log w ++ [(l, msg)]) (clock w) (ticks w)).

(** [self.backend.<method>(...)] *)
Definition backend_exists (path : string) : M bool :=
  fun w => (Ok (exists_ (backend w) path), record_call (CallExists path) w).

Definition backend_write_bytes (path : string) (data : list byte)
    (md : option metadata) : M string :=
  fun w =>
    let '(r, b) := write_bytes (backend w) path data md in
    (r, set_backend b (record_call (CallWriteBytes path data md) w)).

Definition backend_read_bytes (path : string) : M (list byte) :=
  fun w => (read_bytes (backend w) path, record_call (CallReadBytes path) w).

Definition backend_write_parquet (path : string) (tbl : table) : M string :=
  fun w =>
    let '(r, b) := write_parquet (backend w) path tbl in
    (r, set_backend b (record_call (CallWriteParquet path tbl) w)).

Definition backend_list_files (prefix : string) (suffix : option string)
    : M (list string) :=
  fun w => (Ok (list_files (backend w) prefix suffix),
            record_call (CallListFiles prefix suffix) w).

Definition backend_get_uri (path : string) : M string :=
  fun w => (Ok (get_uri (backend w) path), record_call (CallGetUri path) w).

End World.

Arguments world B : clear implicits.
Arguments M B A : clear implicits.

Declare Scope monad_scope.
Delimit Scope monad_scope with monad.
Notation "'let*' x ':=' c 'in' k" := (bind c (fun x => k))
  (at level 10, x name, c at level 100, k at level 200) : monad_scope.
Open Scope monad_scope.

(** [for x in xs: acc = step(acc, x)] with effects. *)
Fixpoint for_each {B A S : Type} (xs : list A) (step : S -> A -> M B S) (acc : S)
    : M B S :=
  match xs with
  | [] => ret acc
  | x :: rest => let* acc' := step acc x in for_each rest step acc'
  end.

(** ** storage/parquet.py *)

Definition CONTENT_INLINE_THRESHOLD : nat := 2000.
Definition CONTENT_DIRNAME : string := "content".

(** The [**kwargs] of [save_editions] that the method reads. *)
Module Kwargs.
Record t := mk { batch_id : option string; municipality : option string }.
Definition none : t := mk None None.
End Kwargs.

(** A Python dict with string keys, in insertion order. *)
Inductive stat_value : Type :=
| SInt (n : nat)
| SStr (s : string).

Definition stats := list (string * stat_value).

(** [d[k] = v] *)
Fixpoint dict_set (d : stats) (k : string) (v : stat_value) : stats :=
  match d with
  | [] => [(k, v)]
  | (k', v') :: rest =>
      if String.eqb k' k then (k', v) :: rest else (k', v') :: dict_set rest k v
  end.

(** [d.get(k)] *)
Fixpoint dict_get (d : stats) (k : string) : option stat_value :=
  match d with
  | [] => None
  | (k', v) :: rest => if String.eqb k' k then Some v else dict_get rest k
  end.

(** The descriptor [_write_content_blob] returns, and the [content_meta]
    dict of the inline branch. *)
Module ContentBlob.
Record t := mk
  { content_hash : option string;
    content_path : option string;
    content_size : nat }.
End ContentBlob.

(** The dict [_publication_date_parts] returns. *)
Module DateParts.
Record t := mk { year : nat; month : nat; day : nat }.
End DateParts.

(** The argument of [_write_content_blob]: [str | bytes]. *)
Inductive str_or_bytes : Type :=
| AsStr (s : Utf8.pystr)
| AsBytes (b : list byte).

Module ParquetStorage.

Record t := mk
  { partition_by : string;
    enable_duckdb : bool;
    duckdb_path : option string }.

Section Methods.

Context {B : Type} `{StorageBackend B}.

Definition encode_utf8 (s : Utf8.pystr) : M B (list byte) :=
  match Utf8.encode s with
  | Some bs => ret bs
  | None =>
      raise (UnicodeEncodeError "'utf-8' codec can't encode character: surrogates not allowed")
  end.

Definition _generate_edition_hash (edition : GazetteEdition.t) : string :=
  let meta := GazetteEdition.metadata edition in
  let content :=
    EditionMetadata.edition_id meta +:+ "_"
    +:+ EditionMetadata.publication_date meta +:+ "_"
    +:+ Py.str_of_nat (length (GazetteEdition.articles edition)) in
  Hashlib.md5 (Py.encode content).

Definition blob_path (content_hash : string) : string :=
  let filename := content_hash +:+ ".bin" in
  CONTENT_DIRNAME +:+ "/" +:+ Py.slice 0 2 content_hash +:+ "/"
    +:+ Py.slice 2 2 content_hash +:+ "/" +:+ filename.

Definition _write_content_blob (raw : str_or_bytes) : M B ContentBlob.t :=
  let* raw_bytes :=
    match raw with
    | AsStr s => encode_utf8 s
    | AsBytes b => ret b
    end in
  let size := length raw_bytes in
  let content_hash := Hashlib.sha256 raw_bytes in
  let path := blob_path content_hash in
  let* present := backend_exists path in
  let* _ :=
    if negb present then
      let* created := now in
      let* _ := backend_write_bytes path raw_bytes
                  (Some [("content_hash", MStr content_hash);
                         ("content_size", MInt size);
                         ("created_at", MStr (Datetime.isoformat created))]) in
      ret tt
    else ret tt in
  ret (ContentBlob.mk (Some content_hash) (Some path) size).

Definition strptime (publication_date : string) : M B Datetime.date :=
  match Datetime.strptime_ymd publication_date with
  | Some d => ret d
  | None =>
      raise (ValueError ("time data '" +:+ publication_date
                         +:+ "' does not match format '%Y-%m-%d'"))
  end.

Definition _publication_date_parts (publication_date : string) : M B DateParts.t :=
  try_except
    (let* d := strptime publication_date in
     ret (DateParts.mk (Datetime.year d) (Datetime.month d) (Datetime.day d)))
    (fun _ =>
       let* t := now in
       let today := Datetime.on_date t in
       ret (DateParts.mk (Datetime.year today) (Datetime.month today)
                         (Datetime.day today))).

(** The three lists [save_editions] fills while it walks the batch. *)
Record rows := mk_rows
  { editions_rows : list EditionRow.t;
    articles_rows : list ArticleRow.t;
    relationships_rows : list RelationshipRow.t }.

(** [kwargs.get(key, default)] *)
Definition kwargs_get {A} (o : option A) (default : A) : A :=
  match o with Some v => v | None => default end.

(** [getattr(obj, name, None) or ""] *)
Definition or_empty (o : option string) : string :=
  match o with Some s => s | None => "" end.

(** Lines 176-186: the body as text (when it has one) and as bytes. *)
Definition normalize_content (raw : raw_content)
    : M B (option Utf8.pystr * list byte) :=
  match raw with
  | RawBytes raw_content =>
      match Utf8.decode raw_content with
      | Some raw_text => ret (Some raw_text, raw_content)
      | None => ret (None, raw_content)
      end
  | _ =>
      let raw_text := match raw with RawStr s => s | _ => [] end in
      let* raw_bytes := encode_utf8 raw_text in
      ret (Some raw_text, raw_bytes)
  end.

(** Lines 188-198: inline or blob. *)
Definition place_content (raw_text : option Utf8.pystr) (raw_bytes : list byte)
    : M B (ContentBlob.t * option Utf8.pystr) :=
  let too_long :=
    match raw_text with
    | None => true
    | Some txt => (CONTENT_INLINE_THRESHOLD <? length txt)%nat
    end in
  if too_long then
    let* content_meta := _write_content_blob (AsBytes raw_bytes) in
    ret (content_meta, None)
  else
    ret (ContentBlob.mk None None (length raw_bytes), raw_text).

(** The body of the inner loop, lines 173-245. *)
Definition article_step (kwargs : Kwargs.t) (meta : EditionMetadata.t)
    (edition_hash : string) (pub_parts : DateParts.t)
    (pub_date_obj : Datetime.date) (batch_id : string)
    (acc : rows) (article : Article.t) : M B rows :=
  let am := Article.metadata article in
  let ac := Article.content article in
  let* norm := normalize_content (ArticleContent.raw_content ac) in
  let* placed := place_content (fst norm) (snd norm) in
  let content_meta := fst placed in
  let inline_text := snd placed in
  let hierarchy := kwargs_get (ArticleMetadata.hierarchy_path am) [] in
  let* processed_a := now in
  let article_row :=
    ArticleRow.mk
      (kwargs_get (Kwargs.municipality kwargs) "")
      (ArticleMetadata.article_id am)
      (ArticleMetadata.edition_id am)
      edition_hash
      pub_date_obj
      (or_empty (ArticleMetadata.title am))
      (Json.dumps hierarchy)
      (or_empty (ArticleMetadata.identifier am))
      (or_empty (ArticleMetadata.protocol am))
      (length hierarchy)
      (match ArticleContent.content_type ac with
       | ContentType value => value
       | OtherType str => str
       end)
      (ContentBlob.content_size content_meta)
      (ContentBlob.content_hash content_meta)
      (ContentBlob.content_path content_meta)
      inline_text
      processed_a
      batch_id
      (DateParts.year pub_parts)
      (DateParts.month pub_parts)
      (DateParts.day pub_parts) in
  let* processed_r := now in
  let relationship_row :=
    RelationshipRow.mk
      (kwargs_get (Kwargs.municipality kwargs) "")
      (EditionMetadata.edition_id meta)
      (ArticleMetadata.article_id am)
      edition_hash
      (EditionMetadata.publication_date meta)
      batch_id
      (Datetime.isoformat processed_r) in
  ret (mk_rows (editions_rows acc)
               (articles_rows acc ++ [article_row])
               (relationships_rows acc ++ [relationship_row])).

(** The body of the outer loop, lines 145-245. *)
Definition edition_step (self : t) (kwargs : Kwargs.t) (batch_id : string)
    (acc : rows) (edition : GazetteEdition.t) : M B rows :=
  let meta := GazetteEdition.metadata edition in
  let edition_hash := _generate_edition_hash edition in
  let* pub_parts := _publication_date_parts (EditionMetadata.publication_date meta) in
  let* pub_date_obj := strptime (EditionMetadata.publication_date meta) in
  let* processed := now in
  let edition_row :=
    EditionRow.mk
      (kwargs_get (Kwargs.municipality kwargs) "")
      (EditionMetadata.edition_id meta)
      pub_date_obj
      (EditionMetadata.edition_number meta)
      (EditionMetadata.supplement meta)
      (EditionMetadata.edition_type_id meta)
      (EditionMetadata.edition_type_name meta)
      (EditionMetadata.pdf_url meta)
      (length (GazetteEdition.articles edition))
      processed
      edition_hash
      batch_id
      (DateParts.year pub_parts)
      (DateParts.month pub_parts)
      (DateParts.day pub_parts) in
  for_each (GazetteEdition.articles edition)
    (article_step kwargs meta edition_hash pub_parts pub_date_obj batch_id)
    (mk_rows (editions_rows acc ++ [edition_row])
             (articles_rows acc) (relationships_rows acc)).

Definition is_nil {A} (l : list A) : bool :=
  match l with [] => true | _ => false end.

(** Lines 257-282: the three table writes, in order. *)
Definition write_tables (timestamp : string) (r : rows) (stats0 : stats)
    : M B stats :=
  let* stats1 :=
    if negb (is_nil (editions_rows r)) then
      let tbl := EditionsTable (editions_rows r) in
      let path := "gazettes/batch_" +:+ timestamp +:+ ".parquet" in
      let* _ := backend_write_parquet path tbl in
      let* _ := logger INFO ("✓ " +:+ Py.str_of_nat (length (editions_rows r))
                             +:+ " edições salvas") in
      ret (dict_set stats0 "editions" (SInt (length (editions_rows r))))
    else ret stats0 in
  let* stats2 :=
    if negb (is_nil (articles_rows r)) then
      let tbl := ArticlesTable (articles_rows r) in
      let path := "articles/batch_" +:+ timestamp +:+ ".parquet" in
      let* _ := backend_write_parquet path tbl in
      let* _ := logger INFO ("✓ " +:+ Py.str_of_nat (length (articles_rows r))
                             +:+ " artigos salvos") in
      ret (dict_set stats1 "articles" (SInt (length (articles_rows r))))
    else ret stats1 in
  let* stats3 :=
    if negb (is_nil (relationships_rows r)) then
      let tbl := RelationshipsTable (relationships_rows r) in
      let path := "relationships/batch_" +:+ timestamp +:+ ".parquet" in
      let* _ := backend_write_parquet path tbl in
      let* _ := logger INFO ("✓ " +:+ Py.str_of_nat (length (relationships_rows r))
                             +:+ " relações salvas") in
      ret (dict_set stats2 "relationships" (SInt (length (relationships_rows r))))
    else ret stats2 in
  ret stats3.

(** Lines 140-245: both loops. *)
Definition build_rows (self : t) (editions : list GazetteEdition.t)
    (kwargs : Kwargs.t) (batch_id : string) : M B rows :=
  for_each editions (edition_step self kwargs batch_id) (mk_rows [] [] []).

Definition save_editions (self : t) (editions : list GazetteEdition.t)
    (kwargs : Kwargs.t) : M B stats :=
  if is_nil editions then
    let* _ := logger WARNING "Nenhuma edição para salvar" in
    ret [("editions", SInt 0); ("articles", SInt 0); ("relationships", SInt 0)]
  else
    let* t0 := now in
    let timestamp := Datetime.strftime_compact t0 in
    let batch_id := kwargs_get (Kwargs.batch_id kwargs) ("batch_" +:+ timestamp) in
    let* r := build_rows self editions kwargs batch_id in
    let stats0 :=
      [("municipality", SStr (kwargs_get (Kwargs.municipality kwargs) ""));
       ("editions", SInt 0);
       ("articles", SInt 0);
       ("relationships", SInt 0);
       ("timestamp", SStr timestamp);
       ("batch_id", SStr batch_id)] in
    try_except
      (write_tables timestamp r stats0)
      (fun exc =>
         let* _ := logger ERROR ("Erro ao salvar: " +:+ exn_message exc) in
         raise exc).

(** Lines 319-330: the WHERE clause. *)
Definition where_clauses (municipality start_date end_date : option string)
    (content_types : option (list string)) : list string :=
  (match municipality with
   | Some m => if Py.truthy_str m then ["municipality = '" +:+ m +:+ "'"] else []
   | None => []
   end)
  ++ (match start_date with
      | Some d => if Py.truthy_str d then ["publication_date >= '" +:+ d +:+ "'"] else []
      | None => []
      end)
  ++ (match end_date with
      | Some d => if Py.truthy_str d then ["publication_date <= '" +:+ d +:+ "'"] else []
      | None => []
      end)
  ++ (match content_types with
      | Some ((_ :: _) as tys) =>
          let types_str := Py.join "', '" tys in
          ["content_type IN ('" +:+ types_str +:+ "')"]
      | _ => []
      end).

Definition where_sql (municipality start_date end_date : option string)
    (content_types : option (list string)) : string :=
  let clauses := where_clauses municipality start_date end_date content_types in
  if is_nil clauses then "1=1" else Py.join " AND " clauses.

Definition limit_sql (limit : option Z) : string :=
  match limit with
  | Some n => if (n =? 0)%Z then "" else "LIMIT " +:+ Py.str_of_Z n
  | None => ""
  end.

(** Lines 341-346: the statement handed to the engine. *)
Definition build_query (paths : list string) (where_ limit_ : string) : string :=
  let nl := String (ascii_of_N 10) "" in
  let paths_str := Py.join "', '" paths in
  nl +:+ "            SELECT * FROM read_parquet(['" +:+ paths_str +:+ "'])"
  +:+ nl +:+ "            WHERE " +:+ where_
  +:+ nl +:+ "            " +:+ limit_
  +:+ nl +:+ "        ".

Definition query_articles (self : t)
    (municipality start_date end_date : option string)
    (content_types : option (list string)) (limit : option Z) : M B table :=
  if negb (enable_duckdb self) then
    raise (RuntimeError "DuckDB não habilitado")
  else
    let* files := backend_list_files "articles" (Some ".parquet") in
    if is_nil files then
      let* _ := logger WARNING "Nenhum arquivo de artigos encontrado" in
      ret EmptyTable
    else
      let* paths :=
        for_each files
          (fun acc f => let* u := backend_get_uri f in ret (acc ++ [u])) [] in
      let query :=
        build_query paths
          (where_sql municipality start_date end_date content_types)
          (limit_sql limit) in
      ret (FetchArrowTable query).

Definition get_content (self : t) (content_path : string) : M B (list byte) :=
  backend_read_bytes content_path.

End Methods.

End ParquetStorage.

(** [get_stats], lines 355-364 of storage/parquet.py. *)

(** [type(backend).__name__] *)
Class BackendClass (B : Type) := { class_name : string }.

#[global] Instance LocalBackend_class : BackendClass LocalBackend.t :=
  {| class_name := "LocalBackend" |}.

Definition get_stats {B} `{StorageBackend B} `{BackendClass B}
    (self : ParquetStorage.t) : M B stats :=
  let name := class_name (B:=B) in
  let* editions_files := backend_list_files "gazettes" (Some ".parquet") in
  let* articles_files := backend_list_files "articles" (Some ".parquet") in
  let* content_files := backend_list_files CONTENT_DIRNAME None in
  ret [("backend", SStr name);
       ("editions_files", SInt (length editions_files));
       ("articles_files", SInt (length articles_files));
       ("content_files", SInt (length content_files))].

(** ** logging/logging.py: the configuration handed to [dictConfig] *)

Module Logging.

Inductive handler : Type :=
| RichHandler (level : string) (markup rich_tracebacks show_time show_path : bool)
    (log_time_format : string)
| FileHandler (level formatter filename mode encoding : string)
| RotatingFileHandler (level formatter filename : string) (maxBytes backupCount : Z)
    (encoding : string).

Record formatter := mk_formatter { format : string; datefmt : string }.






Section SetupLogging.

(** [str(Path(s))]: the text of a path after [pathlib] has normalised it. *)
Variable str_of_path : string -> string.


(** Line 87: the record sent to the logger [diario_crawler]. *)
Definition setup_logging_message (level : string) : string :=
  "Logging configurado (level: " +:+ level +:+ ")".

End SetupLogging.

End Logging.

(** ** Specification-side vocabulary

    The definitions below follow the wording of the specification; the
    theorems compare them with the code embedded above. *)

Module Spec.

(** A number below one hundred written with exactly two decimal digits. *)
Definition digit_char (k : nat) : ascii := ascii_of_nat (48 + k).
Definition two_digits (n : nat) : string :=
  String (digit_char (n / 10)) (String (digit_char (n mod 10)) "").

(** The predicate of a query, as the specification describes it. *)
Inductive predicate : Type :=
| AlwaysTrue
| Equals (column literal : string)
| AtLeast (column literal : string)
| AtMost (column literal : string)
| MemberOf (column : string) (literals : list string)
| Both (p q : predicate).

(** The SQL text of a predicate: literals are quoted as they are. *)
Fixpoint render (p : predicate) : string :=
  match p with
  | AlwaysTrue => "1=1"
  | Equals c v => c +:+ " = '" +:+ v +:+ "'"
  | AtLeast c v => c +:+ " >= '" +:+ v +:+ "'"
  | AtMost c v => c +:+ " <= '" +:+ v +:+ "'"
  | MemberOf c vs => c +:+ " IN ('" +:+ Py.join "', '" vs +:+ "')"
  | Both p q => render p +:+ " AND " +:+ render q
  end.

(** The filters read as the specification words them: every argument the
    caller passed (anything but [None]) is a supplied filter. *)
Definition atoms_as_stated (municipality start_date end_date : option string)
    (content_types : option (list string)) : list predicate :=
  option_list (Equals "municipality" <$> municipality)
  ++ option_list (AtLeast "publication_date" <$> start_date)
  ++ option_list (AtMost "publication_date" <$> end_date)
  ++ option_list (MemberOf "content_type" <$> content_types).

(** The narrower reading: a filter is supplied when the value passed is one
    that Python counts as true: not [None], not the empty string, not the
    empty list. *)
Definition supplied (o : option string) : option string :=
  match o with
  | Some s => if Py.truthy_str s then Some s else None
  | None => None
  end.

Definition supplied_list (o : option (list string)) : option (list string) :=
  match o with
  | Some ((_ :: _) as l) => Some l
  | _ => None
  end.

(** One atom per supplied filter, in the order of the signature. *)
Definition atoms (municipality start_date end_date : option string)
    (content_types : option (list string)) : list predicate :=
  option_list (Equals "municipality" <$> supplied municipality)
  ++ option_list (AtLeast "publication_date" <$> supplied start_date)
  ++ option_list (AtMost "publication_date" <$> supplied end_date)
  ++ option_list (MemberOf "content_type" <$> supplied_list content_types).

(** The conjunction of a list of predicates; the empty one is true. *)
Fixpoint conjunction (ps : list predicate) : predicate :=
  match ps with
  | [] => AlwaysTrue
  | [p] => p
  | p :: rest => Both p (conjunction rest)
  end.

Definition where_predicate (municipality start_date end_date : option string)
    (content_types : option (list string)) : predicate :=
  conjunction (atoms municipality start_date end_date content_types).

(** "Exactly one of inline text or blob descriptor": the row invariant. *)
Definition has_inline (r : ArticleRow.t) : bool :=
  bool_decide (is_Some (ArticleRow.inline_text r)).
Definition has_blob (r : ArticleRow.t) : bool :=
  bool_decide (is_Some (ArticleRow.content_hash r))
  && bool_decide (is_Some (ArticleRow.content_path r)).
Definition exactly_one_placement (r : ArticleRow.t) : bool :=
  xorb (has_inline r) (has_blob r).

(** The body of an article as bytes, when it has a UTF-8 form: bytes as
    they are, text through its encoding, a missing body as no bytes. *)
Definition body_bytes (raw : raw_content) : option (list byte) :=
  match raw with
  | RawBytes b => Some b
  | RawStr s => Utf8.encode s
  | RawNone => Some []
  end.

(** The body as text, when it is text: bytes through strict decoding. *)
Definition body_text (raw : raw_content) : option Utf8.pystr :=
  match raw with
  | RawBytes b => Utf8.decode b
  | RawStr s => Some s
  | RawNone => Some []
  end.

(** [content/<hash[0:2]>/<hash[2:4]>/<hash>.bin] *)
Definition sharded_path (hash : string) : string :=
  "content/" +:+ String.substring 0 2 hash +:+ "/" +:+ String.substring 2 2 hash
    +:+ "/" +:+ hash +:+ ".bin".

End Spec.

(** ** Concrete runs used to exercise the theorems *)

Module Scenario.

(** A clock that advances one second per reading, from 2024-03-05 10:30:00. *)
Definition clock (k : nat) : Datetime.datetime :=
  Datetime.mk_datetime (Datetime.mk_date 2024 3 5) 10 30 k 0.

(** A new backend on an empty directory, nothing logged, nothing called. *)
Definition fresh : world LocalBackend.t :=
  mk_world (LocalBackend.init "data/raw") [] [] clock 0.

(** The same, with one article table already on disk. *)
Definition with_articles : world LocalBackend.t :=
  mk_world
    (LocalBackend.mk "data/raw"
       {[ "articles/batch_20240101_000000.parquet"
          := LocalBackend.FileParquet (ArticlesTable []) "zstd" 9 ]} ∅
       (fun _ => []))
    [] [] clock 0.

(** The same as [fresh], on a disk that refuses the given paths. *)
Definition refusing (paths : list string) : world LocalBackend.t :=
  mk_world (LocalBackend.mk "data/raw" ∅ (list_to_set paths) (fun _ => []))
    [] [] clock 0.

Definition storage : ParquetStorage.t := ParquetStorage.mk "day" true None.
Definition storage_without_engine : ParquetStorage.t :=
  ParquetStorage.mk "day" false None.

Definition article (id : string) (body : raw_content) : Article.t :=
  Article.mk
    (ArticleMetadata.mk id "ed-1" (Some "Decreto") None None None)
    (ArticleContent.mk body (ContentType "text")).

Definition edition (publication_date : string) (articles : list Article.t)
    : GazetteEdition.t :=
  GazetteEdition.mk
    (EditionMetadata.mk "ed-1" publication_date 42 false 1 "Ordinaria"
       "https://example.org/ed-1.pdf")
    articles.

(** A body of [n] letters "a", as text and as bytes. *)
Definition letters (n : nat) : Utf8.pystr := repeat 97%N n.
Definition letter_bytes (n : nat) : list byte := repeat "a"%byte n.

End Scenario.

(** ** Vocabulary of the proofs *)

(** The calls a run added to the journal. *)
Definition new_calls {B} (w w' : world B) : list call :=
  drop (length (calls w)) (calls w').

Definition count_writes (l : list call) : nat := length (List.filter is_write l).

(** The sidecar record of a blob. *)
Definition sidecar (b : list byte) (created : Datetime.datetime) : metadata :=
  [("content_hash", MStr (Hashlib.sha256 b));
   ("content_size", MInt (length b));
   ("created_at", MStr (Datetime.isoformat created))].

(** Two more readings of the clock, nothing else. *)
Definition stamped {B} (w : world B) : world B :=
  mk_world (backend w) (calls w) (log w) (clock w) (S (S (ticks w))).

(** The world after one reading of the clock. *)
Definition ticked {B} (w : world B) : world B :=
  mk_world (backend w) (calls w) (log w) (clock w) (S (ticks w)).

(** The world after a table was written and the count logged. *)
Definition wrote (path : string) (tbl : table) (msg : string)
    (w : world LocalBackend.t) : world LocalBackend.t :=
  mk_world
    (LocalBackend.set_files (backend w)
       (<[path := LocalBackend.FileParquet tbl PARQUET_COMPRESSION
                    PARQUET_COMPRESSION_LEVEL]> (LocalBackend.files (backend w))))
    (calls w ++ [CallWriteParquet path tbl])
    (log w ++ [(INFO, msg)]) (clock w) (ticks w).

Definition date_error (publication_date : string) : exn :=
  ValueError ("time data '" +:+ publication_date
              +:+ "' does not match format '%Y-%m-%d'").

(** Every article table handed to the backend holds well-placed rows. *)
Definition well_placed (rows : list ArticleRow.t) : Prop :=
  Forall (fun r => Spec.exactly_one_placement r = true) rows.

Definition placement_ok (c : call) : Prop :=
  match c with
  | CallWriteParquet _ (ArticlesTable rows) => well_placed rows
  | _ => True
  end.

Definition placed_ok (p : ContentBlob.t * option Utf8.pystr) : Prop :=
  xorb (bool_decide (is_Some (snd p)))
       (bool_decide (is_Some (ContentBlob.content_hash (fst p)))
        && bool_decide (is_Some (ContentBlob.content_path (fst p)))) = true.

Definition rows_ok (r : ParquetStorage.rows) : Prop :=
  well_placed (ParquetStorage.articles_rows r).

(** There is an edition row, and as many relationship rows as article rows. *)
Definition shaped (r : ParquetStorage.rows) : Prop :=
  ParquetStorage.editions_rows r <> []
  /\ length (ParquetStorage.relationships_rows r)
     = length (ParquetStorage.articles_rows r).

(** The numbers [lo], [lo + 1], ... ([count] of them). *)
Fixpoint nrange (lo : N) (count : nat) : list N :=
  match count with
  | O => []
  | S k => lo :: nrange (N.succ lo) k
  end.

(** [run_spec m P Q]: whatever world [m] starts in, the calls it adds to
    the journal all satisfy [P], and a result it returns satisfies [Q]. *)
Definition run_spec {B A} (m : M B A) (P : call -> Prop) (Q : A -> Prop) : Prop :=
  forall w r w',
    m w = (r, w') ->
    (exists l, calls w' = calls w ++ l /\ Forall P l)
    /\ (forall a, r = Ok a -> Q a).

(** ** Vocabulary of the further properties *)

(** Does [p] pass the suffix filter of [list_files]? *)
Definition suffix_matches (suffix : option string) (p : string) : bool :=
  match suffix with
  | None => true
  | Some s => String.eqb (LocalBackend.suffix_of p) s
  end.

(** Lower-case hexadecimal digits, and strings made of them. *)
Definition is_hex (c : ascii) : bool :=
  let n := nat_of_ascii c in
  ((48 <=? n)%nat && (n <=? 57)%nat) || ((97 <=? n)%nat && (n <=? 102)%nat).

Fixpoint all_hex (s : string) : bool :=
  match s with
  | EmptyString => true
  | String c r => is_hex c && all_hex r
  end.

Fixpoint has_char (c : ascii) (s : string) : bool :=
  match s with
  | EmptyString => false
  | String d r => Ascii.eqb d c || has_char c r
  end.

(** The publication date of an edition, when it parses. *)
Definition publication_date_of (e : GazetteEdition.t) : option Datetime.date :=
  Datetime.strptime_ymd (EditionMetadata.publication_date (GazetteEdition.metadata e)).

(** The fields of an edition row that do not depend on the clock. *)
Definition edition_row_of (kwargs : Kwargs.t) (batch_id : string)
    (e : GazetteEdition.t) (row : EditionRow.t) : Prop :=
  let meta := GazetteEdition.metadata e in
  exists d,
    publication_date_of e = Some d
    /\ EditionRow.municipality row
       = ParquetStorage.kwargs_get (Kwargs.municipality kwargs) ""
    /\ EditionRow.edition_id row = EditionMetadata.edition_id meta
    /\ EditionRow.publication_date row = d
    /\ EditionRow.edition_number row = EditionMetadata.edition_number meta
    /\ EditionRow.supplement row = EditionMetadata.supplement meta
    /\ EditionRow.edition_type_id row = EditionMetadata.edition_type_id meta
    /\ EditionRow.edition_type_name row = EditionMetadata.edition_type_name meta
    /\ EditionRow.pdf_url row = EditionMetadata.pdf_url meta
    /\ EditionRow.total_articles row = length (GazetteEdition.articles e)
    /\ EditionRow.edition_hash row = ParquetStorage._generate_edition_hash e
    /\ EditionRow.batch_id row = batch_id
    /\ EditionRow.year row = Datetime.year d
    /\ EditionRow.month row = Datetime.month d
    /\ EditionRow.day row = Datetime.day d.

(** The fields of an article row that depend neither on the clock nor on
    where the body was placed. *)
Definition article_row_of (kwargs : Kwargs.t) (batch_id : string)
    (ea : GazetteEdition.t * Article.t) (row : ArticleRow.t) : Prop :=
  let am := Article.metadata (snd ea) in
  let hierarchy := ParquetStorage.kwargs_get (ArticleMetadata.hierarchy_path am) [] in
  exists d,
    publication_date_of (fst ea) = Some d
    /\ ArticleRow.municipality row
       = ParquetStorage.kwargs_get (Kwargs.municipality kwargs) ""
    /\ ArticleRow.article_id row = ArticleMetadata.article_id am
    /\ ArticleRow.edition_id row = ArticleMetadata.edition_id am
    /\ ArticleRow.edition_hash row = ParquetStorage._generate_edition_hash (fst ea)
    /\ ArticleRow.publication_date row = d
    /\ ArticleRow.title row = ParquetStorage.or_empty (ArticleMetadata.title am)
    /\ ArticleRow.hierarchy_path row = Json.dumps hierarchy
    /\ ArticleRow.depth row = length hierarchy
    /\ ArticleRow.batch_id row = batch_id
    /\ ArticleRow.year row = Datetime.year d
    /\ ArticleRow.month row = Datetime.month d
    /\ ArticleRow.day row = Datetime.day d.

Definition relationship_row_of (kwargs : Kwargs.t) (batch_id : string)
    (ea : GazetteEdition.t * Article.t) (row : RelationshipRow.t) : Prop :=
  let meta := GazetteEdition.metadata (fst ea) in
  RelationshipRow.municipality row
  = ParquetStorage.kwargs_get (Kwargs.municipality kwargs) ""
  /\ RelationshipRow.edition_id row = EditionMetadata.edition_id meta
  /\ RelationshipRow.article_id row
     = ArticleMetadata.article_id (Article.metadata (snd ea))
  /\ RelationshipRow.edition_hash row = ParquetStorage._generate_edition_hash (fst ea)
  /\ RelationshipRow.publication_date row = EditionMetadata.publication_date meta
  /\ RelationshipRow.batch_id row = batch_id.

(** Every article of the batch with the edition it belongs to, in order. *)
Definition article_pairs (editions : list GazetteEdition.t)
    : list (GazetteEdition.t * Article.t) :=
  flat_map (fun e => map (pair e) (GazetteEdition.articles e)) editions.

(** The rows are the image of the batch: an edition row per edition, an
    article row and a relationship row per article, all in batch order. *)
Definition mapped (kwargs : Kwargs.t) (batch_id : string)
    (editions : list GazetteEdition.t) (r : ParquetStorage.rows) : Prop :=
  Forall2 (edition_row_of kwargs batch_id) editions (ParquetStorage.editions_rows r)
  /\ Forall2 (article_row_of kwargs batch_id) (article_pairs editions)
       (ParquetStorage.articles_rows r)
  /\ Forall2 (relationship_row_of kwargs batch_id) (article_pairs editions)
       (ParquetStorage.relationships_rows r).

(** A call of the blob store: the existence check of the path of some
    payload, or the write of a payload at the path of its own digest with
    its sidecar record. *)
Definition blob_call (c : call) : Prop :=
  exists bs,
    c = CallExists (Spec.sharded_path (Hashlib.sha256 bs))
    \/ exists created,
         c = CallWriteBytes (Spec.sharded_path (Hashlib.sha256 bs)) bs
               (Some (sidecar bs created)).


(** A batch of two editions: the first with two short articles, the second
    (a supplement dated with a one-digit month) with one. *)
Definition batch_of_two : list GazetteEdition.t :=
  [Scenario.edition "2024-03-05"
     [Scenario.article "art-1" (RawStr (Scenario.letters 50));
      Scenario.article "art-2" RawNone];
   GazetteEdition.mk
     (EditionMetadata.mk "ed-2" "2024-2-29" 43 true 2 "Extra"
        "https://example.org/ed-2.pdf")
     [Scenario.article "art-3" (RawBytes (Scenario.letter_bytes 10))]].

Definition kwargs_of_two : Kwargs.t := Kwargs.mk None (Some "Campinas").

(** The counts a finished run of the table writes leaves in the dict. *)
Definition counted (r : ParquetStorage.rows) (stats0 : stats) : stats :=
  let stats1 :=
    if ParquetStorage.is_nil (ParquetStorage.editions_rows r) then stats0
    else dict_set stats0 "editions" (SInt (length (ParquetStorage.editions_rows r))) in
  let stats2 :=
    if ParquetStorage.is_nil (ParquetStorage.articles_rows r) then stats1
    else dict_set stats1 "articles" (SInt (length (ParquetStorage.articles_rows r))) in
  if ParquetStorage.is_nil (ParquetStorage.relationships_rows r) then stats2
  else dict_set stats2 "relationships"
         (SInt (length (ParquetStorage.relationships_rows r))).

(** The disk refuses nothing. *)
Definition healthy (w : world LocalBackend.t) : Prop :=
  LocalBackend.unwritable (backend w) = ∅.

(** On a healthy disk [m] returns, and leaves the disk healthy. *)
Definition succeeds {A} (m : M LocalBackend.t A) : Prop :=
  forall w, healthy w -> exists a w', m w = (Ok a, w') /\ healthy w'.

(** The body of the article has a UTF-8 form. *)
Definition encodable (a : Article.t) : Prop :=
  is_Some (Spec.body_bytes (ArticleContent.raw_content (Article.content a))).

(** [m] writes nothing to the log, whether it returns or raises. *)
Definition keeps_log {B A} (m : M B A) : Prop :=
  forall w r w', m w = (r, w') -> log w' = log w.

(** A batch whose second article cannot be encoded (a lone surrogate) after
    a first one that goes to the blob store. *)
Definition batch_with_surrogate : list GazetteEdition.t :=
  [Scenario.edition "2024-03-05"
     [Scenario.article "art-1" (RawBytes [xff]);
      Scenario.article "art-2" (RawStr [55296%N])]].

(** The number [get_stats] reports under [key] in world [w]. *)
Definition reported (self : ParquetStorage.t) (key : string)
    (w : world LocalBackend.t) : option stat_value :=
  match fst (get_stats self w) with
  | Ok st => dict_get st key
  | Raise _ => None
  end.

(** An inline row holds at most [CONTENT_INLINE_THRESHOLD] characters; its
    [content_size] counts the bytes of their UTF-8 form, between one and
    four per character. *)
Definition inline_bounded (row : ArticleRow.t) : Prop :=
  forall txt,
    ArticleRow.inline_text row = Some txt ->
    length txt <= CONTENT_INLINE_THRESHOLD
    /\ length txt <= ArticleRow.content_size row <= 4 * length txt.

(** What normalisation returns: text and bytes of matching size. *)
Definition sized (norm : option Utf8.pystr * list byte) : Prop :=
  forall txt, fst norm = Some txt -> length txt <= length (snd norm) <= 4 * length txt.

(** A batch with one article of 2000 two-byte characters. *)
Definition batch_of_accents : list GazetteEdition.t :=
  [Scenario.edition "2024-03-05"
     [Scenario.article "art-1" (RawStr (repeat 233%N 2000))]].

(** A world whose clock stands still, and two batches of one edition each. *)
Definition frozen : world LocalBackend.t :=
  mk_world (LocalBackend.init "data/raw") [] [] (fun _ => Scenario.clock 0) 0.

Definition batch_one : list GazetteEdition.t := [Scenario.edition "2024-03-05" []].

Definition batch_two : list GazetteEdition.t :=
  [GazetteEdition.mk
     (EditionMetadata.mk "ed-2" "2024-03-06" 43 false 1 "Ordinaria"
        "https://example.org/ed-2.pdf")
     []].

(** * Theorems *)

(** ** storage/paths.py *)

Lemma format_0d_two_digits (n : nat) :
  n < 100 -> Py.format_0d 2 n = Spec.two_digits n.
Proof.
  intros Hn.
  assert (Hall : forallb (fun k => String.eqb (Py.format_0d 2 k) (Spec.two_digits k))
                         (seq 0 100) = true) by (vm_compute; reflexivity).
  rewrite forallb_forall in Hall.
  apply String.eqb_eq, Hall, in_seq. lia.
Qed.

Lemma MAXYEAR_value : Datetime.MAXYEAR = 99 * 101.
Proof. reflexivity. Qed.

Lemma in_nrange (count : nat) (lo m : N) :
  (lo <= m < lo + N.of_nat count)%N -> In m (nrange lo count).
Proof.
  revert lo. induction count as [|k IH]; intros lo Hm; [lia|].
  cbn [nrange]. destruct (N.eq_dec lo m) as [->|Hne]; [left; reflexivity|].
  right. apply IH. lia.
Qed.

Lemma four_digit_year (y : nat) :
  10 * 100 <= y <= Datetime.MAXYEAR -> String.length (Py.str_of_nat y) = 4.
Proof.
  rewrite MAXYEAR_value. intros Hy.
  assert (Hall : forallb (fun m => Nat.eqb (String.length
                                              (NilEmpty.string_of_uint (N.to_uint m))) 4)
                         (nrange 1000 (90 * 100)) = true) by (vm_compute; reflexivity).
  rewrite forallb_forall in Hall.
  apply Nat.eqb_eq. unfold Py.str_of_nat. apply Hall, in_nrange. lia.
Qed.

Lemma days_in_month_le (y m : nat) : Datetime.days_in_month y m <= 31.
Proof.
  unfold Datetime.days_in_month.
  do 12 (destruct m as [|m]; [try destruct (Datetime.is_leap y); lia|]). lia.
Qed.

Lemma valid_date_bounds (d : Datetime.date) :
  Datetime.valid_date d = true ->
  1 <= Datetime.year d <= Datetime.MAXYEAR /\ 1 <= Datetime.month d <= 12
  /\ 1 <= Datetime.day d <= 31.
Proof.
  unfold Datetime.valid_date, Datetime.MINYEAR.
  rewrite !andb_true_iff, !Nat.leb_le.
  pose proof (days_in_month_le (Datetime.year d) (Datetime.month d)). lia.
Qed.

(** C9. For every calendar date [d], [date_partition] gives ["year=YYYY"]
    at granularity "year", ["year=YYYY/month=MM"] at "month" and
    ["year=YYYY/month=MM/day=DD"] at "day", the default; month and day are
    written with exactly two digits, the year in decimal (four digits from
    the year 1000 on); and 2024-03-05 gives ["year=2024/month=03/day=05"]. *)
Theorem date_partition_layout (d : Datetime.date) :
  Datetime.valid_date d = true ->
  let yyyy := Py.str_of_nat (Datetime.year d) in
  let mm := Spec.two_digits (Datetime.month d) in
  let dd := Spec.two_digits (Datetime.day d) in
  Paths.date_partition d "year" = "year=" +:+ yyyy
  /\ Paths.date_partition d "month" = "year=" +:+ yyyy +:+ "/month=" +:+ mm
  /\ Paths.date_partition d "day"
     = "year=" +:+ yyyy +:+ "/month=" +:+ mm +:+ "/day=" +:+ dd
  /\ Paths.date_partition_default d = Paths.date_partition d "day"
  /\ String.length mm = 2 /\ String.length dd = 2
  /\ (10 * 100 <= Datetime.year d -> String.length yyyy = 4)
  /\ Paths.date_partition (Datetime.mk_date 2024 3 5) "day"
     = "year=2024/month=03/day=05".
Proof.
  intros Hv yyyy mm dd. subst yyyy mm dd.
  destruct (valid_date_bounds d Hv) as (Hy & Hm & Hd).
  unfold Paths.date_partition_default, Paths.date_partition.
  cbn [String.eqb Ascii.eqb Bool.eqb].
  rewrite !format_0d_two_digits by lia.
  repeat split; try reflexivity.
  intros Hk. apply four_digit_year. lia.
Qed.

Lemma date_partition_layout_witness :
  Datetime.valid_date (Datetime.mk_date 2024 2 29) = true
  /\ Paths.date_partition (Datetime.mk_date 2024 2 29) "month" = "year=2024/month=02"
  /\ Paths.date_partition (Datetime.mk_date 2024 2 29) "day"
     = "year=2024/month=02/day=29".
Proof.
  assert (Hv : Datetime.valid_date (Datetime.mk_date 2024 2 29) = true) by reflexivity.
  split; [exact Hv|].
  destruct (date_partition_layout (Datetime.mk_date 2024 2 29) Hv) as (_ & Hm & Hd & _).
  split; [exact Hm | exact Hd].
Defined.

(** ** storage/parquet.py: reasoning about runs *)

(** The digests are never unfolded by the proofs below. *)
Arguments Hashlib.sha256 : simpl never.
Arguments Hashlib.md5 : simpl never.
Arguments Json.dumps : simpl never.
Arguments Datetime.strftime_compact : simpl never.
Arguments Datetime.isoformat : simpl never.
Arguments Py.str_of_nat : simpl never.

Ltac unfold_monad :=
  unfold bind, ret, raise, lift, try_except, now, logger,
    backend_exists, backend_write_bytes, backend_read_bytes,
    backend_write_parquet, backend_list_files, backend_get_uri,
    record_call, set_backend in *.

(** C8. Saving an empty batch returns the three zero counts and makes no
    call on the storage backend: no write, no existence check, no read. *)
Theorem save_editions_empty {B} `{StorageBackend B}
    (self : ParquetStorage.t) (kwargs : Kwargs.t) (w : world B) :
  exists w',
    ParquetStorage.save_editions self [] kwargs w
    = (Ok [("editions", SInt 0); ("articles", SInt 0); ("relationships", SInt 0)], w')
    /\ backend w' = backend w
    /\ calls w' = calls w
    /\ new_calls w w' = [].
Proof.
  eexists. unfold ParquetStorage.save_editions. cbn [ParquetStorage.is_nil].
  unfold_monad. cbn. split; [reflexivity|]. repeat split.
  unfold new_calls. cbn. apply drop_all.
Qed.

(** ** query_articles *)

Section Query.

Context {B : Type} `{StorageBackend B}.

(** Collecting the locators of the discovered files is a [map]. *)
Lemma collect_uris (files : list string) (acc : list string) (w : world B) :
  exists w',
    for_each files
      (fun acc f => let* u := backend_get_uri f in ret (acc ++ [u])) acc w
    = (Ok (acc ++ map (get_uri (backend w)) files), w')
    /\ backend w' = backend w.
Proof.
  revert acc w. induction files as [|f files IH]; intros acc w; cbn [for_each map].
  - eexists. unfold_monad. rewrite app_nil_r. split; reflexivity.
  - unfold bind at 1. unfold bind at 1. unfold backend_get_uri at 1. unfold ret at 1.
    destruct (IH (acc ++ [get_uri (backend w) f])
                 (record_call (CallGetUri f) w)) as (w' & Hrun & Hb).
    exists w'. rewrite Hrun. cbn [record_call backend] in *.
    rewrite <- app_assoc. split; [reflexivity | exact Hb].
Qed.

Lemma join_cons_cons (sep a b : string) (l : list string) :
  Py.join sep (a :: b :: l) = a +:+ sep +:+ Py.join sep (b :: l).
Proof. reflexivity. Qed.

Lemma render_conjunction (ps : list Spec.predicate) :
  ps <> [] ->
  Spec.render (Spec.conjunction ps) = Py.join " AND " (map Spec.render ps).
Proof.
  induction ps as [|p [|q ps] IH]; intros Hne; [congruence | reflexivity |].
  change (Spec.conjunction (p :: q :: ps)) with (Spec.Both p (Spec.conjunction (q :: ps))).
  cbn [Spec.render map]. rewrite join_cons_cons.
  rewrite IH by discriminate. reflexivity.
Qed.

Lemma where_clauses_atoms (municipality start_date end_date : option string)
    (content_types : option (list string)) :
  ParquetStorage.where_clauses municipality start_date end_date content_types
  = map Spec.render (Spec.atoms municipality start_date end_date content_types).
Proof.
  unfold ParquetStorage.where_clauses, Spec.atoms.
  rewrite !map_app. repeat f_equal.
  - destruct municipality as [m|]; [|reflexivity]. cbn. destruct (Py.truthy_str m); reflexivity.
  - destruct start_date as [m|]; [|reflexivity]. cbn. destruct (Py.truthy_str m); reflexivity.
  - destruct end_date as [m|]; [|reflexivity]. cbn. destruct (Py.truthy_str m); reflexivity.
  - destruct content_types as [[|t ts]|]; reflexivity.
Qed.

Lemma where_sql_render (municipality start_date end_date : option string)
    (content_types : option (list string)) :
  ParquetStorage.where_sql municipality start_date end_date content_types
  = Spec.render (Spec.where_predicate municipality start_date end_date content_types).
Proof.
  unfold ParquetStorage.where_sql, Spec.where_predicate.
  rewrite where_clauses_atoms.
  destruct (Spec.atoms municipality start_date end_date content_types) as [|p ps] eqn:E.
  - reflexivity.
  - cbn [map ParquetStorage.is_nil]. rewrite render_conjunction by discriminate. reflexivity.
Qed.

End Query.

(** Counterexample to C6 as stated: the municipality [""] is a filter the
    caller supplied, yet the statement carries no equality on municipality,
    its predicate is the always-true ["1=1"]. *)
Lemma empty_filter_is_dropped :
  ParquetStorage.where_sql (Some "") None None None = "1=1"
  /\ Spec.render (Spec.conjunction (Spec.atoms_as_stated (Some "") None None None))
     = "municipality = ''"
  /\ ParquetStorage.where_sql (Some "") None None None
     <> Spec.render (Spec.conjunction (Spec.atoms_as_stated (Some "") None None None)).
Proof. repeat split. discriminate. Qed.

(** C6, amended. Whatever filters are passed, [query_articles] hands the
    engine one statement whose WHERE text is the conjunction of exactly the
    filters passed with a non-empty value: equality on municipality,
    [>=] start_date and [<=] end_date on publication_date, membership on
    content_type, the values quoted as they are.  A filter passed as
    [None], as the empty string or as the empty list counts as not
    supplied; with no filter supplied the predicate is the always-true
    ["1=1"]. *)
Theorem query_articles_predicate {B} `{StorageBackend B}
    (self : ParquetStorage.t) (municipality start_date end_date : option string)
    (content_types : option (list string)) (limit : option Z) (w : world B) :
  ParquetStorage.enable_duckdb self = true ->
  list_files (backend w) "articles" (Some ".parquet") <> [] ->
  let p := Spec.where_predicate municipality start_date end_date content_types in
  let uris := map (get_uri (backend w))
                  (list_files (backend w) "articles" (Some ".parquet")) in
  (exists w',
     ParquetStorage.query_articles self municipality start_date end_date
       content_types limit w
     = (Ok (FetchArrowTable
              (ParquetStorage.build_query uris (Spec.render p)
                 (ParquetStorage.limit_sql limit))), w'))
  /\ ParquetStorage.where_sql municipality start_date end_date content_types
     = Spec.render p
  /\ p = Spec.conjunction
           (option_list (Spec.Equals "municipality" <$> Spec.supplied municipality)
            ++ option_list (Spec.AtLeast "publication_date" <$> Spec.supplied start_date)
            ++ option_list (Spec.AtMost "publication_date" <$> Spec.supplied end_date)
            ++ option_list (Spec.MemberOf "content_type"
                              <$> Spec.supplied_list content_types))
  /\ (Spec.supplied municipality = None /\ Spec.supplied start_date = None
      /\ Spec.supplied end_date = None /\ Spec.supplied_list content_types = None
      <-> p = Spec.AlwaysTrue)
  /\ Spec.render Spec.AlwaysTrue = "1=1".
Proof.
  intros Hon Hfiles p uris. subst p uris.
  split; [|split; [apply where_sql_render|split; [reflexivity|split; [|reflexivity]]]].
  - unfold ParquetStorage.query_articles. rewrite Hon. cbn [negb].
    unfold bind at 1. unfold backend_list_files at 1.
    destruct (list_files (backend w) "articles" (Some ".parquet")) as [|f fs] eqn:E;
      [congruence|].
    cbn [ParquetStorage.is_nil].
    destruct (collect_uris (f :: fs) [] (record_call (CallListFiles "articles" (Some ".parquet")) w))
      as (w' & Hrun & _).
    exists w'. unfold bind at 1. rewrite Hrun. cbn [app record_call backend].
    unfold ret. rewrite where_sql_render. reflexivity.
  - unfold Spec.where_predicate, Spec.atoms.
    destruct (Spec.supplied municipality), (Spec.supplied start_date),
      (Spec.supplied end_date), (Spec.supplied_list content_types); cbn;
      split; intros Hx; try discriminate; try reflexivity;
      repeat split; try reflexivity;
      destruct Hx as (? & ? & ? & ?); discriminate.
Qed.

Lemma query_articles_predicate_witness :
  ParquetStorage.enable_duckdb Scenario.storage = true
  /\ list_files (backend Scenario.with_articles) "articles" (Some ".parquet") <> []
  /\ ParquetStorage.where_sql (Some "Campinas") (Some "2024-01-01") None (Some ["text"; "table"])
     = "municipality = 'Campinas' AND publication_date >= '2024-01-01' AND content_type IN ('text', 'table')".
Proof.
  assert (Hon : ParquetStorage.enable_duckdb Scenario.storage = true) by reflexivity.
  assert (Hfiles : list_files (backend Scenario.with_articles) "articles" (Some ".parquet") <> [])
    by (vm_compute; discriminate).
  split; [exact Hon|]. split; [exact Hfiles|].
  destruct (query_articles_predicate Scenario.storage (Some "Campinas") (Some "2024-01-01")
              None (Some ["text"; "table"]) (Some 10%Z) Scenario.with_articles Hon Hfiles)
    as (_ & Hsql & _).
  rewrite Hsql. reflexivity.
Defined.

(** C7. With the query engine disabled [query_articles] fails at once with
    the engine-disabled error, before any backend call; with the engine
    enabled and no article table discovered it returns the empty table and
    raises nothing. *)
Theorem query_articles_gate {B} `{StorageBackend B}
    (self : ParquetStorage.t) (municipality start_date end_date : option string)
    (content_types : option (list string)) (limit : option Z) (w : world B) :
  (ParquetStorage.enable_duckdb self = false ->
   ParquetStorage.query_articles self municipality start_date end_date
     content_types limit w
   = (Raise (RuntimeError "DuckDB não habilitado"), w))
  /\ (ParquetStorage.enable_duckdb self = true ->
      list_files (backend w) "articles" (Some ".parquet") = [] ->
      exists w',
        ParquetStorage.query_articles self municipality start_date end_date
          content_types limit w
        = (Ok EmptyTable, w')
        /\ backend w' = backend w
        /\ new_calls w w' = [CallListFiles "articles" (Some ".parquet")]).
Proof.
  split.
  - intros Hoff. unfold ParquetStorage.query_articles. rewrite Hoff. reflexivity.
  - intros Hon Hnone. unfold ParquetStorage.query_articles. rewrite Hon. cbn [negb].
    unfold bind at 1. unfold backend_list_files at 1. rewrite Hnone.
    cbn [ParquetStorage.is_nil]. unfold_monad. cbn.
    eexists. split; [reflexivity|]. split; [reflexivity|].
    unfold new_calls. cbn. rewrite drop_app_length. reflexivity.
Qed.

Lemma query_articles_gate_witness :
  ParquetStorage.enable_duckdb Scenario.storage_without_engine = false
  /\ fst (ParquetStorage.query_articles Scenario.storage_without_engine
            None None None None None Scenario.with_articles)
     = Raise (RuntimeError "DuckDB não habilitado")
  /\ ParquetStorage.enable_duckdb Scenario.storage = true
  /\ list_files (backend Scenario.fresh) "articles" (Some ".parquet") = []
  /\ fst (ParquetStorage.query_articles Scenario.storage
            (Some "Campinas") None None None None Scenario.fresh)
     = Ok EmptyTable.
Proof.
  assert (Hoff : ParquetStorage.enable_duckdb Scenario.storage_without_engine = false)
    by reflexivity.
  assert (Hon : ParquetStorage.enable_duckdb Scenario.storage = true) by reflexivity.
  assert (Hnone : list_files (backend Scenario.fresh) "articles" (Some ".parquet") = [])
    by (vm_compute; reflexivity).
  split; [exact Hoff|]. split.
  - rewrite (proj1 (query_articles_gate Scenario.storage_without_engine
                      None None None None None Scenario.with_articles) Hoff).
    reflexivity.
  - split; [exact Hon|]. split; [exact Hnone|].
    destruct (proj2 (query_articles_gate Scenario.storage
                       (Some "Campinas") None None None None Scenario.fresh) Hon Hnone)
      as (w' & Hrun & _).
    rewrite Hrun. reflexivity.
Defined.

(** ** The content-addressed blob store on a local backend *)

Lemma append_empty_r (s : string) : s +:+ "" = s.
Proof.
  induction s as [|c s IH]; [reflexivity|].
  change (String c (s +:+ "") = String c s). f_equal. exact IH.
Qed.

Lemma sidecar_differs (path : string) : path +:+ ".meta.json" <> path.
Proof.
  intros E. rewrite <- (append_empty_r path) in E at 2.
  apply (inj (String.app path)) in E. discriminate.
Qed.

Lemma blob_path_sharded (h : string) :
  ParquetStorage.blob_path h = Spec.sharded_path h.
Proof. reflexivity. Qed.

(** What one call of [_write_content_blob] does, on any backend. *)
Lemma write_content_blob_run {B} `{StorageBackend B} (b : list byte) (w : world B) :
  let h := Hashlib.sha256 b in
  let path := Spec.sharded_path h in
  let d := ContentBlob.mk (Some h) (Some path) (length b) in
  let md := Some (sidecar b (clock w (ticks w))) in
  ParquetStorage._write_content_blob (AsBytes b) w
  = if exists_ (backend w) path then (Ok d, record_call (CallExists path) w)
    else
      let after bk :=
        mk_world bk (calls w ++ [CallExists path; CallWriteBytes path b md])
          (log w) (clock w) (S (ticks w)) in
      match write_bytes (backend w) path b md with
      | (Ok _, bk) => (Ok d, after bk)
      | (Raise e, bk) => (Raise e, after bk)
      end.
Proof.
  intros h path d md. subst h path d md.
  change (Spec.sharded_path (Hashlib.sha256 b))
    with (ParquetStorage.blob_path (Hashlib.sha256 b)).
  unfold ParquetStorage._write_content_blob, sidecar.
  unfold_monad. cbn.
  destruct (exists_ (backend w) (ParquetStorage.blob_path (Hashlib.sha256 b)));
    cbn; [reflexivity|].
  destruct (write_bytes _ _ _ _) as [[p|e] bk]; rewrite <- app_assoc; reflexivity.
Qed.

Section BlobStore.

Implicit Types (w : world LocalBackend.t) (b : list byte).

(** The blob is there already: the existence check is the only call. *)
Lemma write_content_blob_present b w :
  let h := Hashlib.sha256 b in
  let path := Spec.sharded_path h in
  LocalBackend.exists_ (backend w) path = true ->
  ParquetStorage._write_content_blob (AsBytes b) w
  = (Ok (ContentBlob.mk (Some h) (Some path) (length b)),
     record_call (CallExists path) w).
Proof.
  intros h path Hex. rewrite write_content_blob_run. fold h path.
  change (exists_ (backend w) path) with (LocalBackend.exists_ (backend w) path).
  rewrite Hex. reflexivity.
Qed.

(** The blob is absent and the disk accepts it: one existence check, one
    write of the bytes with their sidecar. *)
Lemma write_content_blob_absent b w :
  let h := Hashlib.sha256 b in
  let path := Spec.sharded_path h in
  LocalBackend.exists_ (backend w) path = false ->
  LocalBackend.refuses (backend w) path = false ->
  LocalBackend.refuses (backend w) (path +:+ ".meta.json") = false ->
  exists w1,
    ParquetStorage._write_content_blob (AsBytes b) w
    = (Ok (ContentBlob.mk (Some h) (Some path) (length b)), w1)
    /\ LocalBackend.files (backend w1)
       = <[path +:+ ".meta.json"
             := LocalBackend.FileText
                  (LocalBackend.dumps_metadata (sidecar b (clock w (ticks w))))]>
           (<[path := LocalBackend.FileBytes b]> (LocalBackend.files (backend w)))
    /\ LocalBackend.unwritable (backend w1) = LocalBackend.unwritable (backend w)
    /\ calls w1
       = calls w ++ [CallExists path;
                     CallWriteBytes path b (Some (sidecar b (clock w (ticks w))))].
Proof.
  intros h path Hex Hw Hm. rewrite write_content_blob_run. fold h path.
  change (exists_ (backend w) path) with (LocalBackend.exists_ (backend w) path).
  rewrite Hex.
  change (write_bytes (backend w) path b (Some (sidecar b (clock w (ticks w)))))
    with (LocalBackend.write_bytes (backend w) path b
            (Some (sidecar b (clock w (ticks w))))).
  unfold LocalBackend.write_bytes. rewrite Hw. unfold sidecar at 1.
  cbv beta iota zeta. cbn [LocalBackend.set_files LocalBackend.unwritable
    LocalBackend.files LocalBackend.base_path LocalBackend.refuses] in *.
  unfold LocalBackend.refuses in *. cbn [LocalBackend.unwritable LocalBackend.set_files].
  rewrite Hm.
  eexists. split; [reflexivity|]. cbn. repeat split.
Qed.

Lemma exists_of_file (bk : LocalBackend.t) (path : string) :
  is_Some (LocalBackend.files bk !! path) -> LocalBackend.exists_ bk path = true.
Proof.
  intros Hs. unfold LocalBackend.exists_, LocalBackend.is_file.
  rewrite bool_decide_eq_true_2 by exact Hs. reflexivity.
Qed.

(** C3. For every byte payload [b] not stored yet, on a disk that accepts
    the blob: writing [b] through the blob store twice returns the same
    descriptor {content_hash, content_path, content_size} both times, whose
    path is [content/<hash[0:2]>/<hash[2:4]>/<hash>.bin] for the SHA-256
    digest of [b]; the second call only observes that the blob exists and
    changes nothing; over both calls the backend is asked to write once. *)
Theorem blob_put_idempotent b w :
  let h := Hashlib.sha256 b in
  let path := Spec.sharded_path h in
  LocalBackend.exists_ (backend w) path = false ->
  LocalBackend.refuses (backend w) path = false ->
  LocalBackend.refuses (backend w) (path +:+ ".meta.json") = false ->
  exists d w1 w2,
    ParquetStorage._write_content_blob (AsBytes b) w = (Ok d, w1)
    /\ ParquetStorage._write_content_blob (AsBytes b) w1 = (Ok d, w2)
    /\ d = ContentBlob.mk (Some h) (Some path) (length b)
    /\ path = "content/" +:+ String.substring 0 2 h +:+ "/"
              +:+ String.substring 2 2 h +:+ "/" +:+ h +:+ ".bin"
    /\ LocalBackend.files (backend w1) !! path = Some (LocalBackend.FileBytes b)
    /\ backend w2 = backend w1
    /\ new_calls w1 w2 = [CallExists path]
    /\ count_writes (new_calls w w2) = 1.
Proof.
  intros h path Hex Hw Hm.
  destruct (write_content_blob_absent b w Hex Hw Hm) as (w1 & Hrun1 & Hfiles & _ & Hcalls).
  fold h path in Hrun1, Hfiles, Hcalls.
  assert (Hfile : LocalBackend.files (backend w1) !! path = Some (LocalBackend.FileBytes b)).
  { rewrite Hfiles. rewrite lookup_insert_ne by apply sidecar_differs.
    apply lookup_insert_eq. }
  assert (Hex1 : LocalBackend.exists_ (backend w1) path = true).
  { apply exists_of_file. rewrite Hfile. eauto. }
  pose proof (write_content_blob_present b w1 Hex1) as Hrun2. fold h path in Hrun2.
  eexists _, w1, _. split; [exact Hrun1|]. split; [exact Hrun2|].
  split; [reflexivity|]. split; [reflexivity|]. split; [exact Hfile|].
  split; [reflexivity|]. split.
  - unfold new_calls, record_call. cbn. apply drop_app_length.
  - unfold new_calls, record_call. cbn. rewrite Hcalls, <- app_assoc.
    rewrite drop_app_length. reflexivity.
Qed.

Lemma blob_put_idempotent_witness :
  let b := Py.encode "Diario Oficial" in
  let path := Spec.sharded_path (Hashlib.sha256 b) in
  LocalBackend.exists_ (backend Scenario.fresh) path = false
  /\ LocalBackend.refuses (backend Scenario.fresh) path = false
  /\ LocalBackend.refuses (backend Scenario.fresh) (path +:+ ".meta.json") = false
  /\ exists d w1 w2,
       ParquetStorage._write_content_blob (AsBytes b) Scenario.fresh = (Ok d, w1)
       /\ ParquetStorage._write_content_blob (AsBytes b) w1 = (Ok d, w2)
       /\ count_writes (new_calls Scenario.fresh w2) = 1.
Proof.
  intros b path.
  assert (H1 : LocalBackend.exists_ (backend Scenario.fresh) path = false)
    by (vm_compute; reflexivity).
  assert (H2 : LocalBackend.refuses (backend Scenario.fresh) path = false)
    by (vm_compute; reflexivity).
  assert (H3 : LocalBackend.refuses (backend Scenario.fresh) (path +:+ ".meta.json") = false)
    by (vm_compute; reflexivity).
  split; [exact H1|]. split; [exact H2|]. split; [exact H3|].
  destruct (blob_put_idempotent b Scenario.fresh H1 H2 H3)
    as (d & w1 & w2 & R1 & R2 & _ & _ & _ & _ & _ & Hc).
  exists d, w1, w2. split; [exact R1|]. split; [exact R2 | exact Hc].
Defined.

End BlobStore.

(** ** One article *)

Section ArticleStep.

Context {B : Type} `{StorageBackend B}.

Lemma normalize_content_run (raw : raw_content) (bs : list byte) (w : world B) :
  Spec.body_bytes raw = Some bs ->
  ParquetStorage.normalize_content raw w = (Ok (Spec.body_text raw, bs), w).
Proof.
  destruct raw as [b|s|]; cbn [Spec.body_bytes Spec.body_text]; intros Hb.
  - injection Hb as <-. unfold ParquetStorage.normalize_content.
    destruct (Utf8.decode b); reflexivity.
  - unfold ParquetStorage.normalize_content, ParquetStorage.encode_utf8, bind.
    rewrite Hb. reflexivity.
  - injection Hb as <-. reflexivity.
Qed.

Lemma normalize_content_raise (raw : raw_content) (w : world B) :
  Spec.body_bytes raw = None ->
  exists e, ParquetStorage.normalize_content raw w = (Raise e, w).
Proof.
  destruct raw as [b|s|]; cbn [Spec.body_bytes]; intros Hb; try discriminate.
  unfold ParquetStorage.normalize_content, ParquetStorage.encode_utf8, bind.
  rewrite Hb. eexists. reflexivity.
Qed.

(** Short text stays in the row and the backend is not involved. *)
Lemma place_content_inline (txt : Utf8.pystr) (bs : list byte) (w : world B) :
  length txt <= CONTENT_INLINE_THRESHOLD ->
  ParquetStorage.place_content (Some txt) bs w
  = (Ok (ContentBlob.mk None None (length bs), Some txt), w).
Proof.
  intros Hlen. unfold ParquetStorage.place_content.
  destruct (Nat.ltb_spec CONTENT_INLINE_THRESHOLD (length txt)); [lia | reflexivity].
Qed.

(** Anything else goes through [_write_content_blob]. *)
Lemma place_content_blob (otxt : option Utf8.pystr) (bs : list byte) (w : world B) :
  otxt = None
  \/ (exists txt, otxt = Some txt /\ CONTENT_INLINE_THRESHOLD < length txt) ->
  ParquetStorage.place_content otxt bs w
  = match ParquetStorage._write_content_blob (AsBytes bs) w with
    | (Ok content_meta, w') => (Ok (content_meta, None), w')
    | (Raise e, w') => (Raise e, w')
    end.
Proof.
  intros Hcase. unfold ParquetStorage.place_content.
  assert (Hlong : match otxt with
                  | Some txt => (CONTENT_INLINE_THRESHOLD <? length txt)%nat
                  | None => true
                  end = true).
  { destruct Hcase as [-> | (txt & -> & Hlen)]; [reflexivity|].
    apply Nat.ltb_lt. exact Hlen. }
  rewrite Hlong. unfold bind, ret.
  destruct (ParquetStorage._write_content_blob (AsBytes bs) w) as [[cm|e] w']; reflexivity.
Qed.

(** Once the body is placed, the step appends one article row and one
    relationship row; the row carries the placement as it is. *)
Lemma article_step_placed (kwargs : Kwargs.t) (meta : EditionMetadata.t)
    (edition_hash : string) (pub_parts : DateParts.t) (pub_date_obj : Datetime.date)
    (batch_id : string) (acc : ParquetStorage.rows) (article : Article.t)
    (w w1 : world B) (bs : list byte) (cm : ContentBlob.t)
    (inline : option Utf8.pystr) :
  Spec.body_bytes (ArticleContent.raw_content (Article.content article)) = Some bs ->
  ParquetStorage.place_content
    (Spec.body_text (ArticleContent.raw_content (Article.content article))) bs w
  = (Ok (cm, inline), w1) ->
  exists row rel,
    ParquetStorage.article_step kwargs meta edition_hash pub_parts pub_date_obj
      batch_id acc article w
    = (Ok (ParquetStorage.mk_rows (ParquetStorage.editions_rows acc)
             (ParquetStorage.articles_rows acc ++ [row])
             (ParquetStorage.relationships_rows acc ++ [rel])),
       stamped w1)
    /\ ArticleRow.inline_text row = inline
    /\ ArticleRow.content_hash row = ContentBlob.content_hash cm
    /\ ArticleRow.content_path row = ContentBlob.content_path cm
    /\ ArticleRow.content_size row = ContentBlob.content_size cm
    /\ ArticleRow.article_id row = ArticleMetadata.article_id (Article.metadata article).
Proof.
  intros Hb Hplace. unfold ParquetStorage.article_step.
  unfold bind at 1. rewrite (normalize_content_run _ bs w Hb).
  unfold bind at 1. cbn [fst snd]. rewrite Hplace.
  unfold_monad. cbn. eexists _, _. split; [reflexivity|]. repeat split.
Qed.

(** A failed placement ends the step with the same exception. *)
Lemma article_step_raise (kwargs : Kwargs.t) (meta : EditionMetadata.t)
    (edition_hash : string) (pub_parts : DateParts.t) (pub_date_obj : Datetime.date)
    (batch_id : string) (acc : ParquetStorage.rows) (article : Article.t)
    (w w1 : world B) (bs : list byte) (e : exn) :
  Spec.body_bytes (ArticleContent.raw_content (Article.content article)) = Some bs ->
  ParquetStorage.place_content
    (Spec.body_text (ArticleContent.raw_content (Article.content article))) bs w
  = (Raise e, w1) ->
  ParquetStorage.article_step kwargs meta edition_hash pub_parts pub_date_obj
    batch_id acc article w
  = (Raise e, w1).
Proof.
  intros Hb Hplace. unfold ParquetStorage.article_step.
  unfold bind at 1. rewrite (normalize_content_run _ bs w Hb).
  unfold bind at 1. cbn [fst snd]. rewrite Hplace. reflexivity.
Qed.

(** C10. An article whose body is absent gets the empty string as its
    text: the step succeeds, the row has [inline_text = ""] (not null),
    [content_size = 0] and null [content_hash] and [content_path], and the
    blob store is not touched. *)
Theorem missing_body_is_inline (kwargs : Kwargs.t) (meta : EditionMetadata.t)
    (edition_hash : string) (pub_parts : DateParts.t) (pub_date_obj : Datetime.date)
    (batch_id : string) (acc : ParquetStorage.rows) (article : Article.t)
    (w : world B) :
  ArticleContent.raw_content (Article.content article) = RawNone ->
  exists row rel w',
    ParquetStorage.article_step kwargs meta edition_hash pub_parts pub_date_obj
      batch_id acc article w
    = (Ok (ParquetStorage.mk_rows (ParquetStorage.editions_rows acc)
             (ParquetStorage.articles_rows acc ++ [row])
             (ParquetStorage.relationships_rows acc ++ [rel])), w')
    /\ ArticleRow.inline_text row = Some []
    /\ ArticleRow.content_size row = 0
    /\ ArticleRow.content_hash row = None
    /\ ArticleRow.content_path row = None
    /\ backend w' = backend w
    /\ new_calls w w' = [].
Proof.
  intros Hnone.
  destruct (article_step_placed kwargs meta edition_hash pub_parts pub_date_obj
              batch_id acc article w w [] (ContentBlob.mk None None 0) (Some []))
    as (row & rel & Hrun & Hin & Hh & Hp & Hs & _).
  - rewrite Hnone. reflexivity.
  - rewrite Hnone. reflexivity.
  - exists row, rel, (stamped w). split; [exact Hrun|].
    repeat split; try assumption.
    unfold new_calls, stamped. cbn. apply drop_all.
Qed.

End ArticleStep.

Lemma missing_body_is_inline_witness :
  let a := Scenario.article "art-1" RawNone in
  ArticleContent.raw_content (Article.content a) = RawNone
  /\ exists row rel w',
       ParquetStorage.article_step Kwargs.none
         (GazetteEdition.metadata (Scenario.edition "2024-03-05" [a]))
         "hash" (DateParts.mk 2024 3 5) (Datetime.mk_date 2024 3 5) "batch"
         (ParquetStorage.mk_rows [] [] []) a Scenario.fresh
       = (Ok (ParquetStorage.mk_rows [] [row] [rel]), w')
       /\ ArticleRow.inline_text row = Some []
       /\ ArticleRow.content_hash row = None.
Proof.
  intros a.
  assert (Hnone : ArticleContent.raw_content (Article.content a) = RawNone) by reflexivity.
  split; [exact Hnone|].
  destruct (missing_body_is_inline Kwargs.none
              (GazetteEdition.metadata (Scenario.edition "2024-03-05" [a]))
              "hash" (DateParts.mk 2024 3 5) (Datetime.mk_date 2024 3 5) "batch"
              (ParquetStorage.mk_rows [] [] []) a Scenario.fresh Hnone)
    as (row & rel & w' & Hrun & Hin & _ & Hh & _).
  exists row, rel, w'. split; [exact Hrun|]. split; [exact Hin | exact Hh].
Defined.

(** ** Inline or blob, on a local backend *)

(** C2. For every article that [save_editions] processes, with [bs] the
    bytes of its body: when the body is valid UTF-8 text of at most 2000
    characters the row keeps the text in [inline_text] with [content_hash]
    and [content_path] null and the backend is not called; when the body is
    not valid UTF-8, or the text has more than 2000 characters, the body
    goes through the blob store (existence check on its sharded path, the
    blob on disk afterwards) and the row keeps [content_hash] and
    [content_path] with [inline_text] null.  At exactly 2000 characters the
    body is inline, at 2001 it is a blob. *)
Theorem inline_or_blob (kwargs : Kwargs.t) (meta : EditionMetadata.t)
    (edition_hash : string) (pub_parts : DateParts.t) (pub_date_obj : Datetime.date)
    (batch_id : string) (acc : ParquetStorage.rows) (article : Article.t)
    (w : world LocalBackend.t) (bs : list byte) :
  let raw := ArticleContent.raw_content (Article.content article) in
  let h := Hashlib.sha256 bs in
  let path := Spec.sharded_path h in
  let step :=
    ParquetStorage.article_step kwargs meta edition_hash pub_parts pub_date_obj
      batch_id acc article w in
  let appended row rel :=
    ParquetStorage.mk_rows (ParquetStorage.editions_rows acc)
      (ParquetStorage.articles_rows acc ++ [row])
      (ParquetStorage.relationships_rows acc ++ [rel]) in
  Spec.body_bytes raw = Some bs ->
  (forall txt,
     Spec.body_text raw = Some txt -> length txt <= 2000 ->
     exists row rel w',
       step = (Ok (appended row rel), w')
       /\ ArticleRow.inline_text row = Some txt
       /\ ArticleRow.content_hash row = None
       /\ ArticleRow.content_path row = None
       /\ ArticleRow.content_size row = length bs
       /\ backend w' = backend w
       /\ new_calls w w' = [])
  /\ (Spec.body_text raw = None
      \/ (exists txt, Spec.body_text raw = Some txt /\ 2000 < length txt) ->
      LocalBackend.exists_ (backend w) path = true
      \/ (LocalBackend.refuses (backend w) path = false
          /\ LocalBackend.refuses (backend w) (path +:+ ".meta.json") = false) ->
      exists row rel w',
        step = (Ok (appended row rel), w')
        /\ ArticleRow.inline_text row = None
        /\ ArticleRow.content_hash row = Some h
        /\ ArticleRow.content_path row = Some path
        /\ ArticleRow.content_size row = length bs
        /\ head (new_calls w w') = Some (CallExists path)
        /\ LocalBackend.exists_ (backend w') path = true
        /\ (LocalBackend.exists_ (backend w) path = false ->
            LocalBackend.files (backend w') !! path = Some (LocalBackend.FileBytes bs))).
Proof.
  intros raw h path step appended Hb. subst step appended. split.
  - intros txt Htxt Hlen.
    destruct (article_step_placed kwargs meta edition_hash pub_parts pub_date_obj
                batch_id acc article w w bs
                (ContentBlob.mk None None (length bs)) (Some txt) Hb)
      as (row & rel & Hrun & Hin & Hh & Hp & Hs & _).
    { fold raw. rewrite Htxt. apply place_content_inline. exact Hlen. }
    exists row, rel, (stamped w). split; [exact Hrun|].
    repeat split; try assumption.
    unfold new_calls, stamped. cbn. apply drop_all.
  - intros Hcase Hdisk.
    pose proof (place_content_blob (Spec.body_text raw) bs w Hcase) as Hplace.
    destruct (LocalBackend.exists_ (backend w) path) eqn:Hex.
    + rewrite (write_content_blob_present bs w Hex) in Hplace.
      destruct (article_step_placed kwargs meta edition_hash pub_parts pub_date_obj
                  batch_id acc article w _ bs _ _ Hb Hplace)
        as (row & rel & Hrun & Hin & Hh & Hp & Hs & _).
      exists row, rel, (stamped (record_call (CallExists path) w)).
      split; [exact Hrun|]. repeat split; try assumption.
      * unfold new_calls, stamped, record_call. cbn. rewrite drop_app_length. reflexivity.
      * intros Hf. discriminate.
    + destruct Hdisk as [Hx | [Hw Hm]]; [discriminate|].
      destruct (write_content_blob_absent bs w Hex Hw Hm)
        as (w1 & Hrun1 & Hfiles & _ & Hcalls).
      fold h path in Hrun1, Hfiles, Hcalls.
      rewrite Hrun1 in Hplace.
      destruct (article_step_placed kwargs meta edition_hash pub_parts pub_date_obj
                  batch_id acc article w _ bs _ _ Hb Hplace)
        as (row & rel & Hrun & Hin & Hh & Hp & Hs & _).
      assert (Hfile : LocalBackend.files (backend w1) !! path
                      = Some (LocalBackend.FileBytes bs)).
      { rewrite Hfiles. rewrite lookup_insert_ne by apply sidecar_differs.
        apply lookup_insert_eq. }
      exists row, rel, (stamped w1). split; [exact Hrun|].
      repeat split; try assumption.
      * unfold new_calls, stamped. cbn. rewrite Hcalls, drop_app_length. reflexivity.
      * apply exists_of_file. cbn. rewrite Hfile. eauto.
      * intros _. exact Hfile.
Qed.

Lemma inline_or_blob_witness :
  let step body :=
    ParquetStorage.article_step Kwargs.none
      (GazetteEdition.metadata (Scenario.edition "2024-03-05" []))
      "hash" (DateParts.mk 2024 3 5) (Datetime.mk_date 2024 3 5) "batch"
      (ParquetStorage.mk_rows [] [] []) (Scenario.article "art-1" (RawBytes body))
      Scenario.fresh in
  (exists row rel w',
     step (Scenario.letter_bytes 2000) = (Ok (ParquetStorage.mk_rows [] [row] [rel]), w')
     /\ ArticleRow.inline_text row = Some (Scenario.letters 2000)
     /\ ArticleRow.content_hash row = None
     /\ ArticleRow.content_path row = None)
  /\ (exists row rel w',
        step (Scenario.letter_bytes 2001) = (Ok (ParquetStorage.mk_rows [] [row] [rel]), w')
        /\ ArticleRow.inline_text row = None
        /\ ArticleRow.content_hash row
           = Some (Hashlib.sha256 (Scenario.letter_bytes 2001))
        /\ ArticleRow.content_path row
           = Some (Spec.sharded_path (Hashlib.sha256 (Scenario.letter_bytes 2001)))).
Proof.
  intros step. subst step. split.
  - destruct (inline_or_blob Kwargs.none
                (GazetteEdition.metadata (Scenario.edition "2024-03-05" []))
                "hash" (DateParts.mk 2024 3 5) (Datetime.mk_date 2024 3 5) "batch"
                (ParquetStorage.mk_rows [] [] [])
                (Scenario.article "art-1" (RawBytes (Scenario.letter_bytes 2000)))
                Scenario.fresh (Scenario.letter_bytes 2000) eq_refl) as [Hinline _].
    destruct (Hinline (Scenario.letters 2000)) as (row & rel & w' & Hrun & Hi & Hh & Hp & _).
    + vm_compute. reflexivity.
    + apply Nat.leb_le. vm_compute. reflexivity.
    + exists row, rel, w'. repeat split; assumption.
  - destruct (inline_or_blob Kwargs.none
                (GazetteEdition.metadata (Scenario.edition "2024-03-05" []))
                "hash" (DateParts.mk 2024 3 5) (Datetime.mk_date 2024 3 5) "batch"
                (ParquetStorage.mk_rows [] [] [])
                (Scenario.article "art-1" (RawBytes (Scenario.letter_bytes 2001)))
                Scenario.fresh (Scenario.letter_bytes 2001) eq_refl) as [_ Hblob].
    destruct Hblob as (row & rel & w' & Hrun & Hi & Hh & Hp & _).
    + right. exists (Scenario.letters 2001). split.
      * vm_compute. reflexivity.
      * apply Nat.ltb_lt. vm_compute. reflexivity.
    + right. split; vm_compute; reflexivity.
    + exists row, rel, w'. repeat split; assumption.
Defined.

(** ** A small program logic for runs *)

Section RunSpec.

Context {B : Type} `{StorageBackend B}.

Lemma spec_ret {A} (a : A) P (Q : A -> Prop) : Q a -> run_spec (B:=B) (ret a) P Q.
Proof.
  intros HQ w r w' [= <- <-]. split.
  - exists []. rewrite app_nil_r. split; [reflexivity | constructor].
  - intros a' [= <-]. exact HQ.
Qed.

Lemma spec_raise {A} (e : exn) P (Q : A -> Prop) : run_spec (B:=B) (raise e) P Q.
Proof.
  intros w r w' [= <- <-]. split.
  - exists []. rewrite app_nil_r. split; [reflexivity | constructor].
  - intros a' [=].
Qed.

Lemma spec_bind {A C} (m : M B A) (k : A -> M B C) P (Q : A -> Prop) (Q' : C -> Prop) :
  run_spec m P Q -> (forall a, Q a -> run_spec (k a) P Q') -> run_spec (bind m k) P Q'.
Proof.
  intros Hm Hk w r w' Hrun. unfold bind in Hrun.
  destruct (m w) as [[a|e] w1] eqn:Em.
  - destruct (Hm _ _ _ Em) as [(l1 & Hc1 & Hl1) Hq].
    destruct (Hk a (Hq a eq_refl) _ _ _ Hrun) as [(l2 & Hc2 & Hl2) Hq'].
    split; [|exact Hq'].
    exists (l1 ++ l2). rewrite Hc2, Hc1, app_assoc. split; [reflexivity|].
    apply Forall_app. split; assumption.
  - injection Hrun as <- <-.
    destruct (Hm _ _ _ Em) as [Hc _]. split; [exact Hc|]. intros a [=].
Qed.

Lemma spec_try_except {A} (body : M B A) (handler : exn -> M B A) P (Q : A -> Prop) :
  run_spec body P Q -> (forall e, run_spec (handler e) P Q) ->
  run_spec (try_except body handler) P Q.
Proof.
  intros Hb Hh w r w' Hrun. unfold try_except in Hrun.
  destruct (body w) as [[a|e] w1] eqn:Eb.
  - injection Hrun as <- <-. exact (Hb _ _ _ Eb).
  - destruct (Hb _ _ _ Eb) as [(l1 & Hc1 & Hl1) _].
    destruct (Hh e _ _ _ Hrun) as [(l2 & Hc2 & Hl2) Hq].
    split; [|exact Hq].
    exists (l1 ++ l2). rewrite Hc2, Hc1, app_assoc. split; [reflexivity|].
    apply Forall_app. split; assumption.
Qed.

Lemma spec_weaken {A} (m : M B A) P (Q Q' : A -> Prop) :
  run_spec m P Q -> (forall a, Q a -> Q' a) -> run_spec m P Q'.
Proof.
  intros Hm Himp w r w' Hrun. destruct (Hm _ _ _ Hrun) as [Hc Hq].
  split; [exact Hc|]. intros a Ha. apply Himp, Hq, Ha.
Qed.

Lemma spec_quiet {A} (m : M B A) P :
  (forall w, calls (snd (m w)) = calls w) -> run_spec m P (fun _ => True).
Proof.
  intros Hq w r w' Hrun. split; [|trivial].
  exists []. rewrite app_nil_r. specialize (Hq w). rewrite Hrun in Hq.
  split; [exact Hq | constructor].
Qed.

Lemma spec_now P : run_spec (B:=B) now P (fun _ => True).
Proof. apply spec_quiet. reflexivity. Qed.

Lemma spec_logger l msg P : run_spec (B:=B) (logger l msg) P (fun _ => True).
Proof. apply spec_quiet. reflexivity. Qed.

Lemma spec_call {A} (m : M B A) (c : call) P :
  P c -> (forall w, calls (snd (m w)) = calls w ++ [c]) ->
  run_spec m P (fun _ => True).
Proof.
  intros Hp Hc w r w' Hrun. split; [|trivial].
  exists [c]. specialize (Hc w). rewrite Hrun in Hc.
  split; [exact Hc | repeat constructor; exact Hp].
Qed.

Lemma spec_exists path P : P (CallExists path) ->
  run_spec (backend_exists path) P (fun _ => True).
Proof. intros Hp. apply (spec_call _ _ _ Hp). reflexivity. Qed.

Lemma spec_write_bytes path data md P : P (CallWriteBytes path data md) ->
  run_spec (backend_write_bytes path data md) P (fun _ => True).
Proof.
  intros Hp. apply (spec_call _ _ _ Hp). intros w. unfold backend_write_bytes.
  destruct (write_bytes (backend w) path data md). reflexivity.
Qed.

Lemma spec_write_parquet path tbl P : P (CallWriteParquet path tbl) ->
  run_spec (backend_write_parquet path tbl) P (fun _ => True).
Proof.
  intros Hp. apply (spec_call _ _ _ Hp). intros w. unfold backend_write_parquet.
  destruct (write_parquet (backend w) path tbl). reflexivity.
Qed.

Lemma spec_for_each {A S} (xs : list A) (step : S -> A -> M B S) P (I : S -> Prop) :
  (forall acc x, I acc -> run_spec (step acc x) P I) ->
  forall acc, I acc -> run_spec (for_each xs step acc) P I.
Proof.
  intros Hstep. induction xs as [|x xs IH]; intros acc Hacc; cbn [for_each].
  - apply spec_ret. exact Hacc.
  - eapply spec_bind; [apply Hstep, Hacc|]. intros acc' Hacc'. apply IH, Hacc'.
Qed.

End RunSpec.

(** ** The row invariant *)

Lemma bool_decide_is_Some {A} (o : option A) :
  bool_decide (is_Some o) = match o with Some _ => true | None => false end.
Proof.
  destruct o.
  - apply bool_decide_eq_true_2. eauto.
  - apply bool_decide_eq_false_2. intros [? ?]. discriminate.
Qed.

Section RowInvariant.

Context {B : Type} `{StorageBackend B}.

Lemma spec_encode_utf8 (s : Utf8.pystr) :
  run_spec (ParquetStorage.encode_utf8 (B:=B) s) placement_ok (fun _ => True).
Proof.
  unfold ParquetStorage.encode_utf8. destruct (Utf8.encode s).
  - apply spec_ret. trivial.
  - apply spec_raise.
Qed.

Lemma spec_write_content_blob (raw : str_or_bytes) :
  run_spec (ParquetStorage._write_content_blob raw) placement_ok
    (fun d => is_Some (ContentBlob.content_hash d)
              /\ is_Some (ContentBlob.content_path d)).
Proof.
  unfold ParquetStorage._write_content_blob.
  eapply spec_bind.
  { destruct raw; [apply spec_encode_utf8 | apply spec_ret; trivial]. }
  intros raw_bytes _. eapply spec_bind; [apply spec_exists; exact I|].
  intros present _. eapply spec_bind.
  - instantiate (1 := fun _ => True). destruct (negb present); [|apply spec_ret; trivial].
    eapply spec_bind; [apply spec_now|]. intros created _.
    eapply spec_bind; [apply spec_write_bytes; exact I|]. intros _ _.
    apply spec_ret. trivial.
  - intros _ _. apply spec_ret. split; eauto.
Qed.

Lemma spec_place_content (otxt : option Utf8.pystr) (bs : list byte) :
  run_spec (ParquetStorage.place_content otxt bs) placement_ok placed_ok.
Proof.
  unfold ParquetStorage.place_content.
  destruct otxt as [txt|]; [destruct (CONTENT_INLINE_THRESHOLD <? length txt)%nat|].
  - eapply spec_bind; [apply spec_write_content_blob|].
    intros cm [[h Hh] [p Hp]]. apply spec_ret. unfold placed_ok. cbn [fst snd].
    rewrite !bool_decide_is_Some, Hh, Hp. reflexivity.
  - apply spec_ret. unfold placed_ok. cbn [fst snd].
    rewrite !bool_decide_is_Some. reflexivity.
  - eapply spec_bind; [apply spec_write_content_blob|].
    intros cm [[h Hh] [p Hp]]. apply spec_ret. unfold placed_ok. cbn [fst snd].
    rewrite !bool_decide_is_Some, Hh, Hp. reflexivity.
Qed.

Lemma spec_normalize_content (raw : raw_content) :
  run_spec (ParquetStorage.normalize_content (B:=B) raw) placement_ok (fun _ => True).
Proof.
  unfold ParquetStorage.normalize_content. destruct raw as [b|s|].
  - destruct (Utf8.decode b); apply spec_ret; trivial.
  - eapply spec_bind; [apply spec_encode_utf8|]. intros; apply spec_ret; trivial.
  - eapply spec_bind; [apply spec_encode_utf8|]. intros; apply spec_ret; trivial.
Qed.

Lemma spec_article_step kwargs meta edition_hash pub_parts pub_date_obj batch_id
    acc article :
  rows_ok acc ->
  run_spec (ParquetStorage.article_step kwargs meta edition_hash pub_parts
              pub_date_obj batch_id acc article) placement_ok rows_ok.
Proof.
  intros Hacc. unfold ParquetStorage.article_step.
  eapply spec_bind; [apply spec_normalize_content|]. intros norm _.
  eapply spec_bind; [apply spec_place_content|]. intros placed Hplaced.
  eapply spec_bind; [apply spec_now|]. intros ta _.
  eapply spec_bind; [apply spec_now|]. intros tr _.
  apply spec_ret. unfold rows_ok, well_placed. cbn [ParquetStorage.articles_rows].
  apply Forall_app. split; [exact Hacc|]. constructor; [|constructor].
  exact Hplaced.
Qed.

Lemma spec_strptime (s : string) :
  run_spec (ParquetStorage.strptime (B:=B) s) placement_ok (fun _ => True).
Proof.
  unfold ParquetStorage.strptime. destruct (Datetime.strptime_ymd s).
  - apply spec_ret. trivial.
  - apply spec_raise.
Qed.

Lemma spec_publication_date_parts (s : string) :
  run_spec (ParquetStorage._publication_date_parts (B:=B) s) placement_ok (fun _ => True).
Proof.
  unfold ParquetStorage._publication_date_parts. apply spec_try_except.
  - eapply spec_bind; [apply spec_strptime|]. intros; apply spec_ret; trivial.
  - intros e. eapply spec_bind; [apply spec_now|]. intros; apply spec_ret; trivial.
Qed.

Lemma spec_edition_step self kwargs batch_id acc edition :
  rows_ok acc ->
  run_spec (ParquetStorage.edition_step self kwargs batch_id acc edition)
    placement_ok rows_ok.
Proof.
  intros Hacc. unfold ParquetStorage.edition_step.
  eapply spec_bind; [apply spec_publication_date_parts|]. intros parts _.
  eapply spec_bind; [apply spec_strptime|]. intros d _.
  eapply spec_bind; [apply spec_now|]. intros t _.
  apply spec_for_each; [|exact Hacc].
  intros acc' a Hacc'. apply spec_article_step. exact Hacc'.
Qed.

Lemma spec_build_rows self editions kwargs batch_id :
  run_spec (ParquetStorage.build_rows self editions kwargs batch_id)
    placement_ok rows_ok.
Proof.
  unfold ParquetStorage.build_rows. apply spec_for_each.
  - intros acc e Hacc. apply spec_edition_step. exact Hacc.
  - constructor.
Qed.

Lemma spec_write_tables timestamp r stats0 :
  rows_ok r ->
  run_spec (ParquetStorage.write_tables timestamp r stats0) placement_ok
    (fun _ => True).
Proof.
  intros Hr. unfold ParquetStorage.write_tables.
  eapply spec_bind.
  { instantiate (1 := fun _ => True).
    destruct (negb (ParquetStorage.is_nil (ParquetStorage.editions_rows r)));
      [|apply spec_ret; trivial].
    eapply spec_bind; [apply spec_write_parquet; exact I|]. intros _ _.
    eapply spec_bind; [apply spec_logger|]. intros; apply spec_ret; trivial. }
  intros stats1 _. eapply spec_bind.
  { instantiate (1 := fun _ => True).
    destruct (negb (ParquetStorage.is_nil (ParquetStorage.articles_rows r)));
      [|apply spec_ret; trivial].
    eapply spec_bind; [apply spec_write_parquet; exact Hr|]. intros _ _.
    eapply spec_bind; [apply spec_logger|]. intros; apply spec_ret; trivial. }
  intros stats2 _. eapply spec_bind.
  { instantiate (1 := fun _ => True).
    destruct (negb (ParquetStorage.is_nil (ParquetStorage.relationships_rows r)));
      [|apply spec_ret; trivial].
    eapply spec_bind; [apply spec_write_parquet; exact I|]. intros _ _.
    eapply spec_bind; [apply spec_logger|]. intros; apply spec_ret; trivial. }
  intros stats3 _. apply spec_ret. trivial.
Qed.

Lemma spec_save_editions self editions kwargs :
  run_spec (ParquetStorage.save_editions self editions kwargs) placement_ok
    (fun _ => True).
Proof.
  unfold ParquetStorage.save_editions.
  destruct (ParquetStorage.is_nil editions).
  - eapply spec_bind; [apply spec_logger|]. intros; apply spec_ret; trivial.
  - eapply spec_bind; [apply spec_now|]. intros t0 _.
    eapply spec_bind; [apply spec_build_rows|]. intros r Hr.
    apply spec_try_except; [apply spec_write_tables; exact Hr|].
    intros e. eapply spec_bind; [apply spec_logger|]. intros; apply spec_raise.
Qed.

(** C4. Every article row [save_editions] produces has exactly one
    placement: either [inline_text] is set, or [content_hash] and
    [content_path] both are; never both, never neither.  This holds for the
    rows of every article table the call hands to the backend, whether the
    call then succeeds or fails, and for the rows the mapping loop returns. *)
Theorem article_rows_exactly_one_placement
    (self : ParquetStorage.t) (editions : list GazetteEdition.t)
    (kwargs : Kwargs.t) (w : world B) :
  (forall res w' path rows row,
     ParquetStorage.save_editions self editions kwargs w = (res, w') ->
     CallWriteParquet path (ArticlesTable rows) ∈ new_calls w w' ->
     row ∈ rows ->
     xorb (bool_decide (is_Some (ArticleRow.inline_text row)))
          (bool_decide (is_Some (ArticleRow.content_hash row))
           && bool_decide (is_Some (ArticleRow.content_path row))) = true)
  /\ (forall batch_id r w' row,
        ParquetStorage.build_rows self editions kwargs batch_id w = (Ok r, w') ->
        row ∈ ParquetStorage.articles_rows r ->
        xorb (bool_decide (is_Some (ArticleRow.inline_text row)))
             (bool_decide (is_Some (ArticleRow.content_hash row))
              && bool_decide (is_Some (ArticleRow.content_path row))) = true).
Proof.
  split.
  - intros res w' path rows row Hrun Hcall Hrow.
    destruct (spec_save_editions self editions kwargs _ _ _ Hrun) as [(l & Hc & Hl) _].
    unfold new_calls in Hcall. rewrite Hc, drop_app_length in Hcall.
    rewrite Forall_forall in Hl. specialize (Hl _ Hcall). cbn in Hl.
    unfold well_placed in Hl. rewrite Forall_forall in Hl. exact (Hl _ Hrow).
  - intros batch_id r w' row Hrun Hrow.
    destruct (spec_build_rows self editions kwargs batch_id _ _ _ Hrun) as [_ Hq].
    specialize (Hq r eq_refl). unfold rows_ok, well_placed in Hq.
    rewrite Forall_forall in Hq. exact (Hq _ Hrow).
Qed.

End RowInvariant.

Lemma article_rows_exactly_one_placement_witness :
  let batch :=
    [Scenario.edition "2024-03-05"
       [Scenario.article "art-1" (RawStr (Scenario.letters 50));
        Scenario.article "art-2" (RawBytes [xff])]] in
  exists res w' path rows row,
    ParquetStorage.save_editions Scenario.storage batch Kwargs.none Scenario.fresh
    = (res, w')
    /\ CallWriteParquet path (ArticlesTable rows) ∈ new_calls Scenario.fresh w'
    /\ row ∈ rows
    /\ ArticleRow.article_id row = "art-2"
    /\ xorb (bool_decide (is_Some (ArticleRow.inline_text row)))
            (bool_decide (is_Some (ArticleRow.content_hash row))
             && bool_decide (is_Some (ArticleRow.content_path row))) = true.
Proof.
  intros batch.
  assert (Hcalls : exists path rows row,
             CallWriteParquet path (ArticlesTable rows)
               ∈ new_calls Scenario.fresh
                   (snd (ParquetStorage.save_editions Scenario.storage batch
                           Kwargs.none Scenario.fresh))
             /\ row ∈ rows /\ ArticleRow.article_id row = "art-2").
  { vm_compute. eexists _, _, _. split; [|split].
    - do 3 apply list_elem_of_further. apply list_elem_of_here.
    - apply list_elem_of_further. apply list_elem_of_here.
    - reflexivity. }
  destruct (ParquetStorage.save_editions Scenario.storage batch Kwargs.none
              Scenario.fresh) as [res w'] eqn:Hrun.
  destruct Hcalls as (path & rows & row & Hcall & Hrow & Hid). cbn [snd] in Hcall.
  exists res, w', path, rows, row.
  split; [reflexivity|]. split; [exact Hcall|]. split; [exact Hrow|]. split; [exact Hid|].
  exact (proj1 (article_rows_exactly_one_placement Scenario.storage batch Kwargs.none
                  Scenario.fresh) res w' path rows row Hrun Hcall Hrow).
Defined.

(** ** The three table writes *)

(** What [save_editions] does on a batch that is not empty: read the clock,
    map the batch to rows, then write the tables under the handler. *)
Lemma save_editions_run {B} `{StorageBackend B} (self : ParquetStorage.t)
    (editions : list GazetteEdition.t) (kwargs : Kwargs.t) (w : world B) :
  editions <> [] ->
  let timestamp := Datetime.strftime_compact (clock w (ticks w)) in
  let batch_id :=
    ParquetStorage.kwargs_get (Kwargs.batch_id kwargs) ("batch_" +:+ timestamp) in
  let stats0 :=
    [("municipality", SStr (ParquetStorage.kwargs_get (Kwargs.municipality kwargs) ""));
     ("editions", SInt 0); ("articles", SInt 0); ("relationships", SInt 0);
     ("timestamp", SStr timestamp); ("batch_id", SStr batch_id)] in
  ParquetStorage.save_editions self editions kwargs w
  = match ParquetStorage.build_rows self editions kwargs batch_id (ticked w) with
    | (Ok r, w1) =>
        try_except (ParquetStorage.write_tables timestamp r stats0)
          (fun exc =>
             let* _ := logger ERROR ("Erro ao salvar: " +:+ exn_message exc) in
             raise exc) w1
    | (Raise e, w1) => (Raise e, w1)
    end.
Proof.
  intros Hne timestamp batch_id stats0.
  unfold ParquetStorage.save_editions.
  destruct editions as [|e es]; [congruence|]. cbn [ParquetStorage.is_nil].
  unfold bind at 1. unfold now at 1. fold (ticked w).
  unfold bind at 1. fold timestamp batch_id.
  destruct (ParquetStorage.build_rows self (e :: es) kwargs batch_id (ticked w))
    as [[r|ex] w1]; reflexivity.
Qed.

Section TableWrites.

Implicit Types (w : world LocalBackend.t).

Lemma block_accepted {A} path tbl msg (v : A) w :
  LocalBackend.refuses (backend w) path = false ->
  (let* _ := backend_write_parquet path tbl in
   let* _ := logger INFO msg in
   ret v) w
  = (Ok v, wrote path tbl msg w).
Proof.
  intros Hacc. unfold bind, backend_write_parquet, logger, ret.
  change (write_parquet (backend w) path tbl)
    with (LocalBackend.write_parquet (backend w) path tbl).
  unfold LocalBackend.write_parquet. rewrite Hacc. reflexivity.
Qed.

Lemma block_refused {A} path tbl msg (v : A) w :
  LocalBackend.refuses (backend w) path = true ->
  (let* _ := backend_write_parquet path tbl in
   let* _ := logger INFO msg in
   ret v) w
  = (Raise (LocalBackend.os_error path), record_call (CallWriteParquet path tbl) w).
Proof.
  intros Href. unfold bind, backend_write_parquet, logger, ret.
  change (write_parquet (backend w) path tbl)
    with (LocalBackend.write_parquet (backend w) path tbl).
  unfold LocalBackend.write_parquet. rewrite Href.
  unfold record_call, set_backend. cbn. destruct (backend w). reflexivity.
Qed.

(** The three targets of one batch lie in three different directories. *)
Lemma targets_differ (ts : string) :
  "gazettes/batch_" +:+ ts +:+ ".parquet" <> "articles/batch_" +:+ ts +:+ ".parquet"
  /\ "gazettes/batch_" +:+ ts +:+ ".parquet"
     <> "relationships/batch_" +:+ ts +:+ ".parquet"
  /\ "articles/batch_" +:+ ts +:+ ".parquet"
     <> "relationships/batch_" +:+ ts +:+ ".parquet".
Proof. repeat split; intros E; cbv [String.append] in E; discriminate E. Qed.

End TableWrites.

(** ** The shape of the mapped rows *)

Section Shape.

Context {B : Type} `{StorageBackend B}.

Lemma spec_article_step_shape kwargs meta edition_hash pub_parts pub_date_obj
    batch_id acc article :
  shaped acc ->
  run_spec (ParquetStorage.article_step kwargs meta edition_hash pub_parts
              pub_date_obj batch_id acc article) placement_ok shaped.
Proof.
  intros [Hed Hlen]. unfold ParquetStorage.article_step.
  eapply spec_bind; [apply spec_normalize_content|]. intros norm _.
  eapply spec_bind; [apply spec_place_content|]. intros placed _.
  eapply spec_bind; [apply spec_now|]. intros ta _.
  eapply spec_bind; [apply spec_now|]. intros tr _.
  apply spec_ret. split; [exact Hed|].
  cbn [ParquetStorage.articles_rows ParquetStorage.relationships_rows].
  rewrite !length_app, Hlen. reflexivity.
Qed.

Lemma spec_edition_step_shape self kwargs batch_id acc edition :
  length (ParquetStorage.relationships_rows acc)
  = length (ParquetStorage.articles_rows acc) ->
  run_spec (ParquetStorage.edition_step self kwargs batch_id acc edition)
    placement_ok shaped.
Proof.
  intros Hlen. unfold ParquetStorage.edition_step.
  eapply spec_bind; [apply spec_publication_date_parts|]. intros parts _.
  eapply spec_bind; [apply spec_strptime|]. intros d _.
  eapply spec_bind; [apply spec_now|]. intros t _.
  apply spec_for_each.
  - intros acc' a Hacc'. apply spec_article_step_shape. exact Hacc'.
  - split; [|exact Hlen]. cbn [ParquetStorage.editions_rows].
    intros E. apply app_eq_nil in E. destruct E as [_ E]. discriminate.
Qed.

Lemma build_rows_shaped self editions kwargs batch_id (w w1 : world B) r :
  editions <> [] ->
  ParquetStorage.build_rows self editions kwargs batch_id w = (Ok r, w1) ->
  shaped r.
Proof.
  intros Hne Hrun. destruct editions as [|e es]; [congruence|].
  assert (Hspec : run_spec (ParquetStorage.build_rows self (e :: es) kwargs batch_id)
                    placement_ok shaped).
  { unfold ParquetStorage.build_rows. cbn [for_each].
    eapply spec_bind; [apply spec_edition_step_shape; reflexivity|].
    intros acc Hacc. apply spec_for_each; [|exact Hacc].
    intros acc' e' [_ Hlen]. apply spec_edition_step_shape. exact Hlen. }
  destruct (Hspec _ _ _ Hrun) as [_ Hq]. exact (Hq r eq_refl).
Qed.

End Shape.

Section NotTransactional.

Implicit Types (w : world LocalBackend.t).

Lemma lookup_wrote_same path tbl msg w :
  LocalBackend.files (backend (wrote path tbl msg w)) !! path
  = Some (LocalBackend.FileParquet tbl PARQUET_COMPRESSION PARQUET_COMPRESSION_LEVEL).
Proof. cbn. apply lookup_insert_eq. Qed.

Lemma lookup_wrote_other path tbl msg w other :
  path <> other ->
  LocalBackend.files (backend (wrote path tbl msg w)) !! other
  = LocalBackend.files (backend w) !! other.
Proof. intros Hne. cbn. apply lookup_insert_ne. exact Hne. Qed.

(** C5. The three table writes of one [save_editions] call happen in the
    order editions, articles, relationships, and nothing is rolled back:
    when the second write fails the editions table stays on disk, when the
    third fails the editions and articles tables stay; in both cases the
    error of the backend reaches the caller (after being logged), it is
    never swallowed. *)
Theorem table_writes_not_transactional (self : ParquetStorage.t)
    (editions : list GazetteEdition.t) (kwargs : Kwargs.t) w w1
    (r : ParquetStorage.rows) :
  let timestamp := Datetime.strftime_compact (clock w (ticks w)) in
  let batch_id :=
    ParquetStorage.kwargs_get (Kwargs.batch_id kwargs) ("batch_" +:+ timestamp) in
  let gazettes := "gazettes/batch_" +:+ timestamp +:+ ".parquet" in
  let articles := "articles/batch_" +:+ timestamp +:+ ".parquet" in
  let relationships := "relationships/batch_" +:+ timestamp +:+ ".parquet" in
  let stored tbl :=
    Some (LocalBackend.FileParquet tbl PARQUET_COMPRESSION PARQUET_COMPRESSION_LEVEL) in
  let run := ParquetStorage.save_editions self editions kwargs w in
  let on_disk path := LocalBackend.files (backend (snd run)) !! path in
  let before path := LocalBackend.files (backend w1) !! path in
  editions <> [] ->
  ParquetStorage.build_rows self editions kwargs batch_id (ticked w) = (Ok r, w1) ->
  ParquetStorage.articles_rows r <> [] ->
  LocalBackend.refuses (backend w1) gazettes = false ->
  (LocalBackend.refuses (backend w1) articles = true ->
   fst run = Raise (LocalBackend.os_error articles)
   /\ on_disk gazettes = stored (EditionsTable (ParquetStorage.editions_rows r))
   /\ on_disk articles = before articles
   /\ on_disk relationships = before relationships
   /\ last (log (snd run))
      = Some (ERROR, "Erro ao salvar: " +:+ exn_message (LocalBackend.os_error articles)))
  /\ (LocalBackend.refuses (backend w1) articles = false ->
      LocalBackend.refuses (backend w1) relationships = true ->
      fst run = Raise (LocalBackend.os_error relationships)
      /\ on_disk gazettes = stored (EditionsTable (ParquetStorage.editions_rows r))
      /\ on_disk articles = stored (ArticlesTable (ParquetStorage.articles_rows r))
      /\ on_disk relationships = before relationships
      /\ last (log (snd run))
         = Some (ERROR,
                 "Erro ao salvar: " +:+ exn_message (LocalBackend.os_error relationships)))
  /\ (LocalBackend.refuses (backend w1) articles = false ->
      LocalBackend.refuses (backend w1) relationships = false ->
      is_ok (fst run) = true
      /\ new_calls w1 (snd run)
         = [CallWriteParquet gazettes (EditionsTable (ParquetStorage.editions_rows r));
            CallWriteParquet articles (ArticlesTable (ParquetStorage.articles_rows r));
            CallWriteParquet relationships
              (RelationshipsTable (ParquetStorage.relationships_rows r))]).
Proof.
  intros timestamp batch_id gazettes articles relationships stored run on_disk before
    Hne Hbuild Harts Hg.
  destruct (build_rows_shaped self editions kwargs batch_id _ _ r Hne Hbuild)
    as [Heds Hlen].
  destruct (targets_differ timestamp) as (Hga & Hgr & Har).
  fold gazettes articles relationships in Hga, Hgr, Har.
  pose proof (save_editions_run self editions kwargs w Hne) as Hsave.
  cbv zeta in Hsave. fold timestamp batch_id in Hsave. rewrite Hbuild in Hsave.
  destruct r as [er ar rr]. cbn [ParquetStorage.editions_rows
    ParquetStorage.articles_rows ParquetStorage.relationships_rows] in *.
  destruct er as [|e0 er]; [congruence|].
  destruct ar as [|a0 ar]; [congruence|].
  destruct rr as [|r0 rr]; [discriminate Hlen|].
  unfold try_except, ParquetStorage.write_tables in Hsave.
  cbn [ParquetStorage.editions_rows ParquetStorage.articles_rows
       ParquetStorage.relationships_rows ParquetStorage.is_nil negb] in Hsave.
  fold gazettes articles relationships in Hsave.
  unfold bind at 1 in Hsave.
  rewrite (block_accepted gazettes _ _ _ w1 Hg) in Hsave. cbv beta iota in Hsave.
  set (w2 := wrote gazettes _ _ w1) in Hsave.
  split; [|split].
  - intros Ha. unfold bind at 1 in Hsave.
    rewrite (block_refused articles _ _ _ w2 Ha) in Hsave. cbv beta iota in Hsave.
    unfold bind, logger, raise in Hsave.
    subst run on_disk before. rewrite Hsave. cbn [fst snd log backend record_call].
    subst w2.
    split; [reflexivity|]. split; [apply lookup_wrote_same|].
    split; [apply lookup_wrote_other; exact Hga|].
    split; [apply lookup_wrote_other; exact Hgr|].
    apply last_snoc.
  - intros Ha Hr. unfold bind at 1 in Hsave.
    rewrite (block_accepted articles _ _ _ w2 Ha) in Hsave. cbv beta iota in Hsave.
    set (w3 := wrote articles _ _ w2) in Hsave.
    unfold bind at 1 in Hsave.
    rewrite (block_refused relationships _ _ _ w3 Hr) in Hsave. cbv beta iota in Hsave.
    unfold bind, logger, raise in Hsave.
    subst run on_disk before. rewrite Hsave. cbn [fst snd log backend record_call].
    subst w3.
    split; [reflexivity|].
    split; [rewrite lookup_wrote_other by (apply not_eq_sym; exact Hga);
            subst w2; apply lookup_wrote_same|].
    split; [apply lookup_wrote_same|].
    split; [rewrite lookup_wrote_other by exact Har;
            subst w2; apply lookup_wrote_other; exact Hgr|].
    apply last_snoc.
  - intros Ha Hr. unfold bind at 1 in Hsave.
    rewrite (block_accepted articles _ _ _ w2 Ha) in Hsave. cbv beta iota in Hsave.
    set (w3 := wrote articles _ _ w2) in Hsave.
    unfold bind at 1 in Hsave.
    rewrite (block_accepted relationships _ _ _ w3 Hr) in Hsave. cbv beta iota in Hsave.
    unfold ret in Hsave.
    subst run on_disk before. rewrite Hsave. cbn [fst snd is_ok].
    split; [reflexivity|].
    subst w3 w2. unfold new_calls, wrote. cbn [calls].
    rewrite <- !app_assoc. rewrite drop_app_length. reflexivity.
Qed.

End NotTransactional.

Lemma table_writes_not_transactional_witness :
  let w := Scenario.refusing ["articles/batch_20240305_103000.parquet"] in
  let batch :=
    [Scenario.edition "2024-03-05"
       [Scenario.article "art-1" (RawStr (Scenario.letters 5))]] in
  let run := ParquetStorage.save_editions Scenario.storage batch Kwargs.none w in
  fst run
  = Raise (LocalBackend.os_error
             ("articles/batch_" +:+ Datetime.strftime_compact (clock w (ticks w))
              +:+ ".parquet"))
  /\ is_Some (LocalBackend.files (backend (snd run))
              !! ("gazettes/batch_" +:+ Datetime.strftime_compact (clock w (ticks w))
                  +:+ ".parquet")).
Proof.
  intros w batch run.
  set (timestamp := Datetime.strftime_compact (clock w (ticks w))).
  set (batch_id :=
         ParquetStorage.kwargs_get (Kwargs.batch_id Kwargs.none) ("batch_" +:+ timestamp)).
  destruct (ParquetStorage.build_rows Scenario.storage batch Kwargs.none batch_id
              (ticked w)) as [res w1] eqn:Hbuild.
  assert (Hres : exists r, res = Ok r /\ ParquetStorage.articles_rows r <> []).
  { apply (f_equal fst) in Hbuild. cbn [fst] in Hbuild. rewrite <- Hbuild.
    vm_compute. eexists. split; [reflexivity | discriminate]. }
  assert (Hg : LocalBackend.refuses (backend w1)
                 ("gazettes/batch_" +:+ timestamp +:+ ".parquet") = false).
  { apply (f_equal snd) in Hbuild. cbn [snd] in Hbuild. rewrite <- Hbuild.
    vm_compute. reflexivity. }
  assert (Ha : LocalBackend.refuses (backend w1)
                 ("articles/batch_" +:+ timestamp +:+ ".parquet") = true).
  { apply (f_equal snd) in Hbuild. cbn [snd] in Hbuild. rewrite <- Hbuild.
    vm_compute. reflexivity. }
  destruct Hres as (r & -> & Harts).
  assert (Hne : batch <> []) by discriminate.
  destruct (table_writes_not_transactional Scenario.storage batch Kwargs.none w w1 r
              Hne Hbuild Harts Hg) as [Hsecond _].
  destruct (Hsecond Ha) as (Hraise & Hdisk & _).
  split; [exact Hraise|]. eexists. exact Hdisk.
Defined.

(** ** Publication dates that do not parse *)

Section UnparsedDate.

Context {B : Type} `{StorageBackend B}.

(** The helper falls back to the current date: it never raises. *)
Lemma publication_date_parts_fallback (publication_date : string) (w : world B) :
  Datetime.strptime_ymd publication_date = None ->
  let today := Datetime.on_date (clock w (ticks w)) in
  ParquetStorage._publication_date_parts publication_date w
  = (Ok (DateParts.mk (Datetime.year today) (Datetime.month today)
           (Datetime.day today)), ticked w).
Proof.
  intros Hbad today.
  unfold ParquetStorage._publication_date_parts, try_except, bind,
    ParquetStorage.strptime.
  rewrite Hbad. reflexivity.
Qed.

(** The loop body parses the date a second time, outside any handler. *)
Lemma edition_step_unparsed (self : ParquetStorage.t) (kwargs : Kwargs.t)
    (batch_id : string) (acc : ParquetStorage.rows) (edition : GazetteEdition.t)
    (w : world B) :
  let d := EditionMetadata.publication_date (GazetteEdition.metadata edition) in
  Datetime.strptime_ymd d = None ->
  ParquetStorage.edition_step self kwargs batch_id acc edition w
  = (Raise (date_error d), ticked w).
Proof.
  intros d Hbad. unfold ParquetStorage.edition_step.
  unfold bind at 1. fold d. rewrite (publication_date_parts_fallback d w Hbad).
  unfold bind at 1. unfold ParquetStorage.strptime. rewrite Hbad. reflexivity.
Qed.

(** A batch maps to rows only if every publication date parses. *)
Lemma for_each_edition_parsed (self : ParquetStorage.t) (kwargs : Kwargs.t)
    (batch_id : string) (editions : list GazetteEdition.t)
    (acc r : ParquetStorage.rows) (w w' : world B) :
  for_each editions (ParquetStorage.edition_step self kwargs batch_id) acc w
  = (Ok r, w') ->
  Forall (fun e =>
            is_Some (Datetime.strptime_ymd
                       (EditionMetadata.publication_date (GazetteEdition.metadata e))))
         editions.
Proof.
  revert acc w. induction editions as [|e es IH]; intros acc w Hrun; [constructor|].
  cbn [for_each] in Hrun. unfold bind in Hrun.
  destruct (ParquetStorage.edition_step self kwargs batch_id acc e w)
    as [[acc1|ex] w1] eqn:Hstep; [|discriminate].
  constructor; [|exact (IH _ _ Hrun)].
  destruct (Datetime.strptime_ymd
              (EditionMetadata.publication_date (GazetteEdition.metadata e)))
    eqn:Hparse; [eauto|].
  rewrite (edition_step_unparsed self kwargs batch_id acc e w Hparse) in Hstep.
  discriminate.
Qed.

(** Wherever it stands in the batch, one date that does not parse makes
    [save_editions] raise. *)
Lemma save_editions_requires_parsed_dates (self : ParquetStorage.t)
    (kwargs : Kwargs.t) (editions : list GazetteEdition.t) (e : GazetteEdition.t)
    (w : world B) :
  e ∈ editions ->
  Datetime.strptime_ymd
    (EditionMetadata.publication_date (GazetteEdition.metadata e)) = None ->
  is_ok (fst (ParquetStorage.save_editions self editions kwargs w)) = false.
Proof.
  intros Hin Hbad.
  assert (Hne : editions <> []) by (intros ->; inversion Hin).
  rewrite (save_editions_run self editions kwargs w Hne). cbv zeta.
  destruct (ParquetStorage.build_rows _ _ _ _ _) as [[r|ex] w1] eqn:Hbuild;
    [|reflexivity].
  apply for_each_edition_parsed in Hbuild. rewrite Forall_forall in Hbuild.
  destruct (Hbuild e Hin) as [d Hd]. congruence.
Qed.

End UnparsedDate.

(** C1 (the code departs from it). The specification wants a publication
    date that does not match [%Y-%m-%d] to be survivable: current date for
    the partition fields, a warning, the save succeeding.  The helper
    [_publication_date_parts] does fall back to the current date, but
    [save_editions] then parses the same string again with no handler: on
    the batch below the call raises [ValueError], logs nothing, writes
    nothing and calls the backend not once. *)
Theorem unparsed_date_is_fatal :
  let batch :=
    [Scenario.edition "05/03/2024"
       [Scenario.article "art-1" (RawStr (Scenario.letters 5))]] in
  let run :=
    ParquetStorage.save_editions Scenario.storage batch Kwargs.none Scenario.fresh in
  Datetime.strptime_ymd "05/03/2024" = None
  /\ fst (ParquetStorage._publication_date_parts "05/03/2024" Scenario.fresh)
     = Ok (DateParts.mk 2024 3 5)
  /\ fst run = Raise (ValueError
                        "time data '05/03/2024' does not match format '%Y-%m-%d'")
  /\ log (snd run) = []
  /\ calls (snd run) = []
  /\ LocalBackend.files (backend (snd run)) = ∅.
Proof.
  intros batch run.
  assert (Hbad : Datetime.strptime_ymd "05/03/2024" = None) by reflexivity.
  split; [exact Hbad|]. split; [reflexivity|].
  subst run. rewrite (save_editions_run Scenario.storage batch Kwargs.none
                        Scenario.fresh ltac:(discriminate)).
  cbv zeta. unfold ParquetStorage.build_rows, batch. cbn [for_each].
  unfold bind at 1.
  rewrite (edition_step_unparsed Scenario.storage Kwargs.none _ _
             (Scenario.edition "05/03/2024" _) _ Hbad).
  repeat split.
Qed.

(** * Further properties of the code *)

(** ** storage/local.py: files written and read back *)

Section LocalFiles.

Implicit Types (b : LocalBackend.t) (path : string) (data : list byte).


(** X1. Whatever [path] held before and whatever metadata comes along, bytes
    written through [write_bytes] on a disk that accepts them are the bytes
    [read_bytes] returns, and the path exists afterwards. *)
Theorem write_bytes_read_back b path data (md : option metadata) :
  LocalBackend.refuses b path = false ->
  LocalBackend.refuses b (path +:+ ".meta.json") = false ->
  let out := LocalBackend.write_bytes b path data md in
  fst out = Ok path
  /\ LocalBackend.read_bytes (snd out) path = Ok data
  /\ LocalBackend.exists_ (snd out) path = true.
Proof.
  intros Hp Hm out. subst out. unfold LocalBackend.write_bytes. rewrite Hp.
  assert (Hread : forall fs,
             fs !! path = Some (LocalBackend.FileBytes data) ->
             LocalBackend.read_bytes (LocalBackend.set_files b fs) path = Ok data
             /\ LocalBackend.exists_ (LocalBackend.set_files b fs) path = true).
  { intros fs Hfs. split.
    - unfold LocalBackend.read_bytes. cbn. rewrite Hfs. reflexivity.
    - apply exists_of_file. cbn. rewrite Hfs. eauto. }
  destruct md as [[|kv m]|]; cbn [fst snd].
  - split; [reflexivity|]. apply Hread, lookup_insert_eq.
  - unfold LocalBackend.refuses in *. cbn [LocalBackend.set_files LocalBackend.unwritable].
    rewrite Hm. cbn [fst snd]. split; [reflexivity|].
    apply (Hread (<[path +:+ ".meta.json" := _]> _)).
    rewrite lookup_insert_ne by apply sidecar_differs. apply lookup_insert_eq.
  - split; [reflexivity|]. apply Hread, lookup_insert_eq.
Qed.

Lemma write_bytes_read_back_witness :
  let b := LocalBackend.init "data/raw" in
  let out := LocalBackend.write_bytes b "content/ab/cd/x.bin" []
               (Some [("content_size", MInt 0)]) in
  LocalBackend.refuses b "content/ab/cd/x.bin" = false
  /\ LocalBackend.refuses b ("content/ab/cd/x.bin" +:+ ".meta.json") = false
  /\ LocalBackend.read_bytes (snd out) "content/ab/cd/x.bin" = Ok [].
Proof.
  intros b out.
  assert (H1 : LocalBackend.refuses b "content/ab/cd/x.bin" = false)
    by (vm_compute; reflexivity).
  assert (H2 : LocalBackend.refuses b ("content/ab/cd/x.bin" +:+ ".meta.json") = false)
    by (vm_compute; reflexivity).
  split; [exact H1|]. split; [exact H2|].
  exact (proj1 (proj2 (write_bytes_read_back b "content/ab/cd/x.bin" []
                         (Some [("content_size", MInt 0)]) H1 H2))).
Defined.

(** X2. [write_bytes] touches two paths at most: the target and its sidecar.
    Every other file is as it was, whether the call returns or raises, and
    without metadata ([None] or an empty dict) the sidecar is not touched
    either. *)
Theorem write_bytes_frame b path data (md : option metadata) (other : string) :
  other <> path ->
  (other <> path +:+ ".meta.json" \/ md = None \/ md = Some []) ->
  LocalBackend.files (snd (LocalBackend.write_bytes b path data md)) !! other
  = LocalBackend.files b !! other.
Proof.
  intros Hne Hside. unfold LocalBackend.write_bytes.
  destruct (LocalBackend.refuses b path); [reflexivity|].
  destruct md as [[|kv m]|]; cbn [snd LocalBackend.set_files LocalBackend.files].
  - apply lookup_insert_ne. congruence.
  - destruct (LocalBackend.refuses _ _);
      cbn [snd LocalBackend.set_files LocalBackend.files].
    + apply lookup_insert_ne. congruence.
    + destruct Hside as [Hs | [Hs | Hs]]; try discriminate.
      rewrite lookup_insert_ne by congruence. apply lookup_insert_ne. congruence.
  - apply lookup_insert_ne. congruence.
Qed.

Lemma write_bytes_frame_witness :
  let b := backend Scenario.with_articles in
  let other := "articles/batch_20240101_000000.parquet" in
  other <> "content/ab/cd/x.bin"
  /\ is_Some (LocalBackend.files
                (snd (LocalBackend.write_bytes b "content/ab/cd/x.bin" [] None))
              !! other).
Proof.
  intros b other.
  assert (Hne : other <> "content/ab/cd/x.bin") by discriminate.
  split; [exact Hne|].
  rewrite (write_bytes_frame b "content/ab/cd/x.bin" [] None other Hne
             (or_intror (or_introl eq_refl))).
  vm_compute. eauto.
Defined.

Lemma write_bytes_sidecar_refused b path data (kv : string * meta_value)
    (m : metadata) :
  LocalBackend.refuses b path = false ->
  LocalBackend.refuses b (path +:+ ".meta.json") = true ->
  let out := LocalBackend.write_bytes b path data (Some (kv :: m)) in
  fst out = Raise (LocalBackend.os_error (path +:+ ".meta.json"))
  /\ LocalBackend.read_bytes (snd out) path = Ok data
  /\ LocalBackend.files (snd out) !! (path +:+ ".meta.json")
     = LocalBackend.files b !! (path +:+ ".meta.json").
Proof.
  intros Hp Hm out. subst out. unfold LocalBackend.write_bytes. rewrite Hp, Hm.
  cbn [fst snd]. split; [reflexivity|]. split.
  - unfold LocalBackend.read_bytes. cbn. rewrite lookup_insert_eq. reflexivity.
  - cbn. apply lookup_insert_ne. apply not_eq_sym, sidecar_differs.
Qed.

(** X3. The data file and its sidecar are two separate writes: when the disk
    refuses the sidecar, [write_bytes] raises and the data file is on disk
    all the same. *)
Theorem sidecar_failure_keeps_data b path data (kv : string * meta_value)
    (m : metadata) :
  LocalBackend.refuses b path = false ->
  LocalBackend.refuses b (path +:+ ".meta.json") = true ->
  let out := LocalBackend.write_bytes b path data (Some (kv :: m)) in
  fst out = Raise (LocalBackend.os_error (path +:+ ".meta.json"))
  /\ LocalBackend.read_bytes (snd out) path = Ok data
  /\ LocalBackend.files (snd out) !! (path +:+ ".meta.json")
     = LocalBackend.files b !! (path +:+ ".meta.json").
Proof.
  intros Hp Hm out. subst out. unfold LocalBackend.write_bytes. rewrite Hp, Hm.
  cbn [fst snd]. split; [reflexivity|]. split.
  - unfold LocalBackend.read_bytes. cbn. rewrite lookup_insert_eq. reflexivity.
  - cbn. apply lookup_insert_ne. apply not_eq_sym, sidecar_differs.
Qed.

Lemma sidecar_failure_keeps_data_witness :
  let b := backend (Scenario.refusing ["x.bin.meta.json"]) in
  let out := LocalBackend.write_bytes b "x.bin" (Scenario.letter_bytes 3)
               (Some [("content_size", MInt 3)]) in
  LocalBackend.refuses b "x.bin" = false
  /\ LocalBackend.refuses b ("x.bin" +:+ ".meta.json") = true
  /\ is_ok (fst out) = false
  /\ LocalBackend.read_bytes (snd out) "x.bin" = Ok (Scenario.letter_bytes 3).
Proof.
  intros b out.
  assert (H1 : LocalBackend.refuses b "x.bin" = false) by (vm_compute; reflexivity).
  assert (H2 : LocalBackend.refuses b ("x.bin" +:+ ".meta.json") = true)
    by (vm_compute; reflexivity).
  split; [exact H1|]. split; [exact H2|].
  destruct (sidecar_failure_keeps_data b "x.bin" (Scenario.letter_bytes 3)
              ("content_size", MInt 3) [] H1 H2) as (Hr & Hd & _).
  fold out in Hr, Hd. rewrite Hr. split; [reflexivity | exact Hd].
Defined.

(** X4. A table written through [write_parquet] replaces whatever the path
    held (no append, no merge): reading the path back gives that table. *)
Theorem write_parquet_read_back b path (tbl : table) :
  LocalBackend.refuses b path = false ->
  let out := LocalBackend.write_parquet b path tbl in
  fst out = Ok path
  /\ LocalBackend.read_parquet (snd out) path None = Ok tbl
  /\ forall other, other <> path ->
       LocalBackend.files (snd out) !! other = LocalBackend.files b !! other.
Proof.
  intros Hp out. subst out. unfold LocalBackend.write_parquet. rewrite Hp.
  cbn [fst snd]. split; [reflexivity|]. split.
  - unfold LocalBackend.read_parquet. cbn. rewrite lookup_insert_eq. reflexivity.
  - intros other Hne. cbn. apply lookup_insert_ne. congruence.
Qed.

Lemma write_parquet_read_back_witness :
  let b := backend Scenario.with_articles in
  let path := "articles/batch_20240101_000000.parquet" in
  LocalBackend.refuses b path = false
  /\ LocalBackend.read_parquet b path None = Ok (ArticlesTable [])
  /\ LocalBackend.read_parquet
       (snd (LocalBackend.write_parquet b path (RelationshipsTable []))) path None
     = Ok (RelationshipsTable []).
Proof.
  intros b path.
  assert (H1 : LocalBackend.refuses b path = false) by (vm_compute; reflexivity).
  split; [exact H1|]. split; [vm_compute; reflexivity|].
  exact (proj1 (proj2 (write_parquet_read_back b path (RelationshipsTable []) H1))).
Defined.

End LocalFiles.

(** ** storage/local.py: listing *)

Section Listing.

Implicit Types (b : LocalBackend.t).

#[local] Instance str_le_total : Total LocalBackend.str_le.
Proof. exact String.le_total. Qed.


End Listing.

(** ** The shape of blob paths *)

Section Strings.

Lemma append_assoc_s (a b c : string) : (a +:+ b) +:+ c = a +:+ b +:+ c.
Proof.
  induction a as [|x a IH]; [reflexivity|].
  change (String x ((a +:+ b) +:+ c) = String x (a +:+ b +:+ c)). f_equal. exact IH.
Qed.

Lemma length_append_s (a b : string) :
  String.length (a +:+ b) = String.length a + String.length b.
Proof.
  induction a as [|x a IH]; [reflexivity|].
  change (S (String.length (a +:+ b)) = S (String.length a + String.length b)).
  f_equal. exact IH.
Qed.

Lemma length_prefix_s (n : nat) (s : string) :
  n <= String.length s -> String.length (String.substring 0 n s) = n.
Proof.
  revert s. induction n as [|n IH]; intros [|c s] Hn; cbn in *; try lia; try reflexivity.
  f_equal. apply IH. lia.
Qed.

Lemma length_slice_s (a n : nat) (s : string) :
  a + n <= String.length s -> String.length (String.substring a n s) = n.
Proof.
  revert s. induction a as [|a IH]; intros s Hn.
  - apply length_prefix_s. exact Hn.
  - destruct s as [|c s]; cbn in *; [lia|]. apply IH. lia.
Qed.

Lemma prefix_append_s (a b : string) : String.prefix a (a +:+ b) = true.
Proof.
  induction a as [|x a IH]; [destruct b; reflexivity|].
  change (String x a +:+ b) with (String x (a +:+ b)). cbn [String.prefix].
  destruct (ascii_dec x x) as [_|Hne]; [exact IH | congruence].
Qed.

Lemma all_hex_append (a b : string) :
  all_hex (a +:+ b) = all_hex a && all_hex b.
Proof.
  induction a as [|x a IH]; [reflexivity|].
  change (is_hex x && all_hex (a +:+ b) = is_hex x && all_hex a && all_hex b).
  rewrite IH, andb_assoc. reflexivity.
Qed.

Lemma all_hex_no_char (c : ascii) (s : string) :
  is_hex c = false -> all_hex s = true -> has_char c s = false.
Proof.
  intros Hc. induction s as [|d s IH]; [reflexivity|]. cbn.
  rewrite andb_true_iff. intros [Hd Hs]. rewrite (IH Hs), orb_false_r.
  destruct (Ascii.eqb_spec d c) as [->|]; [congruence | reflexivity].
Qed.

Lemma has_char_append (c : ascii) (a b : string) :
  has_char c (a +:+ b) = has_char c a || has_char c b.
Proof.
  induction a as [|x a IH]; [reflexivity|].
  change (Ascii.eqb x c || has_char c (a +:+ b)
          = Ascii.eqb x c || has_char c a || has_char c b).
  rewrite IH, orb_assoc. reflexivity.
Qed.

Lemma has_char_existsb (c : ascii) (s : string) :
  existsb (Ascii.eqb c) (list_ascii_of_string s) = has_char c s.
Proof.
  induction s as [|d s IH]; [reflexivity|]. cbn. rewrite IH.
  rewrite (Ascii.eqb_sym c d). reflexivity.
Qed.

(** The name of [dir/name] is [name] when [name] holds no slash. *)
Lemma name_of_join (dir name : string) :
  has_char "/"%char name = false ->
  LocalBackend.name_of (dir +:+ "/" +:+ name) = name.
Proof.
  intros Hn. induction dir as [|c dir IH].
  - change ("" +:+ "/" +:+ name) with (String "/"%char name).
    cbn [LocalBackend.name_of]. rewrite has_char_existsb, Hn. reflexivity.
  - change (String c dir +:+ "/" +:+ name) with (String c (dir +:+ "/" +:+ name)).
    cbn [LocalBackend.name_of]. rewrite has_char_existsb, has_char_append.
    change ("/" +:+ name) with (String "/"%char name). cbn [has_char].
    rewrite Ascii.eqb_refl, orb_true_r. cbn [orb]. exact IH.
Qed.

Lemma rfind_dot_bin (s : string) :
  LocalBackend.rfind_dot (s +:+ ".bin") = Some (String.length s).
Proof.
  induction s as [|c s IH]; [reflexivity|].
  change (String c s +:+ ".bin") with (String c (s +:+ ".bin")).
  cbn [LocalBackend.rfind_dot String.length]. rewrite IH. reflexivity.
Qed.

Lemma substring_tail (s t : string) :
  String.substring (String.length s) (String.length t) (s +:+ t) = t.
Proof.
  induction s as [|c s IH]; cbn [String.length].
  - change ("" +:+ t) with t. induction t as [|d t IHt]; [reflexivity|].
    cbn. f_equal. exact IHt.
  - change (String c s +:+ t) with (String c (s +:+ t)). cbn. exact IH.
Qed.

Lemma suffix_of_bin (dir stem : string) :
  stem <> "" -> has_char "/"%char stem = false ->
  LocalBackend.suffix_of (dir +:+ "/" +:+ stem +:+ ".bin") = ".bin".
Proof.
  intros Hne Hslash. unfold LocalBackend.suffix_of.
  rewrite name_of_join.
  2:{ rewrite has_char_append, Hslash. reflexivity. }
  rewrite rfind_dot_bin, length_append_s.
  destruct stem as [|c stem]; [congruence|]. cbn [String.length].
  replace (S (String.length stem) + 4 - S (String.length stem)) with 4 by lia.
  assert (Hlt : (S (String.length stem) <? S (String.length stem) + 4 - 1)%nat = true)
    by (apply Nat.ltb_lt; lia).
  rewrite Hlt. cbn [Nat.ltb Nat.leb andb].
  exact (substring_tail (String c stem) ".bin").
Qed.

End Strings.

Section Digest.

Local Open Scope Z_scope.

Lemma length_le_bytes (n : nat) (z : Z) : length (Hashlib.le_bytes n z) = n.
Proof. revert z. induction n as [|n IH]; intros z; cbn; [reflexivity | f_equal; apply IH]. Qed.

Lemma length_be_bytes (n : nat) (z : Z) : length (Hashlib.be_bytes n z) = n.
Proof. unfold Hashlib.be_bytes. rewrite length_rev. apply length_le_bytes. Qed.

Lemma length_round256 (st : list Z) (kw : Z * Z) :
  length (Hashlib.round256 st kw) = length st.
Proof.
  unfold Hashlib.round256.
  destruct st as [|a [|b [|c [|d [|e [|f [|g [|h [|i st]]]]]]]]]; reflexivity.
Qed.

Lemma length_rounds256 (kws : list (Z * Z)) (st : list Z) :
  length (fold_left Hashlib.round256 kws st) = length st.
Proof.
  revert st. induction kws as [|kw kws IH]; intros st; cbn; [reflexivity|].
  rewrite IH. apply length_round256.
Qed.

Lemma length_compress256 (st : list Z) (block : list byte) :
  length (Hashlib.compress256 st block) = length st.
Proof.
  unfold Hashlib.compress256. rewrite length_map, length_combine, length_rounds256.
  apply Nat.min_id.
Qed.

Lemma length_sha256_digest (msg : list byte) :
  length (Hashlib.sha256_digest msg) = 32%nat.
Proof.
  unfold Hashlib.sha256_digest.
  assert (Hst : forall blocks st,
             length (fold_left Hashlib.compress256 blocks st) = length st).
  { induction blocks as [|bl blocks IH]; intros st; cbn; [reflexivity|].
    rewrite IH. apply length_compress256. }
  specialize (Hst (Hashlib.blocks (Hashlib.padded (Hashlib.be_bytes 8) msg))
                Hashlib.H256).
  change (length Hashlib.H256) with 8%nat in Hst.
  destruct (fold_left Hashlib.compress256 _ Hashlib.H256)
    as [|a [|b [|c [|d [|e [|f [|g [|h [|i st]]]]]]]]]; try discriminate Hst.
  cbn [map concat]. rewrite !length_app, !length_be_bytes. reflexivity.
Qed.

Lemma hex_of_byte_shape (b : byte) :
  String.length (Hashlib.hex_of_byte b) = 2%nat
  /\ all_hex (Hashlib.hex_of_byte b) = true.
Proof. destruct b; vm_compute; split; reflexivity. Qed.

Lemma hexdigest_shape (bs : list byte) :
  String.length (Hashlib.hexdigest bs) = (2 * length bs)%nat
  /\ all_hex (Hashlib.hexdigest bs) = true.
Proof.
  induction bs as [|b bs [IHl IHh]]; [split; reflexivity|].
  destruct (hex_of_byte_shape b) as [Hl Hh].
  change (Hashlib.hexdigest (b :: bs))
    with (Hashlib.hex_of_byte b +:+ Hashlib.hexdigest bs).
  rewrite length_append_s, all_hex_append, Hl, IHl, Hh, IHh. cbn [length]. split; [lia|reflexivity].
Qed.

End Digest.

(** X6. The digest [_write_content_blob] computes is always 64 lower-case
    hexadecimal digits, so a blob path is always 82 characters of the form
    [content/<2 hex>/<2 hex>/<64 hex>.bin]: it lies below [content], its
    file name is the digest followed by [.bin] and its suffix is [.bin]. *)
Theorem blob_path_shape (b : list byte) :
  let h := Hashlib.sha256 b in
  let path := ParquetStorage.blob_path h in
  String.length h = 64
  /\ all_hex h = true
  /\ String.length path = 82
  /\ String.length (Py.slice 0 2 h) = 2
  /\ String.length (Py.slice 2 2 h) = 2
  /\ LocalBackend.below CONTENT_DIRNAME path = true
  /\ LocalBackend.name_of path = h +:+ ".bin"
  /\ LocalBackend.suffix_of path = ".bin".
Proof.
  intros h path.
  destruct (hexdigest_shape (Hashlib.sha256_digest b)) as [Hlen Hhex].
  rewrite length_sha256_digest in Hlen. fold (Hashlib.sha256 b) in Hlen, Hhex.
  fold h in Hlen, Hhex. change (2 * 32) with 64 in Hlen.
  assert (Hs1 : String.length (Py.slice 0 2 h) = 2)
    by (apply length_slice_s; lia).
  assert (Hs2 : String.length (Py.slice 2 2 h) = 2)
    by (apply length_slice_s; lia).
  assert (Hslash : has_char "/"%char h = false)
    by (apply all_hex_no_char; [reflexivity | exact Hhex]).
  assert (Hne : h <> "") by (intros E; rewrite E in Hlen; discriminate).
  assert (Hpath : path = ("content/" +:+ Py.slice 0 2 h +:+ "/" +:+ Py.slice 2 2 h)
                         +:+ "/" +:+ h +:+ ".bin").
  { subst path. unfold ParquetStorage.blob_path, CONTENT_DIRNAME.
    rewrite !append_assoc_s. reflexivity. }
  split; [exact Hlen|]. split; [exact Hhex|]. split.
  { rewrite Hpath, !length_append_s, Hs1, Hs2, Hlen. reflexivity. }
  split; [exact Hs1|]. split; [exact Hs2|]. split.
  { unfold LocalBackend.below. subst path. unfold ParquetStorage.blob_path.
    rewrite <- (append_assoc_s CONTENT_DIRNAME "/"). apply prefix_append_s. }
  split.
  - rewrite Hpath. apply name_of_join. rewrite has_char_append, Hslash. reflexivity.
  - rewrite Hpath. apply suffix_of_bin; assumption.
Qed.

(** ** What the mapping loop puts in the rows *)

Section Mapping.

Context {B : Type} `{StorageBackend B}.

Lemma publication_date_parts_parsed (s : string) (d : Datetime.date) (w : world B) :
  Datetime.strptime_ymd s = Some d ->
  ParquetStorage._publication_date_parts s w
  = (Ok (DateParts.mk (Datetime.year d) (Datetime.month d) (Datetime.day d)), w).
Proof.
  intros Hd. unfold ParquetStorage._publication_date_parts, try_except, bind,
    ParquetStorage.strptime. rewrite Hd. reflexivity.
Qed.

(** One pass of the inner loop, read backwards. *)
Lemma article_step_inv kwargs (e : GazetteEdition.t) (d : Datetime.date)
    batch_id acc article acc' (w w' : world B) :
  publication_date_of e = Some d ->
  ParquetStorage.article_step kwargs (GazetteEdition.metadata e)
    (ParquetStorage._generate_edition_hash e)
    (DateParts.mk (Datetime.year d) (Datetime.month d) (Datetime.day d)) d
    batch_id acc article w = (Ok acc', w') ->
  exists row rel,
    acc' = ParquetStorage.mk_rows (ParquetStorage.editions_rows acc)
             (ParquetStorage.articles_rows acc ++ [row])
             (ParquetStorage.relationships_rows acc ++ [rel])
    /\ article_row_of kwargs batch_id (e, article) row
    /\ relationship_row_of kwargs batch_id (e, article) rel.
Proof.
  intros Hd Hrun. unfold ParquetStorage.article_step in Hrun.
  unfold bind at 1 in Hrun.
  destruct (ParquetStorage.normalize_content _ w) as [[norm|ex] w0]; [|discriminate].
  unfold bind at 1 in Hrun.
  destruct (ParquetStorage.place_content _ _ w0) as [[placed|ex] w1]; [|discriminate].
  unfold bind, now, ret in Hrun. injection Hrun as <- _.
  eexists _, _. split; [reflexivity|]. split.
  - exists d. cbn. repeat split. exact Hd.
  - cbn. repeat split.
Qed.

Lemma articles_loop_inv kwargs (e : GazetteEdition.t) (d : Datetime.date)
    batch_id (articles : list Article.t) acc acc' (w w' : world B) :
  publication_date_of e = Some d ->
  for_each articles
    (ParquetStorage.article_step kwargs (GazetteEdition.metadata e)
       (ParquetStorage._generate_edition_hash e)
       (DateParts.mk (Datetime.year d) (Datetime.month d) (Datetime.day d)) d
       batch_id) acc w = (Ok acc', w') ->
  exists arows rels,
    acc' = ParquetStorage.mk_rows (ParquetStorage.editions_rows acc)
             (ParquetStorage.articles_rows acc ++ arows)
             (ParquetStorage.relationships_rows acc ++ rels)
    /\ Forall2 (article_row_of kwargs batch_id) (map (pair e) articles) arows
    /\ Forall2 (relationship_row_of kwargs batch_id) (map (pair e) articles) rels.
Proof.
  intros Hd. revert acc w. induction articles as [|a articles IH]; intros acc w Hrun.
  - cbn in Hrun. injection Hrun as <- _. exists [], [].
    rewrite !app_nil_r. destruct acc. repeat split; constructor.
  - cbn [for_each] in Hrun. unfold bind at 1 in Hrun.
    destruct (ParquetStorage.article_step _ _ _ _ _ _ acc a w) as [[acc1|ex] w1] eqn:Hstep;
      [|discriminate].
    destruct (article_step_inv _ _ _ _ _ _ _ _ _ Hd Hstep) as (row & rel & -> & Hrow & Hrel).
    destruct (IH _ _ Hrun) as (arows & rels & -> & Harows & Hrels).
    exists (row :: arows), (rel :: rels).
    cbn [ParquetStorage.editions_rows ParquetStorage.articles_rows
         ParquetStorage.relationships_rows].
    rewrite <- !app_assoc. split; [reflexivity|].
    split; constructor; assumption.
Qed.

Lemma edition_step_inv self kwargs batch_id acc (e : GazetteEdition.t) acc'
    (w w' : world B) :
  ParquetStorage.edition_step self kwargs batch_id acc e w = (Ok acc', w') ->
  exists erow arows rels,
    acc' = ParquetStorage.mk_rows (ParquetStorage.editions_rows acc ++ [erow])
             (ParquetStorage.articles_rows acc ++ arows)
             (ParquetStorage.relationships_rows acc ++ rels)
    /\ edition_row_of kwargs batch_id e erow
    /\ Forall2 (article_row_of kwargs batch_id)
         (map (pair e) (GazetteEdition.articles e)) arows
    /\ Forall2 (relationship_row_of kwargs batch_id)
         (map (pair e) (GazetteEdition.articles e)) rels.
Proof.
  intros Hrun.
  destruct (publication_date_of e) as [d|] eqn:Hd.
  2:{ rewrite (edition_step_unparsed self kwargs batch_id acc e w Hd) in Hrun.
      discriminate. }
  unfold ParquetStorage.edition_step in Hrun. unfold bind at 1 in Hrun.
  rewrite (publication_date_parts_parsed _ d w Hd) in Hrun.
  unfold bind at 1 in Hrun. unfold ParquetStorage.strptime in Hrun.
  unfold publication_date_of in Hd. rewrite Hd in Hrun. unfold ret at 1 in Hrun.
  unfold bind at 1 in Hrun. unfold now at 1 in Hrun.
  destruct (articles_loop_inv _ _ _ _ _ _ _ _ _ Hd Hrun)
    as (arows & rels & -> & Harows & Hrels).
  eexists _, arows, rels. split; [reflexivity|]. split; [|split; assumption].
  exists d. cbn. repeat split. exact Hd.
Qed.

Lemma editions_loop_mapped self kwargs batch_id editions acc r (w w' : world B) :
  for_each editions (ParquetStorage.edition_step self kwargs batch_id) acc w
  = (Ok r, w') ->
  exists erows arows rels,
    r = ParquetStorage.mk_rows (ParquetStorage.editions_rows acc ++ erows)
          (ParquetStorage.articles_rows acc ++ arows)
          (ParquetStorage.relationships_rows acc ++ rels)
    /\ mapped kwargs batch_id editions (ParquetStorage.mk_rows erows arows rels).
Proof.
  revert acc w. induction editions as [|e editions IH]; intros acc w Hrun.
  - cbn in Hrun. injection Hrun as <- _. exists [], [], [].
    rewrite !app_nil_r. destruct acc. split; [reflexivity|].
    repeat split; constructor.
  - cbn [for_each] in Hrun. unfold bind at 1 in Hrun.
    destruct (ParquetStorage.edition_step self kwargs batch_id acc e w)
      as [[acc1|ex] w1] eqn:Hstep; [|discriminate].
    destruct (edition_step_inv _ _ _ _ _ _ _ _ Hstep)
      as (erow & arows & rels & -> & Herow & Harows & Hrels).
    destruct (IH _ _ Hrun) as (erows & arows' & rels' & -> & He & Ha & Hr).
    exists (erow :: erows), (arows ++ arows'), (rels ++ rels').
    cbn [ParquetStorage.editions_rows ParquetStorage.articles_rows
         ParquetStorage.relationships_rows] in *.
    rewrite <- !app_assoc. split; [reflexivity|].
    unfold mapped, article_pairs.
    cbn [flat_map ParquetStorage.editions_rows ParquetStorage.articles_rows
         ParquetStorage.relationships_rows].
    split; [constructor; assumption|].
    split; apply Forall2_app; assumption.
Qed.

(** Rows that [build_rows] returns are the image of the batch. *)
Lemma build_rows_mapped self editions kwargs batch_id r (w w' : world B) :
  ParquetStorage.build_rows self editions kwargs batch_id w = (Ok r, w') ->
  mapped kwargs batch_id editions r.
Proof.
  intros Hrun. unfold ParquetStorage.build_rows in Hrun.
  destruct (editions_loop_mapped _ _ _ _ _ _ _ _ Hrun)
    as (erows & arows & rels & -> & Hm).
  exact Hm.
Qed.

End Mapping.

(** ** The journal of one save *)

Section Journal.

Context {B : Type} `{StorageBackend B}.

Lemma journal_write_content_blob (bs : list byte) :
  run_spec (ParquetStorage._write_content_blob (AsBytes bs)) blob_call (fun _ => True).
Proof.
  intros w r w' Hrun. split; [|trivial].
  rewrite write_content_blob_run in Hrun. cbv zeta in Hrun.
  destruct (exists_ (backend w) _).
  - injection Hrun as _ <-. eexists. split; [reflexivity|].
    constructor; [|constructor]. exists bs. left. reflexivity.
  - destruct (write_bytes _ _ _ _) as [[p|e] bk]; injection Hrun as _ <-;
      (eexists; split; [reflexivity|]);
      (constructor; [exists bs; left; reflexivity|]);
      (constructor; [exists bs; right; eexists; reflexivity | constructor]).
Qed.

Lemma journal_place_content (otxt : option Utf8.pystr) (bs : list byte) :
  run_spec (ParquetStorage.place_content otxt bs) blob_call (fun _ => True).
Proof.
  unfold ParquetStorage.place_content.
  destruct otxt as [txt|]; [destruct (CONTENT_INLINE_THRESHOLD <? length txt)%nat|].
  - eapply spec_bind; [apply journal_write_content_blob|]. intros; apply spec_ret; trivial.
  - apply spec_ret. trivial.
  - eapply spec_bind; [apply journal_write_content_blob|]. intros; apply spec_ret; trivial.
Qed.

Lemma journal_normalize_content (raw : raw_content) :
  run_spec (ParquetStorage.normalize_content (B:=B) raw) blob_call (fun _ => True).
Proof.
  apply spec_quiet. intros w. unfold ParquetStorage.normalize_content.
  destruct raw as [b|s|].
  - destruct (Utf8.decode b); reflexivity.
  - unfold bind, ParquetStorage.encode_utf8. destruct (Utf8.encode s); reflexivity.
  - reflexivity.
Qed.

Lemma journal_article_step kwargs meta edition_hash pub_parts pub_date_obj batch_id
    acc article :
  run_spec (ParquetStorage.article_step kwargs meta edition_hash pub_parts
              pub_date_obj batch_id acc article) blob_call (fun _ => True).
Proof.
  unfold ParquetStorage.article_step.
  eapply spec_bind; [apply journal_normalize_content|]. intros norm _.
  eapply spec_bind; [apply journal_place_content|]. intros placed _.
  eapply spec_bind; [apply spec_now|]. intros ta _.
  eapply spec_bind; [apply spec_now|]. intros tr _.
  apply spec_ret. trivial.
Qed.

Lemma journal_edition_step self kwargs batch_id acc edition :
  run_spec (ParquetStorage.edition_step self kwargs batch_id acc edition)
    blob_call (fun _ => True).
Proof.
  unfold ParquetStorage.edition_step.
  eapply spec_bind.
  { apply spec_quiet. intros w. unfold ParquetStorage._publication_date_parts,
      try_except, bind, ParquetStorage.strptime.
    destruct (Datetime.strptime_ymd _); reflexivity. }
  intros parts _. eapply spec_bind.
  { apply spec_quiet. intros w. unfold ParquetStorage.strptime.
    destruct (Datetime.strptime_ymd _); reflexivity. }
  intros d _. eapply spec_bind; [apply spec_now|]. intros t _.
  apply spec_for_each; [|trivial].
  intros acc' a _. apply journal_article_step.
Qed.

Lemma journal_build_rows self editions kwargs batch_id :
  run_spec (ParquetStorage.build_rows self editions kwargs batch_id)
    blob_call (fun _ => True).
Proof.
  unfold ParquetStorage.build_rows. apply spec_for_each; [|trivial].
  intros acc e _. apply journal_edition_step.
Qed.


End Journal.

Section SaveJournal.

Context {B : Type} `{StorageBackend B}.


End SaveJournal.


(** ** The rows of a batch *)

Lemma strptime_ymd_valid (s : string) (d : Datetime.date) :
  Datetime.strptime_ymd s = Some d -> Datetime.valid_date d = true.
Proof.
  unfold Datetime.strptime_ymd. intros Hd.
  destruct (Datetime.split_at "-" s) as [[ys rest]|]; [|discriminate].
  destruct (Datetime.split_at "-" rest) as [[ms ds]|]; [|discriminate].
  destruct (Datetime.parse_Y ys), (Datetime.parse_m ms), (Datetime.parse_d ds);
    try discriminate.
  destruct (Datetime.valid_date _) eqn:Hv; [|discriminate].
  injection Hd as <-. exact Hv.
Qed.

Lemma length_article_pairs (editions : list GazetteEdition.t) :
  length (article_pairs editions)
  = list_sum (map (fun e => length (GazetteEdition.articles e)) editions).
Proof.
  induction editions as [|e es IH]; [reflexivity|].
  unfold article_pairs in *. cbn [flat_map map list_sum].
  rewrite length_app, length_map, IH. reflexivity.
Qed.

Lemma article_pairs_edition (editions : list GazetteEdition.t) ea :
  ea ∈ article_pairs editions -> fst ea ∈ editions.
Proof.
  unfold article_pairs. intros Hin. apply list_elem_of_In, in_flat_map in Hin.
  destruct Hin as (e & He & Hin). apply in_map_iff in Hin as (a & <- & _).
  apply list_elem_of_In. exact He.
Qed.

Lemma Forall2_map_eq {X Y Z} (R : X -> Y -> Prop) (f : X -> Z) (g : Y -> Z) l k :
  (forall x y, R x y -> g y = f x) -> Forall2 R l k -> map g k = map f l.
Proof.
  intros Hfg Hl. induction Hl as [|x y l k Hxy _ IH]; [reflexivity|].
  cbn [map]. rewrite (Hfg _ _ Hxy), IH. reflexivity.
Qed.

Lemma Forall2_Forall_r {X Y} (R : X -> Y -> Prop) (P : Y -> Prop) l k :
  (forall x y, R x y -> P y) -> Forall2 R l k -> Forall P k.
Proof.
  intros HP Hl. induction Hl as [|x y l k Hxy _ IH]; constructor; eauto.
Qed.

Section Rows.

Context {B : Type} `{StorageBackend B}.

(** X8. The rows the mapping loop returns follow the batch: one edition
    row per edition and one article row and one relationship row per
    article, in the order of the batch, with the ids of their sources;
    [total_articles] is the number of articles of the edition, so the
    totals of the edition rows add up to the number of article rows. *)
Theorem rows_follow_the_batch (self : ParquetStorage.t)
    (editions : list GazetteEdition.t) (kwargs : Kwargs.t) (batch_id : string)
    (r : ParquetStorage.rows) (w w' : world B) :
  ParquetStorage.build_rows self editions kwargs batch_id w = (Ok r, w') ->
  map EditionRow.edition_id (ParquetStorage.editions_rows r)
  = map (fun e => EditionMetadata.edition_id (GazetteEdition.metadata e)) editions
  /\ map EditionRow.total_articles (ParquetStorage.editions_rows r)
     = map (fun e => length (GazetteEdition.articles e)) editions
  /\ map ArticleRow.article_id (ParquetStorage.articles_rows r)
     = map (fun ea => ArticleMetadata.article_id (Article.metadata (snd ea)))
         (article_pairs editions)
  /\ map RelationshipRow.article_id (ParquetStorage.relationships_rows r)
     = map ArticleRow.article_id (ParquetStorage.articles_rows r)
  /\ list_sum (map EditionRow.total_articles (ParquetStorage.editions_rows r))
     = length (ParquetStorage.articles_rows r).
Proof.
  intros Hrun. destruct (build_rows_mapped _ _ _ _ _ _ _ Hrun) as (He & Ha & Hr).
  assert (Hids : map EditionRow.edition_id (ParquetStorage.editions_rows r)
                 = map (fun e => EditionMetadata.edition_id (GazetteEdition.metadata e))
                     editions).
  { eapply Forall2_map_eq; [|exact He]. intros e row (d & _ & _ & Hid & _). exact Hid. }
  assert (Htot : map EditionRow.total_articles (ParquetStorage.editions_rows r)
                 = map (fun e => length (GazetteEdition.articles e)) editions).
  { eapply Forall2_map_eq; [|exact He].
    intros e row (d & _ & _ & _ & _ & _ & _ & _ & _ & _ & Ht & _). exact Ht. }
  assert (Haid : map ArticleRow.article_id (ParquetStorage.articles_rows r)
                 = map (fun ea => ArticleMetadata.article_id (Article.metadata (snd ea)))
                     (article_pairs editions)).
  { eapply Forall2_map_eq; [|exact Ha]. intros ea row (d & _ & _ & Hid & _). exact Hid. }
  assert (Hrid : map RelationshipRow.article_id (ParquetStorage.relationships_rows r)
                 = map (fun ea => ArticleMetadata.article_id (Article.metadata (snd ea)))
                     (article_pairs editions)).
  { eapply Forall2_map_eq; [|exact Hr]. intros ea row (_ & _ & Hid & _). exact Hid. }
  split; [exact Hids|]. split; [exact Htot|]. split; [exact Haid|].
  split; [rewrite Hrid, Haid; reflexivity|].
  rewrite Htot, <- length_article_pairs. exact (Forall2_length _ _ _ Ha).
Qed.

(** X9. The partition columns of a row are the components of its
    publication date, and that date is the strict parse of the edition's
    date string, a day of the calendar.  The current date, which
    [_publication_date_parts] falls back on, never reaches a row. *)
Theorem partition_columns_are_the_date (self : ParquetStorage.t)
    (editions : list GazetteEdition.t) (kwargs : Kwargs.t) (batch_id : string)
    (r : ParquetStorage.rows) (w w' : world B) :
  ParquetStorage.build_rows self editions kwargs batch_id w = (Ok r, w') ->
  Forall2 (fun e row =>
             Datetime.strptime_ymd
               (EditionMetadata.publication_date (GazetteEdition.metadata e))
             = Some (EditionRow.publication_date row)
             /\ Datetime.valid_date (EditionRow.publication_date row) = true
             /\ Datetime.mk_date (EditionRow.year row) (EditionRow.month row)
                  (EditionRow.day row)
                = EditionRow.publication_date row)
    editions (ParquetStorage.editions_rows r)
  /\ Forall2 (fun ea row =>
                Datetime.strptime_ymd
                  (EditionMetadata.publication_date (GazetteEdition.metadata (fst ea)))
                = Some (ArticleRow.publication_date row)
                /\ Datetime.mk_date (ArticleRow.year row) (ArticleRow.month row)
                     (ArticleRow.day row)
                   = ArticleRow.publication_date row)
       (article_pairs editions) (ParquetStorage.articles_rows r)
  /\ Forall2 (fun ea row =>
                RelationshipRow.publication_date row
                = EditionMetadata.publication_date (GazetteEdition.metadata (fst ea)))
       (article_pairs editions) (ParquetStorage.relationships_rows r).
Proof.
  intros Hrun. destruct (build_rows_mapped _ _ _ _ _ _ _ Hrun) as (He & Ha & Hr).
  split; [|split].
  - eapply Forall2_impl; [exact He|]. intros e row
      (d & Hd & _ & _ & Hp & _ & _ & _ & _ & _ & _ & _ & _ & Hy & Hm & Hday).
    unfold publication_date_of in Hd. rewrite Hp, Hy, Hm, Hday.
    split; [exact Hd|]. split; [exact (strptime_ymd_valid _ _ Hd)|].
    destruct d; reflexivity.
  - eapply Forall2_impl; [exact Ha|]. intros ea row
      (d & Hd & _ & _ & _ & _ & Hp & _ & _ & _ & _ & Hy & Hm & Hday).
    unfold publication_date_of in Hd. rewrite Hp, Hy, Hm, Hday.
    split; [exact Hd|]. destruct d; reflexivity.
  - eapply Forall2_impl; [exact Hr|]. intros ea row (_ & _ & _ & _ & Hp & _). exact Hp.
Qed.

(** X10. Article and relationship rows point at the edition they came
    from: both carry the [edition_hash] of that edition, which is the hash
    of an edition row of the same batch with the same publication date.
    The [edition_id] of a relationship row is the edition's; that of an
    article row is the one the article itself declares. *)
Theorem rows_reference_their_edition (self : ParquetStorage.t)
    (editions : list GazetteEdition.t) (kwargs : Kwargs.t) (batch_id : string)
    (r : ParquetStorage.rows) (w w' : world B) :
  ParquetStorage.build_rows self editions kwargs batch_id w = (Ok r, w') ->
  Forall2 (fun ea row =>
             ArticleRow.edition_hash row = ParquetStorage._generate_edition_hash (fst ea)
             /\ ArticleRow.edition_id row
                = ArticleMetadata.edition_id (Article.metadata (snd ea))
             /\ exists erow,
                  erow ∈ ParquetStorage.editions_rows r
                  /\ EditionRow.edition_hash erow = ArticleRow.edition_hash row
                  /\ EditionRow.publication_date erow = ArticleRow.publication_date row)
    (article_pairs editions) (ParquetStorage.articles_rows r)
  /\ Forall2 (fun ea row =>
                RelationshipRow.edition_hash row
                = ParquetStorage._generate_edition_hash (fst ea)
                /\ RelationshipRow.edition_id row
                   = EditionMetadata.edition_id (GazetteEdition.metadata (fst ea))
                /\ exists erow,
                     erow ∈ ParquetStorage.editions_rows r
                     /\ EditionRow.edition_hash erow = RelationshipRow.edition_hash row
                     /\ EditionRow.edition_id erow = RelationshipRow.edition_id row)
       (article_pairs editions) (ParquetStorage.relationships_rows r).
Proof.
  intros Hrun. destruct (build_rows_mapped _ _ _ _ _ _ _ Hrun) as (He & Ha & Hr).
  assert (Hrow : forall e, e ∈ editions ->
            exists erow, erow ∈ ParquetStorage.editions_rows r
                         /\ edition_row_of kwargs batch_id e erow).
  { intros e Hin. apply list_elem_of_lookup in Hin as (i & Hi).
    destruct (Forall2_lookup_l _ _ _ _ _ He Hi) as (erow & Hj & Hrel).
    exists erow. split; [eapply list_elem_of_lookup_2; exact Hj | exact Hrel]. }
  split.
  - apply Forall2_same_length_lookup. split; [exact (Forall2_length _ _ _ Ha)|].
    intros i ea row Hi Hj.
    pose proof (Forall2_lookup_lr _ _ _ _ _ _ Ha Hi Hj)
      as (d & Hd & _ & _ & Heid & Hh & Hp & _).
    split; [exact Hh|]. split; [exact Heid|].
    destruct (Hrow (fst ea)) as (erow & Hin & d' & Hd' & _ & _ & Hp' & _ & _ & _ & _
                                 & _ & _ & Hh' & _).
    { apply article_pairs_edition. eapply list_elem_of_lookup_2; exact Hi. }
    exists erow. split; [exact Hin|]. rewrite Hh, Hh', Hp, Hp'. split; [reflexivity|].
    congruence.
  - apply Forall2_same_length_lookup. split; [exact (Forall2_length _ _ _ Hr)|].
    intros i ea row Hi Hj.
    pose proof (Forall2_lookup_lr _ _ _ _ _ _ Hr Hi Hj) as (_ & Heid & _ & Hh & _).
    split; [exact Hh|]. split; [exact Heid|].
    destruct (Hrow (fst ea)) as (erow & Hin & d' & _ & _ & Heid' & _ & _ & _ & _ & _
                                 & _ & _ & Hh' & _).
    { apply article_pairs_edition. eapply list_elem_of_lookup_2; exact Hi. }
    exists erow. split; [exact Hin|]. rewrite Hh, Hh', Heid, Heid'. split; reflexivity.
Qed.

(** X11. One batch, one label: every row of the three tables carries the
    batch id the loop was given and the municipality of the keyword
    arguments (the empty string when none was given). *)
Theorem rows_share_batch_fields (self : ParquetStorage.t)
    (editions : list GazetteEdition.t) (kwargs : Kwargs.t) (batch_id : string)
    (r : ParquetStorage.rows) (w w' : world B) :
  ParquetStorage.build_rows self editions kwargs batch_id w = (Ok r, w') ->
  let municipality := ParquetStorage.kwargs_get (Kwargs.municipality kwargs) "" in
  Forall (fun row => EditionRow.batch_id row = batch_id
                     /\ EditionRow.municipality row = municipality)
    (ParquetStorage.editions_rows r)
  /\ Forall (fun row => ArticleRow.batch_id row = batch_id
                        /\ ArticleRow.municipality row = municipality)
       (ParquetStorage.articles_rows r)
  /\ Forall (fun row => RelationshipRow.batch_id row = batch_id
                        /\ RelationshipRow.municipality row = municipality)
       (ParquetStorage.relationships_rows r).
Proof.
  intros Hrun municipality.
  destruct (build_rows_mapped _ _ _ _ _ _ _ Hrun) as (He & Ha & Hr).
  split; [|split].
  - eapply Forall2_Forall_r; [|exact He]. intros e row
      (d & _ & Hm & _ & _ & _ & _ & _ & _ & _ & _ & _ & Hb & _). split; assumption.
  - eapply Forall2_Forall_r; [|exact Ha]. intros ea row
      (d & _ & Hm & _ & _ & _ & _ & _ & _ & _ & Hb & _). split; assumption.
  - eapply Forall2_Forall_r; [|exact Hr]. intros ea row (Hm & _ & _ & _ & _ & Hb).
    split; assumption.
Qed.

End Rows.

Lemma batch_of_two_maps :
  is_ok (fst (ParquetStorage.build_rows Scenario.storage batch_of_two kwargs_of_two
                "lote-7" Scenario.fresh)) = true.
Proof. vm_compute. reflexivity. Qed.

Lemma rows_follow_the_batch_witness :
  exists r w',
    ParquetStorage.build_rows Scenario.storage batch_of_two kwargs_of_two "lote-7"
      Scenario.fresh = (Ok r, w')
    /\ map EditionRow.edition_id (ParquetStorage.editions_rows r) = ["ed-1"; "ed-2"]
    /\ map EditionRow.total_articles (ParquetStorage.editions_rows r) = [2; 1]
    /\ map ArticleRow.article_id (ParquetStorage.articles_rows r)
       = ["art-1"; "art-2"; "art-3"]
    /\ map RelationshipRow.article_id (ParquetStorage.relationships_rows r)
       = map ArticleRow.article_id (ParquetStorage.articles_rows r)
    /\ list_sum (map EditionRow.total_articles (ParquetStorage.editions_rows r))
       = length (ParquetStorage.articles_rows r).
Proof.
  pose proof batch_of_two_maps as Hok.
  destruct (ParquetStorage.build_rows Scenario.storage batch_of_two kwargs_of_two
              "lote-7" Scenario.fresh) as [[r|e] w'] eqn:Hrun; [|discriminate Hok].
  destruct (rows_follow_the_batch Scenario.storage batch_of_two kwargs_of_two "lote-7"
              r Scenario.fresh w' Hrun) as (H1 & H2 & H3 & H4 & H5).
  exists r, w'. split; [reflexivity|].
  split; [rewrite H1; reflexivity|]. split; [rewrite H2; reflexivity|].
  split; [rewrite H3; reflexivity|]. split; [exact H4 | exact H5].
Defined.

Lemma partition_columns_are_the_date_witness :
  exists r w',
    ParquetStorage.build_rows Scenario.storage batch_of_two kwargs_of_two "lote-7"
      Scenario.fresh = (Ok r, w')
    /\ Forall2 (fun e row =>
                  Datetime.strptime_ymd
                    (EditionMetadata.publication_date (GazetteEdition.metadata e))
                  = Some (EditionRow.publication_date row)
                  /\ Datetime.valid_date (EditionRow.publication_date row) = true
                  /\ Datetime.mk_date (EditionRow.year row) (EditionRow.month row)
                       (EditionRow.day row)
                     = EditionRow.publication_date row)
         batch_of_two (ParquetStorage.editions_rows r)
    /\ map (fun row => (ArticleRow.year row, ArticleRow.month row, ArticleRow.day row))
         (ParquetStorage.articles_rows r)
       = [(2024, 3, 5); (2024, 3, 5); (2024, 2, 29)]
    /\ map RelationshipRow.publication_date (ParquetStorage.relationships_rows r)
       = ["2024-03-05"; "2024-03-05"; "2024-2-29"].
Proof.
  pose proof batch_of_two_maps as Hok.
  destruct (ParquetStorage.build_rows Scenario.storage batch_of_two kwargs_of_two
              "lote-7" Scenario.fresh) as [[r|e] w'] eqn:Hrun; [|discriminate Hok].
  destruct (partition_columns_are_the_date Scenario.storage batch_of_two kwargs_of_two
              "lote-7" r Scenario.fresh w' Hrun) as (H1 & H2 & H3).
  assert (Hparts :
            map (fun row => (ArticleRow.year row, ArticleRow.month row, ArticleRow.day row))
              (ParquetStorage.articles_rows r)
            = map (fun ea : GazetteEdition.t * Article.t =>
                     match publication_date_of (fst ea) with
                     | Some d => (Datetime.year d, Datetime.month d, Datetime.day d)
                     | None => (0, 0, 0)
                     end) (article_pairs batch_of_two)).
  { eapply Forall2_map_eq; [|exact H2]. intros ea row [Hd Hp].
    unfold publication_date_of. rewrite Hd, <- Hp. reflexivity. }
  assert (Hraw :
            map RelationshipRow.publication_date (ParquetStorage.relationships_rows r)
            = map (fun ea : GazetteEdition.t * Article.t =>
                     EditionMetadata.publication_date (GazetteEdition.metadata (fst ea)))
                (article_pairs batch_of_two)).
  { eapply Forall2_map_eq; [|exact H3]. intros ea row Hp. exact Hp. }
  exists r, w'. split; [reflexivity|]. split; [exact H1|]. split.
  - rewrite Hparts. reflexivity.
  - rewrite Hraw. reflexivity.
Defined.

Lemma rows_reference_their_edition_witness :
  exists r w',
    ParquetStorage.build_rows Scenario.storage batch_of_two kwargs_of_two "lote-7"
      Scenario.fresh = (Ok r, w')
    /\ map ArticleRow.edition_hash (ParquetStorage.articles_rows r)
       = map (fun ea => ParquetStorage._generate_edition_hash (fst ea))
           (article_pairs batch_of_two)
    /\ map RelationshipRow.edition_id (ParquetStorage.relationships_rows r)
       = ["ed-1"; "ed-1"; "ed-2"]
    /\ map ArticleRow.edition_id (ParquetStorage.articles_rows r)
       = ["ed-1"; "ed-1"; "ed-1"]
    /\ Forall (fun row =>
                 exists erow,
                   erow ∈ ParquetStorage.editions_rows r
                   /\ EditionRow.edition_hash erow = ArticleRow.edition_hash row
                   /\ EditionRow.publication_date erow = ArticleRow.publication_date row)
         (ParquetStorage.articles_rows r).
Proof.
  pose proof batch_of_two_maps as Hok.
  destruct (ParquetStorage.build_rows Scenario.storage batch_of_two kwargs_of_two
              "lote-7" Scenario.fresh) as [[r|e] w'] eqn:Hrun; [|discriminate Hok].
  destruct (rows_reference_their_edition Scenario.storage batch_of_two kwargs_of_two
              "lote-7" r Scenario.fresh w' Hrun) as (H1 & H2).
  assert (Hrel :
            map RelationshipRow.edition_id (ParquetStorage.relationships_rows r)
            = map (fun ea : GazetteEdition.t * Article.t =>
                     EditionMetadata.edition_id (GazetteEdition.metadata (fst ea)))
                (article_pairs batch_of_two)).
  { eapply Forall2_map_eq; [|exact H2]. intros ea row (_ & Hid & _). exact Hid. }
  assert (Hart :
            map ArticleRow.edition_id (ParquetStorage.articles_rows r)
            = map (fun ea : GazetteEdition.t * Article.t =>
                     ArticleMetadata.edition_id (Article.metadata (snd ea)))
                (article_pairs batch_of_two)).
  { eapply Forall2_map_eq; [|exact H1]. intros ea row (_ & Hid & _). exact Hid. }
  exists r, w'. split; [reflexivity|]. split; [|split; [|split]].
  - eapply Forall2_map_eq; [|exact H1]. intros ea row (Hh & _). exact Hh.
  - rewrite Hrel. reflexivity.
  - rewrite Hart. reflexivity.
  - eapply Forall2_Forall_r; [|exact H1]. intros ea row (_ & _ & Hrow). exact Hrow.
Defined.

Lemma rows_share_batch_fields_witness :
  exists r w',
    ParquetStorage.build_rows Scenario.storage batch_of_two kwargs_of_two "lote-7"
      Scenario.fresh = (Ok r, w')
    /\ Forall (fun row => EditionRow.batch_id row = "lote-7"
                          /\ EditionRow.municipality row = "Campinas")
         (ParquetStorage.editions_rows r)
    /\ Forall (fun row => ArticleRow.batch_id row = "lote-7"
                          /\ ArticleRow.municipality row = "Campinas")
         (ParquetStorage.articles_rows r)
    /\ Forall (fun row => RelationshipRow.batch_id row = "lote-7"
                          /\ RelationshipRow.municipality row = "Campinas")
         (ParquetStorage.relationships_rows r).
Proof.
  pose proof batch_of_two_maps as Hok.
  destruct (ParquetStorage.build_rows Scenario.storage batch_of_two kwargs_of_two
              "lote-7" Scenario.fresh) as [[r|e] w'] eqn:Hrun; [|discriminate Hok].
  exists r, w'. split; [reflexivity|].
  exact (rows_share_batch_fields Scenario.storage batch_of_two kwargs_of_two "lote-7"
           r Scenario.fresh w' Hrun).
Defined.

(** ** The statistics of a save *)

Section Statistics.

Context {B : Type} `{StorageBackend B}.

Lemma write_tables_stats timestamp r (stats0 st : stats) (w w' : world B) :
  ParquetStorage.write_tables timestamp r stats0 w = (Ok st, w') ->
  st = counted r stats0.
Proof.
  unfold ParquetStorage.write_tables, counted. intros Hrun.
  unfold bind, backend_write_parquet, logger, ret, record_call, set_backend in Hrun.
  destruct r as [er ar rr]. cbn [ParquetStorage.editions_rows
    ParquetStorage.articles_rows ParquetStorage.relationships_rows] in *.
  destruct er as [|e0 er], ar as [|a0 ar], rr as [|r0 rr];
    cbn [ParquetStorage.is_nil negb] in *; cbn [calls backend log] in Hrun;
    repeat match type of Hrun with
           | context [write_parquet ?bk ?p ?t] =>
               destruct (write_parquet bk p t) as [[? | ?] ?];
               cbn [calls backend log] in Hrun
           end;
    first [discriminate Hrun | injection Hrun as <- _; reflexivity].
Qed.

(** X12. What a successful [save_editions] reports.  The counts are those
    of the batch: the number of editions, and the number of articles both
    as [articles] and as [relationships].  For a batch that is not empty
    the dict also names the municipality, the timestamp (the first clock
    reading) and the batch id (the caller's, or [batch_<timestamp>]); for
    an empty batch it has the three counts and no other key. *)
Theorem save_editions_stats (self : ParquetStorage.t)
    (editions : list GazetteEdition.t) (kwargs : Kwargs.t)
    (st : stats) (w w' : world B) :
  ParquetStorage.save_editions self editions kwargs w = (Ok st, w') ->
  let timestamp := Datetime.strftime_compact (clock w (ticks w)) in
  dict_get st "editions" = Some (SInt (length editions))
  /\ dict_get st "articles" = Some (SInt (length (article_pairs editions)))
  /\ dict_get st "relationships" = Some (SInt (length (article_pairs editions)))
  /\ map fst st
     = (if ParquetStorage.is_nil editions then ["editions"; "articles"; "relationships"]
        else ["municipality"; "editions"; "articles"; "relationships";
              "timestamp"; "batch_id"])
  /\ (editions <> [] ->
      dict_get st "municipality"
      = Some (SStr (ParquetStorage.kwargs_get (Kwargs.municipality kwargs) ""))
      /\ dict_get st "timestamp" = Some (SStr timestamp)
      /\ dict_get st "batch_id"
         = Some (SStr (ParquetStorage.kwargs_get (Kwargs.batch_id kwargs)
                         ("batch_" +:+ timestamp)))).
Proof.
  intros Hrun timestamp.
  destruct editions as [|e es].
  { unfold ParquetStorage.save_editions in Hrun. cbn [ParquetStorage.is_nil] in Hrun.
    unfold bind, logger, ret in Hrun. injection Hrun as <- _.
    do 4 (split; [reflexivity|]). intros Hne. congruence. }
  rewrite save_editions_run in Hrun by discriminate. cbv zeta in Hrun.
  fold timestamp in Hrun.
  destruct (ParquetStorage.build_rows self (e :: es) kwargs _ (ticked w))
    as [[r|ex] w1] eqn:Hbuild; [|discriminate Hrun].
  unfold try_except in Hrun.
  destruct (ParquetStorage.write_tables timestamp r _ w1) as [[st'|exc] w2] eqn:Htab.
  2: { unfold bind, logger, raise in Hrun. discriminate Hrun. }
  injection Hrun as -> _.
  apply write_tables_stats in Htab. subst st.
  destruct (build_rows_mapped _ _ _ _ _ _ _ Hbuild) as (He & Ha & Hr).
  apply Forall2_length in He, Ha, Hr. rewrite He, Ha. clear Hbuild.
  destruct r as [er ar rr]. unfold counted.
  cbn [ParquetStorage.editions_rows ParquetStorage.articles_rows
       ParquetStorage.relationships_rows] in *.
  rewrite Ha in Hr.
  destruct er as [|e0 er]; [discriminate He|].
  destruct ar as [|a0 ar], rr as [|r0 rr]; try discriminate Hr;
    cbn [ParquetStorage.is_nil];
    (split; [reflexivity|]); (split; [reflexivity|]);
    (split; [try reflexivity; cbn in Hr; cbn; congruence|]);
    (split; [reflexivity|]); intros _; repeat split; reflexivity.
Qed.

End Statistics.

Lemma save_editions_stats_witness :
  exists st w',
    ParquetStorage.save_editions Scenario.storage batch_of_two kwargs_of_two
      Scenario.fresh = (Ok st, w')
    /\ dict_get st "editions" = Some (SInt 2)
    /\ dict_get st "articles" = Some (SInt 3)
    /\ dict_get st "relationships" = Some (SInt 3)
    /\ dict_get st "batch_id" = Some (SStr "batch_20240305_103000").
Proof.
  assert (Hok : is_ok (fst (ParquetStorage.save_editions Scenario.storage batch_of_two
                              kwargs_of_two Scenario.fresh)) = true).
  { vm_compute. reflexivity. }
  destruct (ParquetStorage.save_editions Scenario.storage batch_of_two kwargs_of_two
              Scenario.fresh) as [[st|e] w'] eqn:Hrun; [|discriminate Hok].
  destruct (save_editions_stats Scenario.storage batch_of_two kwargs_of_two st
              Scenario.fresh w' Hrun) as (H1 & H2 & H3 & _ & H5).
  destruct H5 as (_ & _ & H6); [discriminate|].
  exists st, w'. split; [reflexivity|].
  split; [exact H1|]. split; [exact H2|]. split; [exact H3|]. exact H6.
Defined.

(** ** The blob store, read back *)

Section BlobReadBack.

Implicit Types (w : world LocalBackend.t) (b : list byte).

Lemma get_content_run (self : ParquetStorage.t) (path : string) w :
  ParquetStorage.get_content self path w
  = (LocalBackend.read_bytes (backend w) path, record_call (CallReadBytes path) w).
Proof. reflexivity. Qed.

(** X13. A payload stored through [_write_content_blob] on a disk that
    accepts it comes back unchanged through [get_content] at the path of
    the descriptor, and the sidecar next to it holds the JSON record of its
    digest, its size and the time of the write. *)
Theorem blob_read_back (self : ParquetStorage.t) b w :
  let path := Spec.sharded_path (Hashlib.sha256 b) in
  LocalBackend.exists_ (backend w) path = false ->
  LocalBackend.refuses (backend w) path = false ->
  LocalBackend.refuses (backend w) (path +:+ ".meta.json") = false ->
  exists d w1,
    ParquetStorage._write_content_blob (AsBytes b) w = (Ok d, w1)
    /\ ContentBlob.content_path d = Some path
    /\ ContentBlob.content_size d = length b
    /\ fst (ParquetStorage.get_content self path w1) = Ok b
    /\ fst (ParquetStorage.get_content self (path +:+ ".meta.json") w1)
       = Ok (Py.encode (LocalBackend.dumps_metadata (sidecar b (clock w (ticks w))))).
Proof.
  intros path Hex Hw Hm.
  destruct (write_content_blob_absent b w Hex Hw Hm) as (w1 & Hrun & Hfiles & _ & _).
  fold path in Hrun, Hfiles.
  eexists _, w1. split; [exact Hrun|]. split; [reflexivity|]. split; [reflexivity|].
  rewrite !get_content_run. cbn [fst]. unfold LocalBackend.read_bytes. rewrite Hfiles.
  split.
  - rewrite lookup_insert_ne by apply sidecar_differs. rewrite lookup_insert_eq.
    reflexivity.
  - rewrite lookup_insert_eq. reflexivity.
Qed.

(** X14. Deduplication goes by the path alone.  When a file already sits at
    the path of a payload's digest, [_write_content_blob] returns the
    descriptor of the payload (its digest, its size) and leaves the backend
    as it was, whatever that file holds; [get_content] then returns the
    bytes of the file, not the payload. *)
Theorem existing_blob_is_trusted (self : ParquetStorage.t) b (old : list byte) w :
  let h := Hashlib.sha256 b in
  let path := Spec.sharded_path h in
  LocalBackend.files (backend w) !! path = Some (LocalBackend.FileBytes old) ->
  exists w1,
    ParquetStorage._write_content_blob (AsBytes b) w
    = (Ok (ContentBlob.mk (Some h) (Some path) (length b)), w1)
    /\ backend w1 = backend w
    /\ count_writes (new_calls w w1) = 0
    /\ fst (ParquetStorage.get_content self path w1) = Ok old.
Proof.
  intros h path Hfile.
  assert (Hex : LocalBackend.exists_ (backend w) path = true).
  { apply exists_of_file. rewrite Hfile. eauto. }
  pose proof (write_content_blob_present b w Hex) as Hrun. fold h path in Hrun.
  eexists. split; [exact Hrun|]. split; [reflexivity|]. split.
  - unfold new_calls, record_call. cbn [calls]. rewrite drop_app_length. reflexivity.
  - rewrite get_content_run. cbn [fst record_call backend].
    unfold LocalBackend.read_bytes. rewrite Hfile. reflexivity.
Qed.

(** X15. A failed sidecar is never repaired.  When the disk takes the data
    file and refuses the sidecar, [_write_content_blob] raises with the
    data file written; the same call made again finds the path, writes
    nothing and returns the descriptor, and the sidecar is as absent as
    before. *)
Theorem sidecar_is_never_repaired b w :
  let h := Hashlib.sha256 b in
  let path := Spec.sharded_path h in
  LocalBackend.exists_ (backend w) path = false ->
  LocalBackend.refuses (backend w) path = false ->
  LocalBackend.refuses (backend w) (path +:+ ".meta.json") = true ->
  exists w1 w2,
    ParquetStorage._write_content_blob (AsBytes b) w
    = (Raise (LocalBackend.os_error (path +:+ ".meta.json")), w1)
    /\ LocalBackend.files (backend w1) !! path = Some (LocalBackend.FileBytes b)
    /\ ParquetStorage._write_content_blob (AsBytes b) w1
       = (Ok (ContentBlob.mk (Some h) (Some path) (length b)), w2)
    /\ backend w2 = backend w1
    /\ count_writes (new_calls w1 w2) = 0
    /\ LocalBackend.files (backend w2) !! (path +:+ ".meta.json")
       = LocalBackend.files (backend w) !! (path +:+ ".meta.json").
Proof.
  intros h path Hex Hw Hm.
  pose proof (write_content_blob_run b w) as Hrun. cbv zeta in Hrun. fold h path in Hrun.
  change (exists_ (backend w) path) with (LocalBackend.exists_ (backend w) path) in Hrun.
  rewrite Hex in Hrun.
  change (write_bytes (backend w) path b (Some (sidecar b (clock w (ticks w)))))
    with (LocalBackend.write_bytes (backend w) path b
            (Some (sidecar b (clock w (ticks w))))) in Hrun.
  destruct (write_bytes_sidecar_refused (backend w) path b
              ("content_hash", MStr h)
              [("content_size", MInt (length b));
               ("created_at", MStr (Datetime.isoformat (clock w (ticks w))))] Hw Hm)
    as (Hres & Hdata & Hside).
  change (Some (("content_hash", MStr h)
                :: [("content_size", MInt (length b));
                    ("created_at", MStr (Datetime.isoformat (clock w (ticks w))))]))
    with (Some (sidecar b (clock w (ticks w)))) in Hres, Hdata, Hside.
  destruct (LocalBackend.write_bytes (backend w) path b
              (Some (sidecar b (clock w (ticks w))))) as [res bk] eqn:Hwrite.
  cbn [fst snd] in Hres, Hdata, Hside. subst res.
  assert (Hfile : LocalBackend.files bk !! path = Some (LocalBackend.FileBytes b)).
  { unfold LocalBackend.read_bytes in Hdata.
    destruct (LocalBackend.files bk !! path) as [[data|text|tbl c l]|] eqn:Hl.
    - injection Hdata as ->. reflexivity.
    - exfalso. revert Hwrite Hl. unfold LocalBackend.write_bytes. rewrite Hw.
      unfold sidecar. rewrite Hm. intros [= <-]. cbn. rewrite lookup_insert_eq.
      discriminate.
    - exfalso. revert Hwrite Hl. unfold LocalBackend.write_bytes. rewrite Hw.
      unfold sidecar. rewrite Hm. intros [= <-]. cbn. rewrite lookup_insert_eq.
      discriminate.
    - discriminate. }
  eexists _, _. split; [exact Hrun|]. cbn [backend]. split; [exact Hfile|].
  assert (Hex1 : LocalBackend.exists_ bk path = true).
  { apply exists_of_file. rewrite Hfile. eauto. }
  match goal with
  | |- ParquetStorage._write_content_blob _ ?w1 = _ /\ _ =>
      pose proof (write_content_blob_present b w1 Hex1) as Hrun2
  end.
  fold h path in Hrun2. split; [exact Hrun2|]. split; [reflexivity|]. split.
  - unfold new_calls, record_call. cbn [calls]. rewrite drop_app_length. reflexivity.
  - cbn [record_call backend]. exact Hside.
Qed.

End BlobReadBack.

Lemma blob_read_back_witness :
  let b := Py.encode "Diario Oficial" in
  let path := Spec.sharded_path (Hashlib.sha256 b) in
  LocalBackend.exists_ (backend Scenario.fresh) path = false
  /\ LocalBackend.refuses (backend Scenario.fresh) path = false
  /\ LocalBackend.refuses (backend Scenario.fresh) (path +:+ ".meta.json") = false
  /\ exists d w1,
       ParquetStorage._write_content_blob (AsBytes b) Scenario.fresh = (Ok d, w1)
       /\ fst (ParquetStorage.get_content Scenario.storage path w1) = Ok b.
Proof.
  intros b path.
  assert (H1 : LocalBackend.exists_ (backend Scenario.fresh) path = false)
    by (vm_compute; reflexivity).
  assert (H2 : LocalBackend.refuses (backend Scenario.fresh) path = false)
    by (vm_compute; reflexivity).
  assert (H3 : LocalBackend.refuses (backend Scenario.fresh) (path +:+ ".meta.json") = false)
    by (vm_compute; reflexivity).
  split; [exact H1|]. split; [exact H2|]. split; [exact H3|].
  destruct (blob_read_back Scenario.storage b Scenario.fresh H1 H2 H3)
    as (d & w1 & R1 & _ & _ & R2 & _).
  exists d, w1. split; [exact R1 | exact R2].
Defined.

Lemma existing_blob_is_trusted_witness :
  let b := Py.encode "Diario Oficial" in
  let path := Spec.sharded_path (Hashlib.sha256 b) in
  let w := mk_world
             (LocalBackend.mk "data/raw" {[ path := LocalBackend.FileBytes [] ]} ∅
                (fun _ => []))
             [] [] Scenario.clock 0 in
  LocalBackend.files (backend w) !! path = Some (LocalBackend.FileBytes [])
  /\ exists w1,
       ParquetStorage._write_content_blob (AsBytes b) w
       = (Ok (ContentBlob.mk (Some (Hashlib.sha256 b)) (Some path) 14), w1)
       /\ fst (ParquetStorage.get_content Scenario.storage path w1) = Ok [].
Proof.
  intros b path w.
  assert (H1 : LocalBackend.files (backend w) !! path = Some (LocalBackend.FileBytes []))
    by apply lookup_singleton_eq.
  split; [exact H1|].
  destruct (existing_blob_is_trusted Scenario.storage b [] w H1) as (w1 & R1 & _ & _ & R2).
  exists w1. split; [exact R1 | exact R2].
Defined.

Lemma sidecar_is_never_repaired_witness :
  let b := Py.encode "Diario Oficial" in
  let path := Spec.sharded_path (Hashlib.sha256 b) in
  let w := Scenario.refusing [path +:+ ".meta.json"] in
  LocalBackend.exists_ (backend w) path = false
  /\ LocalBackend.refuses (backend w) path = false
  /\ LocalBackend.refuses (backend w) (path +:+ ".meta.json") = true
  /\ exists e w1 d w2,
       ParquetStorage._write_content_blob (AsBytes b) w = (Raise e, w1)
       /\ ParquetStorage._write_content_blob (AsBytes b) w1 = (Ok d, w2)
       /\ LocalBackend.files (backend w2) !! (path +:+ ".meta.json") = None.
Proof.
  intros b path w.
  assert (H1 : LocalBackend.exists_ (backend w) path = false)
    by (vm_compute; reflexivity).
  assert (H2 : LocalBackend.refuses (backend w) path = false)
    by (vm_compute; reflexivity).
  assert (H3 : LocalBackend.refuses (backend w) (path +:+ ".meta.json") = true)
    by (vm_compute; reflexivity).
  split; [exact H1|]. split; [exact H2|]. split; [exact H3|].
  destruct (sidecar_is_never_repaired b w H1 H2 H3)
    as (w1 & w2 & R1 & _ & R2 & _ & _ & Hside).
  eexists _, w1, _, w2. split; [exact R1|]. split; [exact R2|].
  exact (eq_trans Hside (lookup_empty _)).
Defined.

(** ** query_articles: what reaches the engine and the backend *)

Section QueryText.

Context {B : Type} `{StorageBackend B}.

Lemma truthy_append (a b : string) :
  Py.truthy_str b = true -> Py.truthy_str (a +:+ b) = true.
Proof.
  destruct a as [|c a]; [intros Hb; exact Hb|]. reflexivity.
Qed.

Lemma join_absorbs (sep p q : string) (rest : list string) :
  Py.join sep ((p +:+ sep +:+ q) :: rest) = Py.join sep (p :: q :: rest).
Proof.
  rewrite join_cons_cons. destruct rest as [|x rest].
  - reflexivity.
  - rewrite !join_cons_cons, <- !append_assoc_s. reflexivity.
Qed.

Lemma where_sql_spliced (a b : string) (end_date : option string)
    (content_types : option (list string)) :
  a <> "" -> b <> "" ->
  ParquetStorage.where_sql (Some (a +:+ "' AND publication_date >= '" +:+ b)) None
    end_date content_types
  = ParquetStorage.where_sql (Some a) (Some b) end_date content_types.
Proof.
  intros Ha Hb. unfold ParquetStorage.where_sql, ParquetStorage.where_clauses.
  rewrite truthy_append by reflexivity.
  destruct a as [|ca a]; [congruence|]. destruct b as [|cb b]; [congruence|].
  cbn [Py.truthy_str app ParquetStorage.is_nil].
  set (rest := _ ++ _).
  rewrite <- join_absorbs. f_equal. f_equal.
  rewrite !append_assoc_s. reflexivity.
Qed.

(** X16. Filter values reach the statement as they are, quotes included:
    a municipality that carries a quote and a second condition yields,
    character for character, the statement of the query that passes those
    two conditions as two filters. *)
Theorem filter_values_are_spliced (self : ParquetStorage.t) (a b : string)
    (end_date : option string) (content_types : option (list string))
    (limit : option Z) (w : world B) :
  a <> "" -> b <> "" ->
  ParquetStorage.query_articles self
    (Some (a +:+ "' AND publication_date >= '" +:+ b)) None end_date content_types
    limit w
  = ParquetStorage.query_articles self (Some a) (Some b) end_date content_types
      limit w.
Proof.
  intros Ha Hb. unfold ParquetStorage.query_articles.
  rewrite where_sql_spliced by assumption. reflexivity.
Qed.

Lemma collect_uris_world (files acc : list string) (w : world B) :
  for_each files (fun acc f => let* u := backend_get_uri f in ret (acc ++ [u])) acc w
  = (Ok (acc ++ map (get_uri (backend w)) files),
     mk_world (backend w) (calls w ++ map CallGetUri files) (log w) (clock w) (ticks w)).
Proof.
  revert acc w. induction files as [|f files IH]; intros acc w; cbn [for_each map].
  - unfold ret. rewrite !app_nil_r. destruct w; reflexivity.
  - unfold bind at 1. unfold bind at 1. unfold backend_get_uri at 1. unfold ret at 1.
    rewrite IH. cbn [record_call backend calls log clock ticks].
    rewrite <- !app_assoc. reflexivity.
Qed.

Lemma query_articles_run (self : ParquetStorage.t)
    (municipality start_date end_date : option string)
    (content_types : option (list string)) (limit : option Z) (w : world B) :
  let found := list_files (backend w) "articles" (Some ".parquet") in
  ParquetStorage.query_articles self municipality start_date end_date
    content_types limit w
  = if ParquetStorage.enable_duckdb self then
      if ParquetStorage.is_nil found then
        (Ok EmptyTable,
         mk_world (backend w) (calls w ++ [CallListFiles "articles" (Some ".parquet")])
           (log w ++ [(WARNING, "Nenhum arquivo de artigos encontrado")])
           (clock w) (ticks w))
      else
        (Ok (FetchArrowTable
               (ParquetStorage.build_query (map (get_uri (backend w)) found)
                  (ParquetStorage.where_sql municipality start_date end_date
                     content_types)
                  (ParquetStorage.limit_sql limit))),
         mk_world (backend w)
           (calls w ++ CallListFiles "articles" (Some ".parquet")
                       :: map CallGetUri found)
           (log w) (clock w) (ticks w))
    else (Raise (RuntimeError "DuckDB não habilitado"), w).
Proof.
  intros found. unfold ParquetStorage.query_articles.
  destruct (ParquetStorage.enable_duckdb self); cbn [negb]; [|reflexivity].
  unfold bind at 1. unfold backend_list_files at 1. fold found.
  destruct found as [|f fs]; cbn [ParquetStorage.is_nil].
  - reflexivity.
  - unfold bind at 1. rewrite collect_uris_world. unfold ret, record_call.
    cbn [backend calls log clock ticks app]. rewrite <- app_assoc. reflexivity.
Qed.

(** X17. [query_articles] only looks: whatever the filters and the
    outcome, the backend, the clock and the files are as before; with the
    engine disabled no call is made, otherwise the article tables are
    listed once and one locator is asked for each file found, in listing
    order.  The log grows by one warning exactly when nothing was found. *)
Theorem query_articles_only_looks (self : ParquetStorage.t)
    (municipality start_date end_date : option string)
    (content_types : option (list string)) (limit : option Z) (w : world B) :
  let w' := snd (ParquetStorage.query_articles self municipality start_date end_date
                   content_types limit w) in
  let found := list_files (backend w) "articles" (Some ".parquet") in
  backend w' = backend w
  /\ ticks w' = ticks w
  /\ new_calls w w'
     = (if ParquetStorage.enable_duckdb self
        then CallListFiles "articles" (Some ".parquet") :: map CallGetUri found
        else [])
  /\ log w'
     = log w ++ (if ParquetStorage.enable_duckdb self && ParquetStorage.is_nil found
                 then [(WARNING, "Nenhum arquivo de artigos encontrado")] else []).
Proof.
  intros w' found. subst w'. rewrite query_articles_run. cbv zeta. fold found.
  unfold new_calls.
  destruct (ParquetStorage.enable_duckdb self); cbn [andb].
  - destruct found as [|f fs]; cbn [ParquetStorage.is_nil snd backend calls log ticks map];
      rewrite drop_app_length, ?app_nil_r; repeat split.
  - cbn [snd]. rewrite drop_all, app_nil_r. repeat split.
Qed.

End QueryText.

Lemma filter_values_are_spliced_witness :
  "x" <> "" /\ "1900-01-01" <> ""
  /\ fst (ParquetStorage.query_articles Scenario.storage
            (Some ("x" +:+ "' AND publication_date >= '" +:+ "1900-01-01"))
            None None None None Scenario.with_articles)
     = fst (ParquetStorage.query_articles Scenario.storage
              (Some "x") (Some "1900-01-01") None None None Scenario.with_articles).
Proof.
  assert (H1 : "x" <> "") by discriminate.
  assert (H2 : "1900-01-01" <> "") by discriminate.
  split; [exact H1|]. split; [exact H2|].
  rewrite (filter_values_are_spliced Scenario.storage "x" "1900-01-01" None None None
             Scenario.with_articles H1 H2).
  reflexivity.
Defined.

(** ** When a save succeeds *)

Section Success.

Implicit Types (w : world LocalBackend.t).

Lemma healthy_accepts w (path : string) :
  healthy w -> LocalBackend.refuses (backend w) path = false.
Proof.
  unfold healthy, LocalBackend.refuses. intros ->.
  apply bool_decide_eq_false_2. set_solver.
Qed.

Lemma succeeds_ret {A} (a : A) : succeeds (ret a).
Proof. intros w Hw. exists a, w. split; [reflexivity | exact Hw]. Qed.

Lemma succeeds_bind {A C} (m : M LocalBackend.t A) (k : A -> M LocalBackend.t C) :
  succeeds m -> (forall a, succeeds (k a)) -> succeeds (bind m k).
Proof.
  intros Hm Hk w Hw. destruct (Hm w Hw) as (a & w1 & Hrun & Hw1).
  destruct (Hk a w1 Hw1) as (c & w2 & Hrun2 & Hw2).
  exists c, w2. unfold bind. rewrite Hrun. split; [exact Hrun2 | exact Hw2].
Qed.

Lemma succeeds_now : succeeds now.
Proof. intros w Hw. eexists _, _. split; [reflexivity | exact Hw]. Qed.

Lemma succeeds_for_each {X S} (xs : list X) (step : S -> X -> M LocalBackend.t S) :
  Forall (fun x => forall acc, succeeds (step acc x)) xs ->
  forall acc, succeeds (for_each xs step acc).
Proof.
  induction 1 as [|x xs Hx _ IH]; intros acc; cbn [for_each].
  - apply succeeds_ret.
  - apply succeeds_bind; [apply Hx | exact IH].
Qed.

Lemma succeeds_write_content_blob (bs : list byte) :
  succeeds (ParquetStorage._write_content_blob (AsBytes bs)).
Proof.
  intros w Hw. rewrite write_content_blob_run. cbv zeta.
  destruct (exists_ (backend w) _).
  - eexists _, _. split; [reflexivity | exact Hw].
  - change (write_bytes (backend w)) with (LocalBackend.write_bytes (backend w)).
    unfold LocalBackend.write_bytes, sidecar.
    rewrite !(healthy_accepts w _ Hw).
    eexists _, _. split; [reflexivity | exact Hw].
Qed.

Lemma succeeds_place_content (otxt : option Utf8.pystr) (bs : list byte) :
  succeeds (ParquetStorage.place_content otxt bs).
Proof.
  unfold ParquetStorage.place_content.
  destruct otxt as [txt|]; [destruct (CONTENT_INLINE_THRESHOLD <? length txt)%nat|].
  - apply succeeds_bind; [apply succeeds_write_content_blob|].
    intros; apply succeeds_ret.
  - apply succeeds_ret.
  - apply succeeds_bind; [apply succeeds_write_content_blob|].
    intros; apply succeeds_ret.
Qed.

Lemma succeeds_article_step kwargs meta edition_hash pub_parts pub_date_obj batch_id
    acc (article : Article.t) :
  encodable article ->
  succeeds (ParquetStorage.article_step kwargs meta edition_hash pub_parts
              pub_date_obj batch_id acc article).
Proof.
  intros [bs Hbs]. unfold ParquetStorage.article_step.
  apply succeeds_bind.
  { intros w Hw. rewrite (normalize_content_run _ bs w Hbs).
    eexists _, _. split; [reflexivity | exact Hw]. }
  intros norm. apply succeeds_bind; [apply succeeds_place_content|].
  intros placed. apply succeeds_bind; [apply succeeds_now|].
  intros ta. apply succeeds_bind; [apply succeeds_now|].
  intros tr. apply succeeds_ret.
Qed.

Lemma succeeds_edition_step self kwargs batch_id acc (e : GazetteEdition.t) :
  is_Some (publication_date_of e) ->
  Forall encodable (GazetteEdition.articles e) ->
  succeeds (ParquetStorage.edition_step self kwargs batch_id acc e).
Proof.
  intros [d Hd] Hbodies. unfold publication_date_of in Hd.
  unfold ParquetStorage.edition_step.
  apply succeeds_bind.
  { intros w Hw. rewrite (publication_date_parts_parsed _ d w Hd).
    eexists _, _. split; [reflexivity | exact Hw]. }
  intros parts. apply succeeds_bind.
  { intros w Hw. unfold ParquetStorage.strptime. rewrite Hd.
    eexists _, _. split; [reflexivity | exact Hw]. }
  intros d'. apply succeeds_bind; [apply succeeds_now|].
  intros t. apply succeeds_for_each.
  eapply Forall_impl; [exact Hbodies|].
  intros a Ha acc'. apply succeeds_article_step. exact Ha.
Qed.

Lemma succeeds_build_rows self (editions : list GazetteEdition.t) kwargs batch_id :
  Forall (fun e => is_Some (publication_date_of e)
                   /\ Forall encodable (GazetteEdition.articles e)) editions ->
  succeeds (ParquetStorage.build_rows self editions kwargs batch_id).
Proof.
  intros Hgood. unfold ParquetStorage.build_rows. apply succeeds_for_each.
  eapply Forall_impl; [exact Hgood|].
  intros e [Hd Hb] acc. apply succeeds_edition_step; assumption.
Qed.

Lemma healthy_wrote path tbl msg w : healthy w -> healthy (wrote path tbl msg w).
Proof. intros Hw. exact Hw. Qed.

Lemma healthy_save (self : ParquetStorage.t)
    (editions : list GazetteEdition.t) (kwargs : Kwargs.t) w :
  let timestamp := Datetime.strftime_compact (clock w (ticks w)) in
  let batch_id :=
    ParquetStorage.kwargs_get (Kwargs.batch_id kwargs) ("batch_" +:+ timestamp) in
  let on_disk w' path := LocalBackend.read_parquet (backend w') path None in
  healthy w ->
  editions <> [] ->
  Forall (fun e => is_Some (publication_date_of e)
                   /\ Forall encodable (GazetteEdition.articles e)) editions ->
  exists st r w',
    ParquetStorage.save_editions self editions kwargs w = (Ok st, w')
    /\ healthy w'
    /\ mapped kwargs batch_id editions r
    /\ on_disk w' ("gazettes/batch_" +:+ timestamp +:+ ".parquet")
       = Ok (EditionsTable (ParquetStorage.editions_rows r))
    /\ (article_pairs editions <> [] ->
        on_disk w' ("articles/batch_" +:+ timestamp +:+ ".parquet")
        = Ok (ArticlesTable (ParquetStorage.articles_rows r))
        /\ on_disk w' ("relationships/batch_" +:+ timestamp +:+ ".parquet")
           = Ok (RelationshipsTable (ParquetStorage.relationships_rows r))).
Proof.
  intros timestamp batch_id on_disk Hw Hne Hgood.
  pose proof (save_editions_run self editions kwargs w Hne) as Hsave.
  cbv zeta in Hsave. fold timestamp batch_id in Hsave.
  destruct (succeeds_build_rows self editions kwargs batch_id Hgood (ticked w) Hw)
    as (r & w1 & Hbuild & Hw1).
  rewrite Hbuild in Hsave.
  pose proof (build_rows_mapped _ _ _ _ _ _ _ Hbuild) as Hmapped.
  destruct Hmapped as (He & Ha & Hr).
  assert (Hmapped : mapped kwargs batch_id editions r) by (repeat split; assumption).
  apply Forall2_length in He, Ha, Hr.
  destruct (targets_differ timestamp) as (Hga & Hgr & Har).
  destruct r as [er ar rr]. cbn [ParquetStorage.editions_rows
    ParquetStorage.articles_rows ParquetStorage.relationships_rows] in *.
  destruct er as [|e0 er]; [destruct editions; [congruence | discriminate He]|].
  unfold try_except, ParquetStorage.write_tables in Hsave.
  cbn [ParquetStorage.editions_rows ParquetStorage.articles_rows
       ParquetStorage.relationships_rows ParquetStorage.is_nil negb] in Hsave.
  unfold bind at 1 in Hsave.
  rewrite (block_accepted _ _ _ _ w1 (healthy_accepts _ _ Hw1)) in Hsave.
  cbv beta iota in Hsave.
  set (w2 := wrote _ _ _ w1) in Hsave.
  assert (Hw2 : healthy w2) by exact Hw1.
  destruct ar as [|a0 ar], rr as [|r0 rr];
    try (exfalso; rewrite Ha in Hr; cbn in Hr; discriminate Hr);
    cbn [ParquetStorage.is_nil negb] in Hsave.
  - unfold bind, ret in Hsave. rewrite Hsave.
    eexists _, _, _. split; [reflexivity|]. split; [exact Hw2|].
    split; [exact Hmapped|]. split.
    + subst on_disk w2. cbv beta. unfold LocalBackend.read_parquet.
      rewrite lookup_wrote_same. reflexivity.
    + intros Hsome. exfalso. apply Hsome.
      destruct (article_pairs editions); [reflexivity | discriminate Ha].
  - unfold bind at 1 in Hsave.
    rewrite (block_accepted _ _ _ _ w2 (healthy_accepts _ _ Hw2)) in Hsave.
    cbv beta iota in Hsave.
    set (w3 := wrote _ _ _ w2) in Hsave.
    assert (Hw3 : healthy w3) by exact Hw2.
    unfold bind at 1 in Hsave.
    rewrite (block_accepted _ _ _ _ w3 (healthy_accepts _ _ Hw3)) in Hsave.
    cbv beta iota in Hsave. unfold ret in Hsave. rewrite Hsave.
    eexists _, _, _. split; [reflexivity|]. split; [exact Hw3|].
    split; [exact Hmapped|]. split.
    + subst on_disk. cbv beta. unfold LocalBackend.read_parquet.
      rewrite lookup_wrote_other by (apply not_eq_sym; exact Hgr).
      subst w3. rewrite lookup_wrote_other by (apply not_eq_sym; exact Hga).
      subst w2. rewrite lookup_wrote_same. reflexivity.
    + intros _. subst on_disk. cbv beta. unfold LocalBackend.read_parquet.
      rewrite lookup_wrote_same.
      rewrite lookup_wrote_other by (apply not_eq_sym; exact Har).
      subst w3. rewrite lookup_wrote_same. split; reflexivity.
Qed.

(** X18. On a disk that refuses nothing, a batch whose publication dates
    all parse and whose bodies all have a UTF-8 form is saved: the call
    returns, and the three tables of the batch are on disk under the first
    clock reading, with one row per edition, per article and per article
    (the last two only when the batch has an article). *)
Theorem save_editions_succeeds (self : ParquetStorage.t)
    (editions : list GazetteEdition.t) (kwargs : Kwargs.t) w :
  let timestamp := Datetime.strftime_compact (clock w (ticks w)) in
  let on_disk w' path := LocalBackend.read_parquet (backend w') path None in
  healthy w ->
  editions <> [] ->
  Forall (fun e => is_Some (publication_date_of e)
                   /\ Forall encodable (GazetteEdition.articles e)) editions ->
  exists st w',
    ParquetStorage.save_editions self editions kwargs w = (Ok st, w')
    /\ healthy w'
    /\ (exists rows,
          on_disk w' ("gazettes/batch_" +:+ timestamp +:+ ".parquet")
          = Ok (EditionsTable rows)
          /\ length rows = length editions)
    /\ (article_pairs editions <> [] ->
        exists arows rrows,
          on_disk w' ("articles/batch_" +:+ timestamp +:+ ".parquet")
          = Ok (ArticlesTable arows)
          /\ on_disk w' ("relationships/batch_" +:+ timestamp +:+ ".parquet")
             = Ok (RelationshipsTable rrows)
          /\ length arows = length (article_pairs editions)
          /\ length rrows = length (article_pairs editions)).
Proof.
  intros timestamp on_disk Hw Hne Hgood.
  destruct (healthy_save self editions kwargs w Hw Hne Hgood)
    as (st & r & w' & Hrun & Hw' & (He & Ha & Hr) & Hg & Har).
  apply Forall2_length in He, Ha, Hr.
  exists st, w'. split; [exact Hrun|]. split; [exact Hw'|]. split.
  - eexists. split; [exact Hg | symmetry; exact He].
  - intros Hsome. destruct (Har Hsome) as [H1 H2].
    eexists _, _. split; [exact H1|]. split; [exact H2|]. split; symmetry; assumption.
Qed.

(** X24. The table paths are made of the second the save began in, and of
    nothing else.  A second batch saved within the same second as a first
    one (whatever the batch ids of the two) lands on the same paths: after
    it, the edition table on disk holds the rows of the second batch, in
    its order, and the first batch's edition table is gone, although the
    first call returned normally. *)
Theorem same_second_batches_collide (self : ParquetStorage.t)
    (batch1 batch2 : list GazetteEdition.t) (kwargs1 kwargs2 : Kwargs.t)
    (st1 : stats) w w1 :
  let timestamp := Datetime.strftime_compact (clock w (ticks w)) in
  let gazettes := "gazettes/batch_" +:+ timestamp +:+ ".parquet" in
  batch1 <> [] ->
  ParquetStorage.save_editions self batch1 kwargs1 w = (Ok st1, w1) ->
  Datetime.strftime_compact (clock w1 (ticks w1)) = timestamp ->
  healthy w1 ->
  batch2 <> [] ->
  Forall (fun e => is_Some (publication_date_of e)
                   /\ Forall encodable (GazetteEdition.articles e)) batch2 ->
  (exists rows1,
     LocalBackend.files (backend w1) !! gazettes
     = Some (LocalBackend.FileParquet (EditionsTable rows1) PARQUET_COMPRESSION
               PARQUET_COMPRESSION_LEVEL)
     /\ map EditionRow.edition_id rows1
        = map (fun e => EditionMetadata.edition_id (GazetteEdition.metadata e)) batch1)
  /\ exists st2 w2 rows2,
       ParquetStorage.save_editions self batch2 kwargs2 w1 = (Ok st2, w2)
       /\ LocalBackend.read_parquet (backend w2) gazettes None = Ok (EditionsTable rows2)
       /\ map EditionRow.edition_id rows2
          = map (fun e => EditionMetadata.edition_id (GazetteEdition.metadata e)) batch2.
Proof.
  intros timestamp gazettes Hne1 Hrun1 Hsame Hw1 Hne2 Hgood2.
  split.
  - pose proof (save_editions_run self batch1 kwargs1 w Hne1) as Hsave.
    cbv zeta in Hsave. fold timestamp in Hsave. rewrite Hrun1 in Hsave.
    destruct (ParquetStorage.build_rows self batch1 kwargs1 _ (ticked w))
      as [[r|ex] w0] eqn:Hbuild; [|discriminate Hsave].
    destruct (build_rows_mapped _ _ _ _ _ _ _ Hbuild) as (He & _ & _).
    unfold try_except in Hsave.
    destruct (ParquetStorage.write_tables timestamp r _ w0) as [[st|exc] w2] eqn:Htab;
      [|unfold bind, logger, raise in Hsave; discriminate Hsave].
    injection Hsave as _ ->.
    exists (ParquetStorage.editions_rows r). split.
    + revert Htab. unfold ParquetStorage.write_tables.
      destruct r as [er ar rr]. cbn [ParquetStorage.editions_rows
        ParquetStorage.articles_rows ParquetStorage.relationships_rows] in *.
      destruct er as [|e0 er];
        [apply Forall2_length in He; destruct batch1; [congruence | discriminate He]|].
      cbn [ParquetStorage.is_nil negb]. fold gazettes.
      destruct (targets_differ timestamp) as (Hga & Hgr & _). fold gazettes in Hga, Hgr.
      unfold bind, backend_write_parquet, logger, ret, record_call, set_backend.
      cbn [backend calls log clock ticks].
      change (write_parquet (backend w0) gazettes)
        with (LocalBackend.write_parquet (backend w0) gazettes).
      unfold LocalBackend.write_parquet at 1.
      destruct (LocalBackend.refuses (backend w0) gazettes); [discriminate|].
      cbn [backend].
      destruct ar as [|a0 ar], rr as [|r0 rr]; cbn [ParquetStorage.is_nil negb];
        repeat match goal with
               | |- context [write_parquet ?bk ?p ?t] =>
                   change (write_parquet bk p t) with (LocalBackend.write_parquet bk p t);
                   unfold LocalBackend.write_parquet at 1;
                   destruct (LocalBackend.refuses bk p); [discriminate|]; cbn [backend]
               end;
        intros [= _ <-]; cbn [backend LocalBackend.files LocalBackend.set_files];
        rewrite ?(lookup_insert_ne _ _ gazettes) by (apply not_eq_sym; assumption);
        apply lookup_insert_eq.
    + eapply Forall2_map_eq; [|exact He]. intros e row (d & _ & _ & Hid & _). exact Hid.
  - destruct (healthy_save self batch2 kwargs2 w1 Hw1 Hne2 Hgood2)
      as (st2 & r & w2 & Hrun2 & _ & (He & _ & _) & Hg & _).
    rewrite Hsame in Hg. fold gazettes in Hg.
    exists st2, w2, (ParquetStorage.editions_rows r).
    split; [exact Hrun2|]. split; [exact Hg|].
    eapply Forall2_map_eq; [|exact He]. intros e row (d & _ & _ & Hid & _). exact Hid.
Qed.

End Success.

Lemma save_editions_succeeds_witness :
  healthy Scenario.fresh
  /\ batch_of_two <> []
  /\ exists st w',
       ParquetStorage.save_editions Scenario.storage batch_of_two kwargs_of_two
         Scenario.fresh = (Ok st, w')
       /\ exists rows,
            LocalBackend.read_parquet (backend w')
              "gazettes/batch_20240305_103000.parquet" None
            = Ok (EditionsTable rows)
            /\ length rows = 2.
Proof.
  assert (H1 : healthy Scenario.fresh) by reflexivity.
  assert (H2 : batch_of_two <> []) by discriminate.
  assert (H3 : Forall (fun e => is_Some (publication_date_of e)
                                /\ Forall encodable (GazetteEdition.articles e))
                 batch_of_two).
  { repeat constructor; vm_compute; eauto. }
  split; [exact H1|]. split; [exact H2|].
  destruct (save_editions_succeeds Scenario.storage batch_of_two kwargs_of_two
              Scenario.fresh H1 H2 H3) as (st & w' & Hrun & _ & Hg & _).
  exists st, w'. split; [exact Hrun | exact Hg].
Defined.

Lemma same_second_batches_collide_witness :
  exists st1 w1 st2 w2 rows2,
    ParquetStorage.save_editions Scenario.storage batch_one
      (Kwargs.mk (Some "lote-1") None) frozen = (Ok st1, w1)
    /\ ParquetStorage.save_editions Scenario.storage batch_two
         (Kwargs.mk (Some "lote-2") None) w1 = (Ok st2, w2)
    /\ LocalBackend.read_parquet (backend w2) "gazettes/batch_20240305_103000.parquet"
         None = Ok (EditionsTable rows2)
    /\ map EditionRow.edition_id rows2 = ["ed-2"].
Proof.
  assert (Hok : is_ok (fst (ParquetStorage.save_editions Scenario.storage batch_one
                              (Kwargs.mk (Some "lote-1") None) frozen)) = true)
    by (vm_compute; reflexivity).
  assert (Hsame : Datetime.strftime_compact
                    (clock (snd (ParquetStorage.save_editions Scenario.storage batch_one
                                   (Kwargs.mk (Some "lote-1") None) frozen))
                       (ticks (snd (ParquetStorage.save_editions Scenario.storage
                                      batch_one (Kwargs.mk (Some "lote-1") None) frozen))))
                  = Datetime.strftime_compact (clock frozen (ticks frozen)))
    by (vm_compute; reflexivity).
  assert (Hhealthy : healthy (snd (ParquetStorage.save_editions Scenario.storage batch_one
                                     (Kwargs.mk (Some "lote-1") None) frozen)))
    by (vm_compute; reflexivity).
  destruct (ParquetStorage.save_editions Scenario.storage batch_one
              (Kwargs.mk (Some "lote-1") None) frozen) as [[st1|e] w1] eqn:Hrun1;
    [|discriminate Hok].
  cbn [snd] in Hsame, Hhealthy.
  assert (Hne1 : batch_one <> []) by discriminate.
  assert (Hne2 : batch_two <> []) by discriminate.
  assert (Hgood : Forall (fun e => is_Some (publication_date_of e)
                                   /\ Forall encodable (GazetteEdition.articles e))
                    batch_two).
  { repeat constructor. vm_compute. eauto. }
  destruct (same_second_batches_collide Scenario.storage batch_one batch_two
              (Kwargs.mk (Some "lote-1") None) (Kwargs.mk (Some "lote-2") None)
              st1 frozen w1 Hne1 Hrun1 Hsame Hhealthy Hne2 Hgood)
    as (_ & st2 & w2 & rows2 & Hrun2 & Hread & Hids).
  exists st1, w1, st2, w2, rows2.
  split; [reflexivity|]. split; [exact Hrun2|]. split; [exact Hread | exact Hids].
Defined.

(** ** Failures of the mapping loop *)

Section MappingFailure.

Context {B : Type} `{StorageBackend B}.

Lemma keeps_log_pure {A} (m : M B A) :
  (forall w, snd (m w) = w) -> keeps_log m.
Proof. intros Hm w r w' Hrun. rewrite <- (Hm w), Hrun. reflexivity. Qed.

Lemma keeps_log_bind {A C} (m : M B A) (k : A -> M B C) :
  keeps_log m -> (forall a, keeps_log (k a)) -> keeps_log (bind m k).
Proof.
  intros Hm Hk w r w' Hrun. unfold bind in Hrun.
  destruct (m w) as [[a|e] w1] eqn:Hm1.
  - rewrite (Hk a _ _ _ Hrun). exact (Hm _ _ _ Hm1).
  - injection Hrun as _ <-. exact (Hm _ _ _ Hm1).
Qed.

Lemma keeps_log_now : keeps_log (now (B:=B)).
Proof. intros w r w' [= _ <-]. reflexivity. Qed.

Lemma keeps_log_for_each {X S} (xs : list X) (step : S -> X -> M B S) (acc : S) :
  (forall acc x, keeps_log (step acc x)) -> keeps_log (for_each xs step acc).
Proof.
  intros Hstep. revert acc. induction xs as [|x xs IH]; intros acc; cbn [for_each].
  - apply keeps_log_pure. reflexivity.
  - apply keeps_log_bind; [apply Hstep | exact IH].
Qed.

Lemma keeps_log_write_content_blob (bs : list byte) :
  keeps_log (ParquetStorage._write_content_blob (AsBytes bs)).
Proof.
  intros w r w' Hrun. rewrite write_content_blob_run in Hrun. cbv zeta in Hrun.
  destruct (exists_ (backend w) _).
  - injection Hrun as _ <-. reflexivity.
  - destruct (write_bytes _ _ _ _) as [[p|e] bk]; injection Hrun as _ <-; reflexivity.
Qed.

Lemma keeps_log_article_step kwargs meta edition_hash pub_parts pub_date_obj batch_id
    acc article :
  keeps_log (ParquetStorage.article_step kwargs meta edition_hash pub_parts
               pub_date_obj batch_id acc article).
Proof.
  unfold ParquetStorage.article_step.
  apply keeps_log_bind.
  { apply keeps_log_pure. intros w. unfold ParquetStorage.normalize_content.
    destruct (ArticleContent.raw_content _) as [b|s|].
    - destruct (Utf8.decode b); reflexivity.
    - unfold bind, ParquetStorage.encode_utf8. destruct (Utf8.encode s); reflexivity.
    - reflexivity. }
  intros norm. apply keeps_log_bind.
  { unfold ParquetStorage.place_content.
    destruct (match fst norm with Some _ => _ | None => _ end).
    - apply keeps_log_bind; [apply keeps_log_write_content_blob|].
      intros; apply keeps_log_pure; reflexivity.
    - apply keeps_log_pure; reflexivity. }
  intros placed. apply keeps_log_bind; [apply keeps_log_now|].
  intros ta. apply keeps_log_bind; [apply keeps_log_now|].
  intros tr. apply keeps_log_pure; reflexivity.
Qed.

Lemma keeps_log_build_rows self editions kwargs batch_id :
  keeps_log (ParquetStorage.build_rows self editions kwargs batch_id).
Proof.
  unfold ParquetStorage.build_rows. apply keeps_log_for_each. intros acc e.
  unfold ParquetStorage.edition_step.
  apply keeps_log_bind.
  { unfold ParquetStorage._publication_date_parts, try_except,
      ParquetStorage.strptime.
    intros w r w' Hrun. unfold bind, now, ret, raise in Hrun.
    destruct (Datetime.strptime_ymd _); injection Hrun as _ <-; reflexivity. }
  intros parts. apply keeps_log_bind.
  { apply keeps_log_pure. intros w. unfold ParquetStorage.strptime.
    destruct (Datetime.strptime_ymd _); reflexivity. }
  intros d. apply keeps_log_bind; [apply keeps_log_now|].
  intros t. apply keeps_log_for_each. intros acc' a. apply keeps_log_article_step.
Qed.

(** X19. A failure of the mapping loop (a date that does not parse, a body
    that cannot be encoded, a blob the backend refuses) leaves
    [save_editions] at once: the exception reaches the caller as it is,
    nothing is logged, no table write is attempted, and the blobs written
    before the failure stay where they are: every call made is a call of
    the blob store. *)
Theorem mapping_failure_is_silent (self : ParquetStorage.t)
    (editions : list GazetteEdition.t) (kwargs : Kwargs.t) (e : exn)
    (w w1 : world B) :
  let timestamp := Datetime.strftime_compact (clock w (ticks w)) in
  let batch_id :=
    ParquetStorage.kwargs_get (Kwargs.batch_id kwargs) ("batch_" +:+ timestamp) in
  ParquetStorage.build_rows self editions kwargs batch_id (ticked w) = (Raise e, w1) ->
  ParquetStorage.save_editions self editions kwargs w = (Raise e, w1)
  /\ log w1 = log w
  /\ Forall blob_call (new_calls w w1).
Proof.
  intros timestamp batch_id Hbuild.
  assert (Hne : editions <> []).
  { intros ->. unfold ParquetStorage.build_rows in Hbuild. cbn [for_each] in Hbuild.
    discriminate Hbuild. }
  split; [|split].
  - rewrite save_editions_run by exact Hne. cbv zeta. fold timestamp batch_id.
    rewrite Hbuild. reflexivity.
  - exact (keeps_log_build_rows _ _ _ _ _ _ _ Hbuild).
  - destruct (journal_build_rows self editions kwargs batch_id _ _ _ Hbuild)
      as [(l & Hc & Hl) _].
    cbn [ticked calls] in Hc. unfold new_calls. rewrite Hc, drop_app_length. exact Hl.
Qed.

End MappingFailure.

Lemma mapping_failure_is_silent_witness :
  exists e w1,
    ParquetStorage.build_rows Scenario.storage batch_with_surrogate Kwargs.none
      "batch_20240305_103000" (ticked Scenario.fresh) = (Raise e, w1)
    /\ ParquetStorage.save_editions Scenario.storage batch_with_surrogate Kwargs.none
         Scenario.fresh = (Raise e, w1)
    /\ log w1 = []
    /\ count_writes (new_calls Scenario.fresh w1) = 1.
Proof.
  assert (Hfail : is_ok (fst (ParquetStorage.build_rows Scenario.storage
                                batch_with_surrogate Kwargs.none
                                "batch_20240305_103000" (ticked Scenario.fresh)))
                  = false) by (vm_compute; reflexivity).
  assert (Hcount : count_writes
                     (new_calls Scenario.fresh
                        (snd (ParquetStorage.build_rows Scenario.storage
                                batch_with_surrogate Kwargs.none
                                "batch_20240305_103000" (ticked Scenario.fresh))))
                   = 1) by (vm_compute; reflexivity).
  destruct (ParquetStorage.build_rows Scenario.storage batch_with_surrogate Kwargs.none
              "batch_20240305_103000" (ticked Scenario.fresh)) as [[r|e] w1] eqn:Hbuild;
    [discriminate Hfail|].
  destruct (mapping_failure_is_silent Scenario.storage batch_with_surrogate Kwargs.none
              e Scenario.fresh w1 Hbuild) as (Hrun & Hlog & _).
  exists e, w1. split; [reflexivity|]. split; [exact Hrun|].
  split; [exact Hlog | exact Hcount].
Defined.

(** ** get_stats (parquet.py, lines 355-364) *)

Section Stats.

Implicit Types (b : LocalBackend.t) (w : world LocalBackend.t).

Lemma length_list_files_insert b (k : string) (v : LocalBackend.file_content)
    (prefix : string) (suffix : option string) :
  LocalBackend.files b !! k = None ->
  length (LocalBackend.list_files
            (LocalBackend.set_files b (<[k := v]> (LocalBackend.files b))) prefix suffix)
  = length (LocalBackend.list_files b prefix suffix)
    + (if LocalBackend.below prefix k && suffix_matches suffix k then 1 else 0).
Proof.
  intros Hk. unfold LocalBackend.list_files.
  set (keep := fun p => Is_true (LocalBackend.below prefix p && _)).
  rewrite !(Permutation_length (merge_sort_Permutation _ _)).
  unfold LocalBackend.file_paths. cbn [LocalBackend.set_files LocalBackend.files].
  assert (Hperm : (map_to_list (<[k := v]> (LocalBackend.files b))).*1
                  ≡ₚ k :: (map_to_list (LocalBackend.files b)).*1).
  { rewrite (map_to_list_insert _ _ _ Hk). reflexivity. }
  rewrite Hperm, filter_cons.
  change (suffix_matches suffix k)
    with (match suffix with
          | None => true
          | Some s => String.eqb (LocalBackend.suffix_of k) s
          end).
  destruct (decide (keep k)) as [Hkeep|Hkeep]; subst keep; cbn beta in Hkeep.
  - apply Is_true_true in Hkeep. rewrite Hkeep. cbn [length]. lia.
  - apply Is_true_false in Hkeep. rewrite Hkeep. lia.
Qed.

Lemma blob_below_content (h tail : string) :
  LocalBackend.below CONTENT_DIRNAME (ParquetStorage.blob_path h +:+ tail) = true.
Proof.
  unfold LocalBackend.below, ParquetStorage.blob_path, CONTENT_DIRNAME.
  rewrite !append_assoc_s.
  match goal with
  | |- String.prefix _ (_ +:+ _ +:+ ?rest) = true =>
      change (String.prefix "content/" ("content/" +:+ rest) = true)
  end.
  apply prefix_append_s.
Qed.

Lemma blob_not_below_tables (h tail : string) :
  LocalBackend.below "gazettes" (ParquetStorage.blob_path h +:+ tail) = false
  /\ LocalBackend.below "articles" (ParquetStorage.blob_path h +:+ tail) = false
  /\ LocalBackend.below "relationships" (ParquetStorage.blob_path h +:+ tail) = false.
Proof. repeat split. Qed.

Lemma get_stats_run (self : ParquetStorage.t) w :
  get_stats self w
  = (Ok [("backend", SStr "LocalBackend");
         ("editions_files",
          SInt (length (LocalBackend.list_files (backend w) "gazettes" (Some ".parquet"))));
         ("articles_files",
          SInt (length (LocalBackend.list_files (backend w) "articles" (Some ".parquet"))));
         ("content_files",
          SInt (length (LocalBackend.list_files (backend w) CONTENT_DIRNAME None)))],
     mk_world (backend w)
       (calls w ++ [CallListFiles "gazettes" (Some ".parquet");
                    CallListFiles "articles" (Some ".parquet");
                    CallListFiles CONTENT_DIRNAME None])
       (log w) (clock w) (ticks w)).
Proof.
  unfold get_stats, bind, backend_list_files, ret, record_call.
  cbn [backend calls log clock ticks]. rewrite <- !app_assoc. reflexivity.
Qed.

(** X20. [content_files] counts files, not blobs: [get_stats] lists
    everything below [content/], sidecars included, so storing one new
    payload raises the count by two.  The tables of relationships are not
    counted at all, and the call changes nothing on the backend. *)
Theorem content_files_counts_sidecars (self : ParquetStorage.t) (bs : list byte) w :
  let path := Spec.sharded_path (Hashlib.sha256 bs) in
  LocalBackend.exists_ (backend w) path = false ->
  LocalBackend.files (backend w) !! (path +:+ ".meta.json") = None ->
  LocalBackend.refuses (backend w) path = false ->
  LocalBackend.refuses (backend w) (path +:+ ".meta.json") = false ->
  exists d w1 n,
    ParquetStorage._write_content_blob (AsBytes bs) w = (Ok d, w1)
    /\ reported self "content_files" w = Some (SInt n)
    /\ reported self "content_files" w1 = Some (SInt (n + 2))
    /\ reported self "editions_files" w1 = reported self "editions_files" w
    /\ reported self "articles_files" w1 = reported self "articles_files" w
    /\ backend (snd (get_stats self w1)) = backend w1.
Proof.
  intros path Hex Hside Hw Hm.
  destruct (write_content_blob_absent bs w Hex Hw Hm) as (w1 & Hrun & Hfiles & _ & _).
  fold path in Hrun, Hfiles.
  assert (Hnone : LocalBackend.files (backend w) !! path = None).
  { unfold LocalBackend.exists_, LocalBackend.is_file in Hex.
    apply orb_false_iff in Hex as [Hfile _].
    apply bool_decide_eq_false in Hfile.
    destruct (LocalBackend.files (backend w) !! path); [exfalso; eauto | reflexivity]. }
  set (b1 := LocalBackend.set_files (backend w)
               (<[path := LocalBackend.FileBytes bs]> (LocalBackend.files (backend w)))).
  assert (Hb1 : forall prefix suffix,
            LocalBackend.list_files (backend w1) prefix suffix
            = LocalBackend.list_files
                (LocalBackend.set_files b1
                   (<[path +:+ ".meta.json"
                      := LocalBackend.FileText
                           (LocalBackend.dumps_metadata (sidecar bs (clock w (ticks w))))]>
                      (LocalBackend.files b1))) prefix suffix).
  { intros prefix suffix. unfold LocalBackend.list_files, LocalBackend.file_paths.
    rewrite Hfiles. reflexivity. }
  assert (Hside1 : LocalBackend.files b1 !! (path +:+ ".meta.json") = None).
  { subst b1. cbn. rewrite lookup_insert_ne by (apply not_eq_sym, sidecar_differs).
    exact Hside. }
  assert (Hcount : forall prefix suffix,
            length (LocalBackend.list_files (backend w1) prefix suffix)
            = length (LocalBackend.list_files (backend w) prefix suffix)
              + (if LocalBackend.below prefix path && suffix_matches suffix path
                 then 1 else 0)
              + (if LocalBackend.below prefix (path +:+ ".meta.json")
                    && suffix_matches suffix (path +:+ ".meta.json")
                 then 1 else 0)).
  { intros prefix suffix. rewrite Hb1.
    rewrite (length_list_files_insert b1 _ _ prefix suffix Hside1).
    subst b1. rewrite (length_list_files_insert (backend w) _ _ prefix suffix Hnone).
    reflexivity. }
  exists (ContentBlob.mk (Some (Hashlib.sha256 bs)) (Some path) (length bs)), w1,
    (length (LocalBackend.list_files (backend w) CONTENT_DIRNAME None)).
  split; [exact Hrun|].
  unfold reported. rewrite !get_stats_run. cbn [fst snd backend dict_get String.eqb
    Ascii.eqb Bool.eqb].
  split; [reflexivity|]. split.
  - rewrite Hcount. cbn [suffix_matches]. rewrite !andb_true_r.
    pose proof (blob_below_content (Hashlib.sha256 bs) "") as H1.
    rewrite append_empty_r in H1.
    pose proof (blob_below_content (Hashlib.sha256 bs) ".meta.json") as H2.
    change (ParquetStorage.blob_path (Hashlib.sha256 bs)) with path in H1, H2.
    rewrite H1, H2. do 2 f_equal. lia.
  - destruct (blob_not_below_tables (Hashlib.sha256 bs) "") as (Hg1 & Ha1 & _).
    rewrite append_empty_r in Hg1, Ha1.
    destruct (blob_not_below_tables (Hashlib.sha256 bs) ".meta.json") as (Hg2 & Ha2 & _).
    change (ParquetStorage.blob_path (Hashlib.sha256 bs)) with path in Hg1, Ha1, Hg2, Ha2.
    split; [|split; [|reflexivity]].
    + rewrite Hcount, Hg1, Hg2. cbn [andb]. rewrite !Nat.add_0_r. reflexivity.
    + rewrite Hcount, Ha1, Ha2. cbn [andb]. rewrite !Nat.add_0_r. reflexivity.
Qed.

End Stats.

Lemma content_files_counts_sidecars_witness :
  let bs := Py.encode "Diario Oficial" in
  let path := Spec.sharded_path (Hashlib.sha256 bs) in
  LocalBackend.exists_ (backend Scenario.fresh) path = false
  /\ LocalBackend.files (backend Scenario.fresh) !! (path +:+ ".meta.json") = None
  /\ LocalBackend.refuses (backend Scenario.fresh) path = false
  /\ LocalBackend.refuses (backend Scenario.fresh) (path +:+ ".meta.json") = false
  /\ exists d w1,
       ParquetStorage._write_content_blob (AsBytes bs) Scenario.fresh = (Ok d, w1)
       /\ reported Scenario.storage "content_files" Scenario.fresh = Some (SInt 0)
       /\ reported Scenario.storage "content_files" w1 = Some (SInt 2).
Proof.
  intros bs path.
  assert (H1 : LocalBackend.exists_ (backend Scenario.fresh) path = false)
    by (vm_compute; reflexivity).
  assert (H2 : LocalBackend.files (backend Scenario.fresh) !! (path +:+ ".meta.json")
               = None) by apply lookup_empty.
  assert (H3 : LocalBackend.refuses (backend Scenario.fresh) path = false)
    by (vm_compute; reflexivity).
  assert (H4 : LocalBackend.refuses (backend Scenario.fresh) (path +:+ ".meta.json")
               = false) by (vm_compute; reflexivity).
  split; [exact H1|]. split; [exact H2|]. split; [exact H3|]. split; [exact H4|].
  destruct (content_files_counts_sidecars Scenario.storage bs Scenario.fresh H1 H2 H3 H4)
    as (d & w1 & n & Hrun & Hn & Hn2 & _).
  assert (H0 : reported Scenario.storage "content_files" Scenario.fresh = Some (SInt 0))
    by (vm_compute; reflexivity).
  rewrite H0 in Hn. injection Hn as <-.
  exists d, w1. split; [exact Hrun|]. split; [exact H0 | exact Hn2].
Defined.

(** ** The size of an inline body *)

Section InlineSize.

Context {B : Type} `{StorageBackend B}.

Lemma encode_cp_length (c : N) (bs : list byte) :
  Utf8.encode_cp c = Some bs -> 1 <= length bs <= 4.
Proof.
  unfold Utf8.encode_cp.
  repeat match goal with
         | |- context [if ?c then _ else _] => destruct c
         end; intros [= <-]; cbn; lia.
Qed.

Lemma encode_length (s : Utf8.pystr) (bs : list byte) :
  Utf8.encode s = Some bs -> length s <= length bs <= 4 * length s.
Proof.
  revert bs. induction s as [|c s IH]; intros bs; cbn [Utf8.encode].
  - intros [= <-]. cbn. lia.
  - destruct (Utf8.encode_cp c) as [hd|] eqn:Hc; [|discriminate].
    destruct (Utf8.encode s) as [rest|]; [|discriminate].
    intros [= <-]. apply encode_cp_length in Hc. specialize (IH rest eq_refl).
    rewrite length_app. cbn [length]. lia.
Qed.

Lemma decodeN_length (n : nat) :
  forall (bs : list N) (txt : Utf8.pystr),
    length bs <= n ->
    Utf8.decodeN bs = Some txt -> length txt <= length bs <= 4 * length txt.
Proof.
  induction n as [|n IH]; intros bs txt Hn.
  - destruct bs; [|cbn in Hn; lia]. intros [= <-]. cbn. lia.
  - destruct bs as [|b0 r0]; [intros [= <-]; cbn; lia|].
    cbn [Utf8.decodeN length] in *.
    assert (Htail : forall (r : list N) (c : N) (k : nat),
               length r0 = k + length r -> k <= 3 ->
               cons c <$> Utf8.decodeN r = Some txt ->
               length txt <= S (length r0) <= 4 * length txt).
    { intros r c k Hlen Hk Hdec.
      destruct (Utf8.decodeN r) as [t|] eqn:Hr; [|discriminate].
      injection Hdec as <-. apply IH in Hr; [|lia]. cbn [length]. lia. }
    destruct (N.ltb b0 128); [apply (Htail r0 _ 0); [reflexivity | lia]|].
    destruct (Utf8.between 194 223 b0).
    { destruct r0 as [|b1 r1]; [discriminate|].
      destruct (Utf8.is_cont b1); [|discriminate].
      apply (Htail r1 _ 1); [reflexivity | lia]. }
    destruct (Utf8.between 224 239 b0).
    { destruct r0 as [|b1 [|b2 r2]]; try discriminate.
      destruct (_ && _); [|discriminate].
      apply (Htail r2 _ 2); [reflexivity | lia]. }
    destruct (Utf8.between 240 244 b0); [|discriminate].
    destruct r0 as [|b1 [|b2 [|b3 r3]]]; try discriminate.
    destruct (_ && _); [|discriminate].
    apply (Htail r3 _ 3); [reflexivity | lia].
Qed.

Lemma spec_normalize_sized (raw : raw_content) :
  run_spec (ParquetStorage.normalize_content (B:=B) raw) (fun _ => True) sized.
Proof.
  intros w r w' Hrun. split.
  - exists []. rewrite app_nil_r. split; [|constructor].
    revert Hrun. unfold ParquetStorage.normalize_content.
    destruct raw as [b|s|].
    + destruct (Utf8.decode b); intros [= _ <-]; reflexivity.
    + unfold bind, ParquetStorage.encode_utf8.
      destruct (Utf8.encode s); intros [= _ <-]; reflexivity.
    + intros [= _ <-]. reflexivity.
  - intros norm ->. revert Hrun. unfold ParquetStorage.normalize_content, sized.
    destruct raw as [b|s|].
    + destruct (Utf8.decode b) as [t|] eqn:Hd; intros [= <- _] txt; cbn [fst snd];
        [|discriminate].
      intros [= <-]. unfold Utf8.decode in Hd.
      apply (decodeN_length _ _ _ (Nat.le_refl _)) in Hd.
      rewrite length_map in Hd. exact Hd.
    + unfold bind, ParquetStorage.encode_utf8.
      destruct (Utf8.encode s) as [bs|] eqn:He; [|discriminate].
      intros [= <- _] txt. cbn [fst snd]. intros [= <-]. exact (encode_length _ _ He).
    + cbn. intros [= <- _] txt. cbn [fst snd]. intros [= <-]. cbn. lia.
Qed.

Lemma spec_any_call {A} (m : M B A) P (Q : A -> Prop) :
  run_spec m P Q -> run_spec m (fun _ => True) Q.
Proof.
  intros Hm w r w' Hrun. destruct (Hm _ _ _ Hrun) as [(l & Hc & _) Hq].
  split; [|exact Hq]. exists l. split; [exact Hc|].
  apply Forall_forall. trivial.
Qed.

Lemma spec_place_sized (otxt : option Utf8.pystr) (bs : list byte) :
  sized (otxt, bs) ->
  run_spec (ParquetStorage.place_content otxt bs) (fun _ => True)
    (fun placed =>
       forall txt, snd placed = Some txt ->
                   length txt <= CONTENT_INLINE_THRESHOLD
                   /\ length txt <= ContentBlob.content_size (fst placed)
                      <= 4 * length txt).
Proof.
  intros Hsized. unfold ParquetStorage.place_content.
  destruct otxt as [txt|].
  - destruct (Nat.ltb_spec CONTENT_INLINE_THRESHOLD (length txt)) as [Hlong|Hshort].
    + eapply spec_bind;
        [eapply spec_any_call; apply journal_write_content_blob|].
      intros cm _. apply spec_ret. cbn [snd]. discriminate.
    + apply spec_ret. cbn [fst snd ContentBlob.content_size]. intros t [= <-].
      split; [exact Hshort|]. exact (Hsized txt eq_refl).
  - eapply spec_bind;
      [eapply spec_any_call; apply journal_write_content_blob|].
    intros cm _. apply spec_ret. cbn [snd]. discriminate.
Qed.

Lemma spec_article_step_sized kwargs meta edition_hash pub_parts pub_date_obj batch_id
    acc article :
  Forall inline_bounded (ParquetStorage.articles_rows acc) ->
  run_spec (ParquetStorage.article_step kwargs meta edition_hash pub_parts
              pub_date_obj batch_id acc article) (fun _ => True)
    (fun acc' => Forall inline_bounded (ParquetStorage.articles_rows acc')).
Proof.
  intros Hacc. unfold ParquetStorage.article_step.
  eapply spec_bind; [apply spec_normalize_sized|]. intros [otxt bs] Hnorm.
  eapply spec_bind; [apply spec_place_sized; exact Hnorm|]. intros placed Hplaced.
  eapply spec_bind; [apply spec_now|]. intros ta _.
  eapply spec_bind; [apply spec_now|]. intros tr _.
  apply spec_ret. cbn [ParquetStorage.articles_rows].
  apply Forall_app. split; [exact Hacc|]. constructor; [|constructor].
  intros txt Htxt. cbn [ArticleRow.inline_text ArticleRow.content_size] in *.
  exact (Hplaced txt Htxt).
Qed.

(** X21. The threshold of the inline policy counts characters, the
    [content_size] column counts bytes.  Every inline row the mapping loop
    returns holds at most [CONTENT_INLINE_THRESHOLD] characters, and its
    [content_size] lies between the number of characters and four times
    that number: an inline body can weigh up to 8000 bytes, never more. *)
Theorem inline_rows_are_bounded (self : ParquetStorage.t)
    (editions : list GazetteEdition.t) (kwargs : Kwargs.t) (batch_id : string)
    (r : ParquetStorage.rows) (w w' : world B) :
  ParquetStorage.build_rows self editions kwargs batch_id w = (Ok r, w') ->
  Forall (fun row =>
            forall txt,
              ArticleRow.inline_text row = Some txt ->
              length txt <= CONTENT_INLINE_THRESHOLD
              /\ length txt <= ArticleRow.content_size row <= 4 * length txt
              /\ ArticleRow.content_size row <= 4 * CONTENT_INLINE_THRESHOLD)
    (ParquetStorage.articles_rows r).
Proof.
  intros Hrun.
  assert (Hspec : run_spec (ParquetStorage.build_rows self editions kwargs batch_id)
                    (fun _ => True)
                    (fun acc => Forall inline_bounded (ParquetStorage.articles_rows acc))).
  { unfold ParquetStorage.build_rows. apply spec_for_each; [|constructor].
    intros acc e Hacc. unfold ParquetStorage.edition_step.
    eapply spec_bind.
    { eapply spec_any_call. apply spec_quiet with (P := fun _ => True). intros w0.
      unfold ParquetStorage._publication_date_parts, try_except, bind,
        ParquetStorage.strptime.
      destruct (Datetime.strptime_ymd _); reflexivity. }
    intros parts _. eapply spec_bind.
    { apply spec_quiet with (P := fun _ => True). intros w0.
      unfold ParquetStorage.strptime. destruct (Datetime.strptime_ymd _); reflexivity. }
    intros d _. eapply spec_bind; [apply spec_now|]. intros t _.
    apply spec_for_each; [|exact Hacc].
    intros acc' a Hacc'. apply spec_article_step_sized. exact Hacc'. }
  destruct (Hspec _ _ _ Hrun) as [_ Hq]. specialize (Hq r eq_refl).
  eapply Forall_impl; [exact Hq|]. intros row Hrow txt Htxt.
  destruct (Hrow txt Htxt) as (Hlen & Hlo & Hhi).
  split; [exact Hlen|]. split; [split; assumption|]. lia.
Qed.

End InlineSize.

Lemma inline_rows_are_bounded_witness :
  exists r w',
    ParquetStorage.build_rows Scenario.storage batch_of_accents Kwargs.none "lote-7"
      Scenario.fresh = (Ok r, w')
    /\ map (fun row => (length <$> ArticleRow.inline_text row,
                        ArticleRow.content_size row))
         (ParquetStorage.articles_rows r)
       = [(Some 2000, 4000)]
    /\ Forall (fun row =>
                 forall txt,
                   ArticleRow.inline_text row = Some txt ->
                   length txt <= CONTENT_INLINE_THRESHOLD
                   /\ length txt <= ArticleRow.content_size row <= 4 * length txt
                   /\ ArticleRow.content_size row <= 4 * CONTENT_INLINE_THRESHOLD)
         (ParquetStorage.articles_rows r).
Proof.
  assert (Hok : is_ok (fst (ParquetStorage.build_rows Scenario.storage batch_of_accents
                              Kwargs.none "lote-7" Scenario.fresh)) = true)
    by (vm_compute; reflexivity).
  assert (Hrows : map (fun row => (length <$> ArticleRow.inline_text row,
                                   ArticleRow.content_size row))
                    (match fst (ParquetStorage.build_rows Scenario.storage
                                  batch_of_accents Kwargs.none "lote-7" Scenario.fresh)
                     with
                     | Ok r => ParquetStorage.articles_rows r
                     | Raise _ => []
                     end)
                  = [(Some 2000, 4000)]) by (vm_compute; reflexivity).
  destruct (ParquetStorage.build_rows Scenario.storage batch_of_accents Kwargs.none
              "lote-7" Scenario.fresh) as [[r|e] w'] eqn:Hrun; [|discriminate Hok].
  cbn [fst] in Hrows.
  pose proof (inline_rows_are_bounded Scenario.storage batch_of_accents Kwargs.none
                "lote-7" r Scenario.fresh w' Hrun) as Hb.
  exists r, w'. split; [reflexivity|]. split; [exact Hrows | exact Hb].
Defined.

(** ** The edition hash *)

Section EditionHash.

Local Open Scope Z_scope.

Lemma length_round5 (m st : list Z) (i : nat) :
  length (Hashlib.round5 m st i) = length st.
Proof.
  unfold Hashlib.round5.
  destruct st as [|a [|b [|c [|d [|e st]]]]]; reflexivity.
Qed.

Lemma length_compress5 (st : list Z) (block : list byte) :
  length (Hashlib.compress5 st block) = length st.
Proof.
  unfold Hashlib.compress5. rewrite length_map, length_combine.
  assert (Hr : forall l s, length (fold_left (Hashlib.round5
                 (map Hashlib.le_word (Hashlib.chunks 16 4 block))) l s) = length s).
  { induction l as [|i l IH]; intros s; cbn; [reflexivity|].
    rewrite IH. apply length_round5. }
  rewrite Hr. apply Nat.min_id.
Qed.

Lemma length_md5_digest (msg : list byte) :
  length (Hashlib.md5_digest msg) = 16%nat.
Proof.
  unfold Hashlib.md5_digest.
  assert (Hst : forall blocks st,
             length (fold_left Hashlib.compress5 blocks st) = length st).
  { induction blocks as [|bl blocks IH]; intros st; cbn; [reflexivity|].
    rewrite IH. apply length_compress5. }
  specialize (Hst (Hashlib.blocks (Hashlib.padded (Hashlib.le_bytes 8) msg))
                Hashlib.H5).
  change (length Hashlib.H5) with 4%nat in Hst.
  destruct (fold_left Hashlib.compress5 _ Hashlib.H5)
    as [|a [|b [|c [|d [|e st]]]]]; try discriminate Hst.
  cbn [map concat]. rewrite !length_app, !length_le_bytes. reflexivity.
Qed.

End EditionHash.

(** X22. The edition hash is 32 hexadecimal digits computed from three
    things only: the edition id, the publication date as written, and the
    number of articles.  Two editions that agree on these share the hash,
    whatever their articles say and whatever the rest of their metadata;
    and because the three are joined by underscores, a part moved across
    an underscore from the date to the id leaves the hash unchanged. *)
Theorem edition_hash_is_a_weak_key (e1 e2 : GazetteEdition.t) :
  let id e := EditionMetadata.edition_id (GazetteEdition.metadata e) in
  let date e := EditionMetadata.publication_date (GazetteEdition.metadata e) in
  let count e := length (GazetteEdition.articles e) in
  count e1 = count e2 ->
  String.length (ParquetStorage._generate_edition_hash e1) = 32
  /\ all_hex (ParquetStorage._generate_edition_hash e1) = true
  /\ (id e1 = id e2 -> date e1 = date e2 ->
      ParquetStorage._generate_edition_hash e1
      = ParquetStorage._generate_edition_hash e2)
  /\ (forall part, id e1 = id e2 +:+ "_" +:+ part ->
                   date e2 = part +:+ "_" +:+ date e1 ->
      ParquetStorage._generate_edition_hash e1
      = ParquetStorage._generate_edition_hash e2).
Proof.
  intros id date count Hcount. subst id date count. cbv beta in *.
  unfold ParquetStorage._generate_edition_hash.
  destruct (hexdigest_shape (Hashlib.md5_digest
              (Py.encode (EditionMetadata.edition_id (GazetteEdition.metadata e1)
                          +:+ "_"
                          +:+ EditionMetadata.publication_date (GazetteEdition.metadata e1)
                          +:+ "_"
                          +:+ Py.str_of_nat (length (GazetteEdition.articles e1))))))
    as [Hlen Hhex].
  rewrite length_md5_digest in Hlen.
  split; [exact Hlen|]. split; [exact Hhex|]. split.
  - intros -> ->. rewrite Hcount. reflexivity.
  - intros part -> ->. rewrite Hcount. do 2 f_equal.
    rewrite !append_assoc_s. reflexivity.
Qed.

Lemma edition_hash_is_a_weak_key_witness :
  let e1 := Scenario.edition "2024-03-05"
              [Scenario.article "art-1" (RawStr (Scenario.letters 50))] in
  let e2 := GazetteEdition.mk
              (EditionMetadata.mk "ed-1" "2024-03-05" 7 true 3 "Extra" "")
              [Scenario.article "art-9" RawNone] in
  length (GazetteEdition.articles e1) = length (GazetteEdition.articles e2)
  /\ e1 <> e2
  /\ ParquetStorage._generate_edition_hash e1 = ParquetStorage._generate_edition_hash e2.
Proof.
  intros e1 e2.
  assert (Hc : length (GazetteEdition.articles e1) = length (GazetteEdition.articles e2))
    by reflexivity.
  split; [exact Hc|]. split; [discriminate|].
  exact (proj1 (proj2 (proj2 (edition_hash_is_a_weak_key e1 e2 Hc))) eq_refl eq_refl).
Defined.

(** ** storage/paths.py: partitions tell dates apart *)

Section Partitions.

Lemma str_of_nat_inj (a b : nat) : Py.str_of_nat a = Py.str_of_nat b -> a = b.
Proof.
  unfold Py.str_of_nat. intros E.
  apply (f_equal NilEmpty.uint_of_string) in E. rewrite !NilEmpty.usu in E.
  injection E as E. apply DecimalN.Unsigned.to_uint_inj in E. lia.
Qed.

Lemma string_of_uint_no_slash (d : Decimal.uint) :
  has_char "/"%char (NilEmpty.string_of_uint d) = false.
Proof. induction d; cbn; [reflexivity | exact IHd ..]. Qed.

Lemma two_digits_no_slash (n : nat) :
  n < 100 -> has_char "/"%char (Spec.two_digits n) = false.
Proof.
  intros Hn.
  assert (Hall : forallb (fun k => negb (has_char "/"%char (Spec.two_digits k)))
                   (seq 0 100) = true) by (vm_compute; reflexivity).
  rewrite forallb_forall in Hall. apply negb_true_iff, Hall, in_seq. lia.
Qed.

Lemma two_digits_inj (n m : nat) :
  n < 100 -> m < 100 -> Spec.two_digits n = Spec.two_digits m -> n = m.
Proof.
  intros Hn Hm E.
  set (value := fun s : string =>
                  match s with
                  | String a (String b EmptyString) =>
                      (nat_of_ascii a - 48) * 10 + (nat_of_ascii b - 48)
                  | _ => 0
                  end).
  assert (Hall : forallb (fun k => Nat.eqb (value (Spec.two_digits k)) k) (seq 0 100)
                 = true) by (vm_compute; reflexivity).
  rewrite forallb_forall in Hall.
  assert (Hval : forall k, k < 100 -> value (Spec.two_digits k) = k).
  { intros k Hk. apply Nat.eqb_eq, Hall, in_seq. lia. }
  rewrite <- (Hval n Hn), <- (Hval m Hm), E. reflexivity.
Qed.

(** Two texts cut at their first slash are equal part by part. *)
Lemma split_at_slash (a b r1 r2 : string) :
  has_char "/"%char a = false -> has_char "/"%char b = false ->
  a +:+ String "/"%char r1 = b +:+ String "/"%char r2 -> a = b /\ r1 = r2.
Proof.
  revert b. induction a as [|x a IH]; intros [|y b] Ha Hb E.
  - injection E as ->. split; reflexivity.
  - exfalso. change ("" +:+ String "/"%char r1) with (String "/"%char r1) in E.
    change (String y b +:+ String "/"%char r2)
      with (String y (b +:+ String "/"%char r2)) in E.
    injection E as <- _. cbn in Hb. discriminate Hb.
  - exfalso. change ("" +:+ String "/"%char r2) with (String "/"%char r2) in E.
    change (String x a +:+ String "/"%char r1)
      with (String x (a +:+ String "/"%char r1)) in E.
    injection E as -> _. cbn in Ha. discriminate Ha.
  - change (String x (a +:+ String "/"%char r1) = String y (b +:+ String "/"%char r2)) in E.
    injection E as -> E. cbn in Ha, Hb.
    apply orb_false_iff in Ha as [_ Ha]. apply orb_false_iff in Hb as [_ Hb].
    destruct (IH b Ha Hb E) as [-> ->]. split; reflexivity.
Qed.

(** X23. On calendar dates the partition key tells dates apart at its own
    granularity: two dates share the "day" key only when they are the same
    date, the "month" key exactly when year and month agree, the "year"
    key exactly when the years agree.  A granularity that is neither
    "year" nor "month" is read as "day". *)
Theorem date_partition_separates (d1 d2 : Datetime.date) (level : string) :
  Datetime.valid_date d1 = true ->
  Datetime.valid_date d2 = true ->
  (Paths.date_partition d1 "day" = Paths.date_partition d2 "day" <-> d1 = d2)
  /\ (Paths.date_partition d1 "month" = Paths.date_partition d2 "month"
      <-> Datetime.year d1 = Datetime.year d2 /\ Datetime.month d1 = Datetime.month d2)
  /\ (Paths.date_partition d1 "year" = Paths.date_partition d2 "year"
      <-> Datetime.year d1 = Datetime.year d2)
  /\ (level <> "year" -> level <> "month" ->
      Paths.date_partition d1 level = Paths.date_partition d1 "day").
Proof.
  intros Hv1 Hv2.
  destruct (valid_date_bounds d1 Hv1) as (Hy1 & Hm1 & Hd1).
  destruct (valid_date_bounds d2 Hv2) as (Hy2 & Hm2 & Hd2).
  assert (Hyear : forall r1 r2,
            "year=" +:+ Py.str_of_nat (Datetime.year d1) +:+ String "/"%char r1
            = "year=" +:+ Py.str_of_nat (Datetime.year d2) +:+ String "/"%char r2 ->
            Datetime.year d1 = Datetime.year d2 /\ r1 = r2).
  { intros r1 r2 E. apply (inj (String.app "year=")) in E.
    apply split_at_slash in E; [|apply string_of_uint_no_slash ..].
    destruct E as [E ->]. split; [exact (str_of_nat_inj _ _ E) | reflexivity]. }
  unfold Paths.date_partition. cbn [String.eqb Ascii.eqb Bool.eqb].
  rewrite !format_0d_two_digits by lia.
  split; [|split; [|split]].
  - split; [|intros ->; reflexivity]. intros E.
    change ("/month=" +:+ ?a) with (String "/"%char ("month=" +:+ a)) in E.
    apply Hyear in E as [Ey E]. apply (inj (String.app "month=")) in E.
    change ("/day=" +:+ ?a) with (String "/"%char ("day=" +:+ a)) in E.
    apply split_at_slash in E; [|apply two_digits_no_slash; lia ..].
    destruct E as [Em E]. apply (inj (String.app "day=")) in E.
    apply two_digits_inj in Em; [|lia ..]. apply two_digits_inj in E; [|lia ..].
    destruct d1, d2; cbn in *; congruence.
  - split; [|intros [-> ->]; reflexivity]. intros E.
    change ("/month=" +:+ ?a) with (String "/"%char ("month=" +:+ a)) in E.
    apply Hyear in E as [Ey E]. apply (inj (String.app "month=")) in E.
    apply two_digits_inj in E; [|lia ..]. split; assumption.
  - split; [|intros ->; reflexivity]. intros E.
    apply (inj (String.app "year=")) in E. exact (str_of_nat_inj _ _ E).
  - intros Hny Hnm.
    destruct (String.eqb_spec level "year") as [|_]; [congruence|].
    destruct (String.eqb_spec level "month") as [|_]; [congruence|].
    reflexivity.
Qed.

End Partitions.

Lemma date_partition_separates_witness :
  Datetime.valid_date (Datetime.mk_date 2024 2 29) = true
  /\ Datetime.valid_date (Datetime.mk_date 2024 2 28) = true
  /\ Paths.date_partition (Datetime.mk_date 2024 2 29) "day"
     <> Paths.date_partition (Datetime.mk_date 2024 2 28) "day"
  /\ Paths.date_partition (Datetime.mk_date 2024 2 29) "month"
     = Paths.date_partition (Datetime.mk_date 2024 2 28) "month"
  /\ Paths.date_partition (Datetime.mk_date 2024 2 29) "week"
     = Paths.date_partition (Datetime.mk_date 2024 2 29) "day".
Proof.
  assert (H1 : Datetime.valid_date (Datetime.mk_date 2024 2 29) = true) by reflexivity.
  assert (H2 : Datetime.valid_date (Datetime.mk_date 2024 2 28) = true) by reflexivity.
  destruct (date_partition_separates (Datetime.mk_date 2024 2 29)
              (Datetime.mk_date 2024 2 28) "week" H1 H2) as (Hd & Hm & _ & Hl).
  split; [exact H1|]. split; [exact H2|]. split; [|split].
  - intros E. apply Hd in E. discriminate E.
  - apply Hm. split; reflexivity.
  - apply Hl; discriminate.
Defined.

(** ** logging/logging.py: which handlers are attached *)

